(** * vpnmon: a shallow embedding of the test-cycle monitor

    The Python sources [vpnmon.py], [vpnmon_utilities.py] and
    [vpnmon_vpnclient.py] are embedded as functions of a state-and-exception
    monad.  Everything the program gets from outside (the child process
    driven through wexpect, the ping library, the file system, the clock)
    is answered by an oracle: a record of functions from the number of the
    call to its answer.  Each call of an outside primitive takes the answer
    at the current [clock] and advances the clock, and leaves an [Event] in
    the [trace].  Console output is not part of the model, apart from the
    banner that opens a test cycle. *)

From Stdlib Require Import ZArith List String Ascii Bool Lia Arith DecimalString.
Import ListNotations.
Open Scope string_scope.

(** ** Python exceptions

    [exit(n)] raises [SystemExit], which is a [BaseException] and not an
    [Exception]: [except Exception] lets it through, a bare [except:]
    catches it. *)

Inductive Exn : Type :=
| SystemExit (code : Z)
| NameError
| IndexError
| ValueError
| PermissionError
| OSError
| WexpectTIMEOUT
| WexpectEOF
| WexpectError
| AttributeError
| OverflowError
| PingError.

Definition is_Exception (e : Exn) : bool :=
  match e with SystemExit _ => false | _ => true end.

Definition is_PermissionError (e : Exn) : bool :=
  match e with PermissionError => true | _ => false end.

Definition any_exception (e : Exn) : bool := true.

(** ** The outside world *)

(** What an [expect] call sees of the child: output carrying the marker
    [s], no matching output before the timeout, or the end of the output. *)
Inductive ChildOutput : Type :=
| Shows (s : string)
| Silent
| Closed.

(** What [time.sleep] does with a length that is not negative: it
    sleeps, or the length is too large for the platform and it raises
    [OverflowError] or [OSError] (where the limit lies depends on the
    interpreter and the operating system). *)
Inductive SleepReply : Type :=
| Slept
| TooLongOverflow
| TooLongOS.

(** Answer of a file operation on the datalog. *)
Inductive FileReply : Type :=
| FOk
| FPermission
| FOther.

Record Env : Type := {
  env_call   : nat -> bool;               (* run, spawn, sendline, terminate: done / raises *)
  env_expect : nat -> ChildOutput;
  env_alive  : nat -> bool;               (* vpn_proc.isalive() *)
  env_ping   : nat -> option (list bool); (* success flags of the responses, or raises *)
  env_exists : nat -> bool;               (* os.path.exists *)
  env_read   : nat -> option string;      (* text of a file opened for reading, or raises *)
  env_file   : nat -> FileReply;
  env_now    : nat -> string * string;    (* date, time of day *)
  env_sleep  : Z -> SleepReply            (* time.sleep on a length >= 0 *)
}.

Inductive Pattern : Type :=
| Pat (s : string)
| TIMEOUT.

Inductive Delay : Type :=
| VPNCLI_CMD_DELAY
| SOUND_DELAY
| DATALOG_RETRY_DELAY
| CYCLE_DELAY (seconds : Z).

Inductive Event : Type :=
| EvRun (cmd : string) (ok : bool)
| EvSpawn (ok : bool)
| EvSendline (s : string) (ok : bool)
| EvExpect (pats : list Pattern) (res : option nat)
| EvTerminate (ok : bool)
| EvIsAlive (b : bool)
| EvPing (siteurlip : string) (count : Z) (res : option (list bool))
| EvSleep (d : Delay)
| EvBell
| EvExists (path : string) (b : bool)
| EvReadFile (path : string) (ok : bool)
| EvFileOpen (path : string) (r : FileReply)
| EvFileWrite (path : string) (row : string) (r : FileReply)
| EvFileClose (path : string) (r : FileReply)
| EvCycleStart (test_cycle : Z)
| EvEnter (f : string).

Record World : Type := {
  env      : Env;
  clock    : nat;
  vpn_proc : option nat;          (* the module global; unbound until a spawn succeeds *)
  sd_vpnclient   : bool;          (* sd.vpnclient holds an instance *)
  sd_datalogfile : option (string * bool);   (* sd.datalogfile: a handle, its path, open or closed *)
  written  : list (string * string);   (* rows on disk: path, row *)
  trace    : list Event
}.

(** ** The monad *)

Inductive Result (A : Type) : Type :=
| Ret (a : A)
| Raise (e : Exn).
Arguments Ret {A} a.
Arguments Raise {A} e.

Definition M (A : Type) : Type := World -> Result A * World.

Definition ret {A} (a : A) : M A := fun w => (Ret a, w).
Definition raise {A} (e : Exn) : M A := fun w => (Raise e, w).
Definition exit {A} (code : Z) : M A := raise (SystemExit code).

Definition bind {A B} (m : M A) (k : A -> M B) : M B :=
  fun w => match m w with
           | (Ret a, w') => k a w'
           | (Raise e, w') => (Raise e, w')
           end.

Notation "x <- m ;; k" := (bind m (fun x => k))
  (at level 61, m at next level, right associativity).
Notation "m ;;; k" := (bind m (fun _ => k))
  (at level 61, right associativity).

(** [try: body except <catches>: handler]. *)
Definition try_except {A} (body : M A) (catches : Exn -> bool)
           (handler : Exn -> M A) : M A :=
  fun w => match body w with
           | (Raise e, w') => if catches e then handler e w' else (Raise e, w')
           | r => r
           end.

Definition emit (ev : Event) : M unit :=
  fun w => (Ret tt, {| env := env w; clock := clock w; vpn_proc := vpn_proc w;
                       sd_vpnclient := sd_vpnclient w;
                       sd_datalogfile := sd_datalogfile w;
                       written := written w; trace := trace w ++ [ev] |}).

(** The number of the next outside call; the clock advances. *)
Definition tick : M nat :=
  fun w => (Ret (clock w),
            {| env := env w; clock := S (clock w); vpn_proc := vpn_proc w;
               sd_vpnclient := sd_vpnclient w;
               sd_datalogfile := sd_datalogfile w;
               written := written w; trace := trace w |}).

Definition ask {A} (f : Env -> A) : M A := fun w => (Ret (f (env w)), w).

Definition sleep (d : Delay) : M unit := emit (EvSleep d).

Definition date_and_tod : M (string * string) :=
  t <- tick ;; now <- ask (fun e => env_now e t) ;; ret now.

(** ** pinger (vpnmon_utilities.py) *)

(** [ping(siteurlip, count = p_count, timeout = p_timeout)]: the success
    flags of the [count] responses. *)
Definition ping (siteurlip : string) (count : Z) : M (list bool) :=
  t <- tick ;;
  r <- ask (fun e => env_ping e t) ;;
  emit (EvPing siteurlip count r) ;;;
  match r with
  | Some l => ret l
  | None => raise PingError
  end.

(** The body of [for i in range(0, p_count)], [n] iterations left. *)
Fixpoint pinger_loop (n : nat) (siteurlip : string) (p_count good : Z) : M Z :=
  match n with
  | O => ret good
  | S n' =>
      ping_list <- ping siteurlip p_count ;;
      match ping_list with
      | [] => raise IndexError                 (* ping_list._responses[0] *)
      | success :: _ =>
          pinger_loop n' siteurlip p_count (if success then good + 1 else good)%Z
      end
  end.

Definition pinger (siteurlip : string) (p_count : Z) : M string :=
  good <- pinger_loop (Z.to_nat p_count) siteurlip p_count 0%Z ;;
  if (good =? p_count)%Z then ret "Good"
  else if (good =? 0)%Z then ret "Fail"
  else ret "Warn".

(** ** VPNClient (vpnmon_vpnclient.py) *)

Definition set_vpn_proc (p : nat) : M unit :=
  fun w => (Ret tt, {| env := env w; clock := clock w; vpn_proc := Some p;
                       sd_vpnclient := sd_vpnclient w;
                       sd_datalogfile := sd_datalogfile w;
                       written := written w; trace := trace w |}).

(** Reading the global [vpn_proc]: a [NameError] while it is unbound. *)
Definition get_vpn_proc : M nat :=
  fun w => match vpn_proc w with
           | Some p => (Ret p, w)
           | None => (Raise NameError, w)
           end.

(** [wexpect.host.run(cmd)]. *)
Definition host_run (cmd : string) : M unit :=
  t <- tick ;;
  ok <- ask (fun e => env_call e t) ;;
  emit (EvRun cmd ok) ;;;
  if ok then ret tt else raise WexpectError.

(** [vpn_proc = wexpect.spawn('cmd.exe', ...)]: the global is bound only
    when the spawn returns. *)
Definition spawn : M unit :=
  t <- tick ;;
  ok <- ask (fun e => env_call e t) ;;
  emit (EvSpawn ok) ;;;
  if ok then set_vpn_proc t else raise WexpectError.

Definition sendline (s : string) : M unit :=
  get_vpn_proc ;;;
  t <- tick ;;
  ok <- ask (fun e => env_call e t) ;;
  emit (EvSendline s ok) ;;;
  if ok then ret tt else raise WexpectError.

Definition terminate : M unit :=
  get_vpn_proc ;;;
  t <- tick ;;
  ok <- ask (fun e => env_call e t) ;;
  emit (EvTerminate ok) ;;;
  if ok then ret tt else raise WexpectError.

Definition isalive : M bool :=
  get_vpn_proc ;;;
  t <- tick ;;
  b <- ask (fun e => env_alive e t) ;;
  emit (EvIsAlive b) ;;;
  ret b.

(** [print(vpn_proc.before)]. *)
Definition print_before : M unit := get_vpn_proc ;;; ret tt.

Definition Pattern_eqb (p q : Pattern) : bool :=
  match p, q with
  | Pat s, Pat t => String.eqb s t
  | TIMEOUT, TIMEOUT => true
  | _, _ => false
  end.

Fixpoint index_of (p : Pattern) (pats : list Pattern) : option nat :=
  match pats with
  | [] => None
  | q :: rest => if Pattern_eqb p q then Some O
                 else option_map S (index_of p rest)
  end.

(** What [expect] answers on the child's output: the index of the pattern
    that matched; with nothing matching, the index of [TIMEOUT] when it is
    among the patterns and a raised TIMEOUT otherwise; EOF is raised. *)
Definition expect_result (pats : list Pattern) (out : ChildOutput)
  : Result nat :=
  let timed_out := match index_of TIMEOUT pats with
                   | Some i => Ret i
                   | None => Raise WexpectTIMEOUT
                   end in
  match out with
  | Shows s => match index_of (Pat s) pats with
               | Some i => Ret i
               | None => timed_out
               end
  | Silent => timed_out
  | Closed => Raise WexpectEOF
  end.

Definition expect (pats : list Pattern) : M nat :=
  get_vpn_proc ;;;
  t <- tick ;;
  out <- ask (fun e => env_expect e t) ;;
  match expect_result pats out with
  | Ret i => emit (EvExpect pats (Some i)) ;;; ret i
  | Raise e => emit (EvExpect pats None) ;;; raise e
  end.

Module VPNClient.

Definition dquote : string := String (ascii_of_nat 34) EmptyString.

Definition cisco_dir : string :=
  "c:\" ++ dquote ++ "Program Files (x86)" ++ dquote ++ "\Cisco".
Definition cisco_cli : string :=
  "\" ++ dquote ++ "Cisco AnyConnect Secure Mobility Client" ++ dquote.
Definition vpncli : string := cisco_dir ++ cisco_cli ++ "\vpncli".

Definition taskkill_vpnui : string := "taskkill /f /im vpnui.exe".
Definition taskkill_vpncli : string := "taskkill /f /im vpncli.exe".

(** The block every failure branch ends with:
    [try: vpn_proc.terminate(force=True); wexpect.host.run(taskkill)]
    [except Exception: print(...)]. *)
Definition teardown : M unit :=
  try_except (terminate ;;; host_run taskkill_vpncli)
             is_Exception (fun _ => ret tt).

(** A step of [open] or [close] either returns from the method
    ([Some v]) or falls through to the next step ([None]). *)
Definition and_then (step : M (option string)) (rest : M string) : M string :=
  r <- step ;;
  match r with
  | Some v => ret v
  | None => rest
  end.

Definition fail_after_teardown : M (option string) :=
  teardown ;;; ret (Some "Fail").

(** Lines 94-102: terminate all other AnyConnect applications. *)
Definition open_preempt : M unit :=
  try_except (host_run taskkill_vpnui ;;; host_run taskkill_vpncli)
             is_Exception (fun _ => exit 1%Z).

(** Lines 104-117: spawn the child process. *)
Definition open_spawn : M unit :=
  try_except (spawn ;;; expect [Pat ">"] ;;; ret tt)
             is_Exception (fun _ => print_before ;;; exit 1%Z).

(** Lines 119-137: start vpncli. *)
Definition open_start_cli : M unit :=
  try_except (sleep VPNCLI_CMD_DELAY ;;; sendline vpncli ;;;
              expect [Pat "VPN>"] ;;; ret tt)
             is_Exception
             (fun _ => print_before ;;; teardown ;;; exit 1%Z).

(** Lines 139-156: make sure the VPN is disconnected. *)
Definition open_disconnect : M unit :=
  try_except (sleep VPNCLI_CMD_DELAY ;;; sendline "disconnect" ;;;
              expect [Pat "VPN>"] ;;; ret tt)
             is_Exception
             (fun _ => print_before ;;; teardown ;;; exit 1%Z).

Definition connect_patterns : list Pattern :=
  [Pat "Username:"; Pat "unsuccessful domain name";
   Pat "Connect not available."; Pat "cannot verify server"; TIMEOUT].

(** Lines 158-246: initiate a connection with the VPN site. *)
Definition open_connect (vpnsitename : string) : M (option string) :=
  try_except
    (sleep VPNCLI_CMD_DELAY ;;;
     sendline ("connect " ++ vpnsitename) ;;;
     index <- expect connect_patterns ;;
     if Nat.eqb index 1 then print_before ;;; fail_after_teardown
     else if Nat.eqb index 2 then print_before ;;; fail_after_teardown
     else if Nat.eqb index 3 then print_before ;;; fail_after_teardown
     else if Nat.eqb index 4 then print_before ;;; fail_after_teardown
     else ret None)
    is_Exception (fun _ => print_before ;;; fail_after_teardown).

Definition password_patterns : list Pattern :=
  [Pat "accept?"; Pat "Login failed"; TIMEOUT].

(** Lines 248-306: enter the VPN login credentials. *)
Definition open_credentials (vpnusername vpnpassword : string)
  : M (option string) :=
  try_except
    (sleep VPNCLI_CMD_DELAY ;;;
     sendline vpnusername ;;;
     expect [Pat "Password:"] ;;;
     sleep VPNCLI_CMD_DELAY ;;;
     sendline vpnpassword ;;;
     index <- expect password_patterns ;;
     if Nat.eqb index 1 then print_before ;;; fail_after_teardown
     else if Nat.eqb index 2 then print_before ;;; fail_after_teardown
     else ret None)
    is_Exception (fun _ => print_before ;;; fail_after_teardown).

Definition banner_patterns : list Pattern :=
  [Pat "state: Connected"; Pat "Please try connecting again";
   Pat "driver encountered an error"; TIMEOUT].

(** Lines 308-384: accept the VPN banner. *)
Definition open_banner (vpnsitename : string) : M (option string) :=
  try_except
    (sleep VPNCLI_CMD_DELAY ;;;
     sendline "y" ;;;
     index <- expect banner_patterns ;;
     if Nat.eqb index 1 then print_before ;;; fail_after_teardown
     else if Nat.eqb index 2 then print_before ;;; fail_after_teardown
     else if Nat.eqb index 3 then print_before ;;; fail_after_teardown
     else
       expect [Pat ("Connected to " ++ vpnsitename)] ;;;
       expect [Pat "VPN>"] ;;;
       ret None)
    is_Exception (fun _ => print_before ;;; fail_after_teardown).

(** Lines 94-156: the steps whose failure is a hard exit. *)
Definition open_prelude : M unit :=
  open_preempt ;;;
  open_spawn ;;;
  open_start_cli ;;;
  open_disconnect.

(** Lines 158-388: the login conversation. *)
Definition open_login (vpnsitename vpnusername vpnpassword : string)
  : M string :=
  and_then (open_connect vpnsitename)
  (and_then (open_credentials vpnusername vpnpassword)
  (and_then (open_banner vpnsitename)
  (ret "Good"))).

Definition open (vpnsitename vpnusername vpnpassword : string) : M string :=
  emit (EvEnter "open") ;;;
  open_prelude ;;;
  open_login vpnsitename vpnusername vpnpassword.

(** Lines 425-443 and 445-463 of [close]. *)
Definition close_step (cmd prompt : string) : M (option string) :=
  try_except
    (sleep VPNCLI_CMD_DELAY ;;; sendline cmd ;;;
     expect [Pat prompt] ;;; ret None)
    is_Exception (fun _ => print_before ;;; fail_after_teardown).

(** Lines 465-472. *)
Definition close_terminate : M (option string) :=
  try_except (terminate ;;; host_run taskkill_vpncli ;;; ret None)
             is_Exception (fun _ => ret (Some "Fail")).

Definition close : M string :=
  emit (EvEnter "close") ;;;
  alive <- isalive ;;
  if negb alive then ret "Good"
  else
    and_then (close_step "disconnect" "VPN>")
    (and_then (close_step "exit" ">")
    (and_then close_terminate
    (ret "Good"))).

End VPNClient.

(** ** Strings and dictionaries as the utilities use them *)

Definition newline : ascii := ascii_of_nat 10.
Definition comma : ascii := ascii_of_nat 44.

(** The lines a text file yields when iterated: each keeps its newline. *)
Fixpoint readlines (s : string) : list string :=
  match s with
  | EmptyString => []
  | String c rest =>
      if Ascii.eqb c newline then String c EmptyString :: readlines rest
      else match readlines rest with
           | [] => [String c EmptyString]
           | l :: ls => String c l :: ls
           end
  end.

(** [line.replace('\n', '')]. *)
Fixpoint remove_newlines (s : string) : string :=
  match s with
  | EmptyString => EmptyString
  | String c rest =>
      if Ascii.eqb c newline then remove_newlines rest
      else String c (remove_newlines rest)
  end.

(** [s.split(sep, maxsplit)]. *)
Fixpoint split (sep : ascii) (maxsplit : nat) (s : string) : list string :=
  match s with
  | EmptyString => [EmptyString]
  | String c rest =>
      match maxsplit with
      | O => [s]
      | S m =>
          if Ascii.eqb c sep then EmptyString :: split sep m rest
          else match split sep maxsplit rest with
               | [] => [String c EmptyString]
               | p :: ps => String c p :: ps
               end
      end
  end.

(** A Python dict of strings: keys in insertion order, an assignment to
    a key already present keeps its place. *)
Definition dict : Type := list (string * string).

Fixpoint dict_set (k v : string) (d : dict) : dict :=
  match d with
  | [] => [(k, v)]
  | (k', v') :: rest =>
      if String.eqb k k' then (k, v) :: rest
      else (k', v') :: dict_set k v rest
  end.

Fixpoint dict_get (k : string) (d : dict) : option string :=
  match d with
  | [] => None
  | (k', v') :: rest => if String.eqb k k' then Some v' else dict_get k rest
  end.

(** [str(n)] for an integer. *)
Definition str (n : Z) : string :=
  match n with
  | Z0 => "0"
  | Zpos p => DecimalString.NilEmpty.string_of_uint (Pos.to_uint p)
  | Zneg p => "-" ++ DecimalString.NilEmpty.string_of_uint (Pos.to_uint p)
  end.

(** ** get_targets (vpnmon_utilities.py) *)

Definition path_exists (path : string) : M bool :=
  t <- tick ;;
  b <- ask (fun e => env_exists e t) ;;
  emit (EvExists path b) ;;;
  ret b.

(** [open(path, 'r')] and the iteration over the file: its lines, or an
    [OSError]. *)
Definition read_lines (path : string) : M (list string) :=
  t <- tick ;;
  r <- ask (fun e => env_read e t) ;;
  match r with
  | Some text => emit (EvReadFile path true) ;;; ret (readlines text)
  | None => emit (EvReadFile path false) ;;; raise OSError
  end.

Fixpoint get_targets_loop (lines : list string) (targets : dict) : M dict :=
  match lines with
  | [] => ret targets
  | line :: rest =>
      let line := remove_newlines line in
      let ip_and_name := split comma 2 line in
      match ip_and_name with
      | ip :: name :: _ => get_targets_loop rest (dict_set ip name targets)
      | _ => raise IndexError                       (* ip_and_name[1] *)
      end
  end.

Definition get_targets (targets_file : string) : M dict :=
  found <- path_exists targets_file ;;
  if found then
    try_except
      (lines <- read_lines targets_file ;; get_targets_loop lines [])
      is_Exception (fun _ => exit 1%Z)
  else ret [].

(** ** sounder *)

Fixpoint sounder_loop (n : nat) : M unit :=
  match n with
  | O => ret tt
  | S n' => emit EvBell ;;; sleep SOUND_DELAY ;;; sounder_loop n'
  end.

Definition sounder (s_count : Z) (s_quiet : bool) : M unit :=
  emit (EvEnter "sounder") ;;;
  if negb s_quiet then sounder_loop (Z.to_nat s_count) else ret tt.

(** ** datalogger *)

Definition VPNMON_DATALOG_WRITE_MAX_RETRIES : nat := 5.

Definition set_datalogfile (h : option (string * bool)) : M unit :=
  fun w => (Ret tt, {| env := env w; clock := clock w; vpn_proc := vpn_proc w;
                       sd_vpnclient := sd_vpnclient w;
                       sd_datalogfile := h;
                       written := written w; trace := trace w |}).

Definition append_row (path row : string) : M unit :=
  fun w => (Ret tt, {| env := env w; clock := clock w; vpn_proc := vpn_proc w;
                       sd_vpnclient := sd_vpnclient w;
                       sd_datalogfile := sd_datalogfile w;
                       written := written w ++ [(path, row)];
                       trace := trace w |}).

Definition file_error {A} (r : FileReply) (ok : M A) : M A :=
  match r with
  | FOk => ok
  | FPermission => raise PermissionError
  | FOther => raise OSError
  end.

(** [sd.datalogfile = open(datalog_file, 'a')]. *)
Definition file_open (path : string) : M unit :=
  t <- tick ;;
  r <- ask (fun e => env_file e t) ;;
  emit (EvFileOpen path r) ;;;
  file_error r (set_datalogfile (Some (path, true))).

Definition file_write (path row : string) : M unit :=
  t <- tick ;;
  r <- ask (fun e => env_file e t) ;;
  emit (EvFileWrite path row r) ;;;
  file_error r (append_row path row).

Definition file_close (path : string) : M unit :=
  t <- tick ;;
  r <- ask (fun e => env_file e t) ;;
  emit (EvFileClose path r) ;;;
  file_error r (set_datalogfile (Some (path, false))).

Fixpoint write_entries (path : string) (test_data : dict) : M unit :=
  match test_data with
  | [] => ret tt
  | (_, row) :: rest => file_write path row ;;; write_entries path rest
  end.

(** [sd.vpnclient.close()]: the shared item is the string [''] until main
    stores the instance, and a string has no [close]. *)
Definition sd_vpnclient_close : M string :=
  fun w => if sd_vpnclient w then VPNClient.close w
           else (Raise AttributeError, w).

(** The [try] block of lines 347-351. *)
Definition datalogger_try (datalog_file : string) (test_data : dict)
  : M bool :=
  file_open datalog_file ;;;
  write_entries datalog_file test_data ;;;
  file_close datalog_file ;;;
  ret true.

(** One pass of [while write_retry > 0], entered with
    [write_retry = S n]: [true] when the rows were written. *)
Definition datalogger_attempt (n : nat) (datalog_file : string)
           (test_data : dict) : M bool :=
  try_except
    (datalogger_try datalog_file test_data)
    is_Exception
    (fun e =>
       if is_PermissionError e then
         (if Nat.ltb 0 n then sleep DATALOG_RETRY_DELAY else ret tt) ;;;
         ret false
       else
         try_except (sd_vpnclient_close ;;; ret tt)
                    any_exception (fun _ => ret tt) ;;;
         exit 1%Z).

Fixpoint datalogger_loop (write_retry : nat) (datalog_file : string)
         (test_data : dict) : M string :=
  match write_retry with
  | O => ret "Fail"
  | S n =>
      done <- datalogger_attempt n datalog_file test_data ;;
      if done then ret "Good"
      else datalogger_loop n datalog_file test_data
  end.

Definition datalogger (datalog_file : string) (test_data : dict) : M string :=
  emit (EvEnter "datalogger") ;;;
  datalogger_loop VPNMON_DATALOG_WRITE_MAX_RETRIES datalog_file test_data.

(** ** get_params *)

(** Values of the [params] dictionary: defaults are integers and a
    boolean, entries read from the parameters file are strings. *)
Inductive PyVal : Type :=
| VStr (s : string)
| VInt (z : Z)
| VBool (b : bool).

Definition pdict : Type := list (string * PyVal).

Fixpoint pdict_mem (k : string) (d : pdict) : bool :=
  match d with
  | [] => false
  | (k', _) :: rest => String.eqb k k' || pdict_mem k rest
  end.

Fixpoint pdict_set (k : string) (v : PyVal) (d : pdict) : pdict :=
  match d with
  | [] => [(k, v)]
  | (k', v') :: rest =>
      if String.eqb k k' then (k, v) :: rest
      else (k', v') :: pdict_set k v rest
  end.

Fixpoint pdict_get (k : string) (d : pdict) : PyVal :=
  match d with
  | [] => VStr ""
  | (k', v') :: rest => if String.eqb k k' then v' else pdict_get k rest
  end.

Definition lower_ascii (c : ascii) : ascii :=
  let n := nat_of_ascii c in
  if Nat.leb 65 n && Nat.leb n 90 then ascii_of_nat (n + 32) else c.

Fixpoint lower (s : string) : string :=
  match s with
  | EmptyString => EmptyString
  | String c rest => String (lower_ascii c) (lower rest)
  end.

Definition is_space (c : ascii) : bool :=
  let n := nat_of_ascii c in
  Nat.eqb n 32 || (Nat.leb 9 n && Nat.leb n 13).

Definition digit_of (c : ascii) : option Z :=
  let n := nat_of_ascii c in
  if Nat.leb 48 n && Nat.leb n 57 then Some (Z.of_nat (n - 48)) else None.

Fixpoint lstrip (s : string) : string :=
  match s with
  | EmptyString => EmptyString
  | String c rest => if is_space c then lstrip rest else s
  end.

Fixpoint rstrip (s : string) : string :=
  match s with
  | EmptyString => EmptyString
  | String c rest =>
      match rstrip rest with
      | EmptyString => if is_space c then EmptyString
                       else String c EmptyString
      | r => String c r
      end
  end.

(** Decimal digits, single underscores allowed between two digits. *)
Fixpoint int_digits (s : string) (acc : Z) (after_digit : bool) : option Z :=
  match s with
  | EmptyString => if after_digit then Some acc else None
  | String c rest =>
      match digit_of c with
      | Some d => int_digits rest (10 * acc + d)%Z true
      | None =>
          if Ascii.eqb c (ascii_of_nat 95) && after_digit
          then int_digits rest acc false
          else None
      end
  end.

(** [int(s)] on a string of ASCII characters. *)
Definition int_of_string (s : string) : option Z :=
  match rstrip (lstrip s) with
  | String c rest =>
      if Ascii.eqb c (ascii_of_nat 45)
      then option_map Z.opp (int_digits rest 0%Z false)
      else if Ascii.eqb c (ascii_of_nat 43) then int_digits rest 0%Z false
      else int_digits (String c rest) 0%Z false
  | EmptyString => None
  end.

Definition int (v : PyVal) : M Z :=
  match v with
  | VInt z => ret z
  | VBool b => ret (if b then 1 else 0)%Z
  | VStr s => match int_of_string s with
              | Some z => ret z
              | None => raise ValueError
              end
  end.

Definition VPNMON_PARAMS_FILE : string := "vpnmon_params.csv".
Definition VPNMON_TARGETS_FILE_DEFAULT : string := "vpnmon_targets.csv".
Definition VPNMON_DATALOG_FILE_DEFAULT : string := "vpnmon_datalog.csv".

Definition default_params : pdict :=
  [("vpnname", VStr "VPN Gateway"); ("vpnurlip", VStr "");
   ("username", VStr ""); ("password", VStr "");
   ("targets", VStr VPNMON_TARGETS_FILE_DEFAULT);
   ("cycles", VInt 200); ("delay", VInt 1800);
   ("datalog", VStr VPNMON_DATALOG_FILE_DEFAULT);
   ("quiet", VBool false)].

Fixpoint get_params_loop (lines : list string) (params : pdict) : M pdict :=
  match lines with
  | [] => ret params
  | line :: rest =>
      let line := remove_newlines line in
      let param_entry := split comma 2 line in
      match param_entry with
      | [] => raise IndexError
      | name :: fields =>
          if pdict_mem (lower name) params then
            match fields with
            | value :: _ =>
                get_params_loop rest (pdict_set (lower name) (VStr value) params)
            | [] => raise IndexError                 (* param_entry[1] *)
            end
          else get_params_loop rest params
      end
  end.

(** The command line after [parser.parse_args()]. *)
Record Args : Type := {
  arg_version  : bool;
  arg_vpnname  : option string;
  arg_vpnurlip : option string;
  arg_username : option string;
  arg_password : option string;
  arg_targets  : option string;
  arg_cycles   : option Z;
  arg_delay    : option Z;
  arg_datalog  : option string;
  arg_quiet    : bool
}.

(** The dictionary [get_params] returns, as [main] reads it. *)
Record Params : Type := {
  vpnname  : string;
  vpnurlip : string;
  username : string;
  password : string;
  targets  : string;
  cycles   : Z;
  delay    : Z;
  datalog  : string;
  quiet    : bool
}.

Definition override (k : string) (a : option string) (d : pdict) : pdict :=
  match a with
  | Some s => pdict_set k (VStr s) d
  | None => d
  end.

Definition override_int (k : string) (a : option Z) (d : pdict) : pdict :=
  match a with
  | Some z => pdict_set k (VInt z) d
  | None => d
  end.

Definition PyVal_is_empty_str (v : PyVal) : bool :=
  match v with
  | VStr EmptyString => true
  | _ => false
  end.

(** Lines 107-128: the optional parameters file. *)
Definition read_params_file : M pdict :=
  found <- path_exists VPNMON_PARAMS_FILE ;;
  if found then
    try_except
      (lines <- read_lines VPNMON_PARAMS_FILE ;;
       params <- get_params_loop lines default_params ;;
       c <- int (pdict_get "cycles" params) ;;
       let params := pdict_set "cycles" (VInt c) params in
       d <- int (pdict_get "delay" params) ;;
       ret (pdict_set "delay" (VInt d) params))
      is_Exception (fun _ => exit 1%Z)
  else ret default_params.

Definition int_value (v : PyVal) : Z :=
  match v with
  | VInt z => z
  | VBool b => if b then 1%Z else 0%Z
  | VStr _ => 0%Z
  end.

(** The entries [main] uses as strings hold strings: defaults, file fields
    and command-line values all are. *)
Definition str_value (v : PyVal) : string :=
  match v with
  | VStr s => s
  | VInt z => str z
  | VBool b => if b then "True" else "False"
  end.

Definition get_params (args : Args) : M Params :=
  params <- read_params_file ;;
  if arg_version args then exit 0%Z
  else
    let params := override "vpnname" (arg_vpnname args) params in
    let params := override "vpnurlip" (arg_vpnurlip args) params in
    if PyVal_is_empty_str (pdict_get "vpnurlip" params) then exit 0%Z
    else
      let params := override "username" (arg_username args) params in
      let params := override "password" (arg_password args) params in
      let params := override "targets" (arg_targets args) params in
      let params := override_int "cycles" (arg_cycles args) params in
      let params := override_int "delay" (arg_delay args) params in
      let params := override "datalog" (arg_datalog args) params in
      let params := pdict_set "quiet" (VBool (arg_quiet args)) params in
      ret {| vpnname := str_value (pdict_get "vpnname" params);
             vpnurlip := str_value (pdict_get "vpnurlip" params);
             username := str_value (pdict_get "username" params);
             password := str_value (pdict_get "password" params);
             targets := str_value (pdict_get "targets" params);
             cycles := int_value (pdict_get "cycles" params);
             delay := int_value (pdict_get "delay" params);
             datalog := str_value (pdict_get "datalog" params);
             quiet := arg_quiet args |}.

(** ** main (vpnmon.py) *)

Definition set_sd_vpnclient : M unit :=
  fun w => (Ret tt, {| env := env w; clock := clock w; vpn_proc := vpn_proc w;
                       sd_vpnclient := true;
                       sd_datalogfile := sd_datalogfile w;
                       written := written w; trace := trace w |}).

(** One line of the datalog:
    [cycle,date,time,kind,outcome,address,label]. *)
Definition record_row (test_cycle : Z)
           (date tod kind result address name : string) : string :=
  str test_cycle ++ "," ++ date ++ "," ++ tod ++ "," ++ kind ++ ","
      ++ result ++ "," ++ address ++ "," ++ name
      ++ String newline EmptyString.

(** [time.sleep(params['delay'])]: a negative length is a [ValueError],
    a length too large for the platform an [OverflowError] or an
    [OSError]. *)
Definition sleep_seconds (seconds : Z) : M unit :=
  if (seconds <? 0)%Z then raise ValueError
  else
    r <- ask (fun e => env_sleep e seconds) ;;
    match r with
    | Slept => sleep (CYCLE_DELAY seconds)
    | TooLongOverflow => raise OverflowError
    | TooLongOS => raise OSError
    end.

(** The state of a cycle: the results gathered so far and the target
    ping counters. *)
Record Cycle : Type := {
  test_results : dict;
  tgood : Z;
  twarn : Z;
  tfail : Z
}.

Definition count_result (result expected : string) (n : Z) : Z :=
  if String.eqb result expected then (n + 1)%Z else n.

(** Lines 193-212: the body of [for target in targets], over the entries
    of [targets] still to visit. *)
Fixpoint ping_targets (params : Params) (test_cycle : Z)
         (todo : dict) (c : Cycle) : M Cycle :=
  match todo with
  | [] => ret c
  | (target, name) :: rest =>
      now <- date_and_tod ;;
      target_ping_result <- pinger target 2%Z ;;
      (if negb (String.eqb target_ping_result "Good")
       then sounder 1%Z (quiet params) else ret tt) ;;;
      ping_targets params test_cycle rest
        {| test_results :=
             dict_set target
               (record_row test_cycle (fst now) (snd now) "Target ping"
                           target_ping_result target name)
               (test_results c);
           tgood := count_result target_ping_result "Good" (tgood c);
           twarn := count_result target_ping_result "Warn" (twarn c);
           tfail := count_result target_ping_result "Fail" (tfail c) |}
  end.

(** Lines 214-231: close the VPN connection and record the result. *)
Definition close_vpn (params : Params) (test_cycle : Z) (c : Cycle)
  : M Cycle :=
  now <- date_and_tod ;;
  vpn_close_result <- VPNClient.close ;;
  (if negb (String.eqb vpn_close_result "Good")
   then sounder 3%Z (quiet params) else ret tt) ;;;
  ret {| test_results :=
           dict_set "VPN close"
             (record_row test_cycle (fst now) (snd now) "VPN close"
                         vpn_close_result (vpnurlip params) (vpnname params))
             (test_results c);
         tgood := tgood c; twarn := twarn c; tfail := tfail c |}.

(** Lines 191-250: what a cycle does once [vpn_open_result] is known. *)
Definition after_open (params : Params) (test_cycle : Z) (targets : dict)
           (vpn_open_result : string) (c : Cycle) : M unit :=
  c <- (if String.eqb vpn_open_result "Good"
        then ping_targets params test_cycle targets c else ret c) ;;
  c <- (if String.eqb vpn_open_result "Good"
        then close_vpn params test_cycle c else ret c) ;;
  datalogger (datalog params) (test_results c) ;;;
  date_and_tod ;;;
  ret tt.

(** Lines 150-189: ping the VPN site and, when the ping was good, open the
    connection; the result of the open and the records so far. *)
Definition ping_and_open (params : Params) (test_cycle : Z)
  : M (string * Cycle) :=
  now <- date_and_tod ;;
  vpn_ping_result <- pinger (vpnurlip params) 2%Z ;;
  (if negb (String.eqb vpn_ping_result "Good")
   then sounder 3%Z (quiet params) else ret tt) ;;;
  let results :=
    dict_set "VPN ping"
      (record_row test_cycle (fst now) (snd now) "VPN ping"
                  vpn_ping_result (vpnurlip params) (vpnname params)) [] in
  opened <- (if String.eqb vpn_ping_result "Good"
             then now <- date_and_tod ;;
                  r <- VPNClient.open (vpnurlip params) (username params)
                                      (password params) ;;
                  ret (now, r)
             else ret (now, "Fail")) ;;
  let now := fst opened in
  let vpn_open_result := snd opened in
  (if negb (String.eqb vpn_open_result "Good")
   then sounder 3%Z (quiet params) else ret tt) ;;;
  ret (vpn_open_result,
       {| test_results :=
            dict_set "VPN open"
              (record_row test_cycle (fst now) (snd now) "VPN open"
                          vpn_open_result (vpnurlip params) (vpnname params))
              results;
          tgood := 0; twarn := 0; tfail := 0 |}).

(** Lines 132-250: one test cycle. *)
Definition run_cycle (params : Params) (test_cycle : Z) : M unit :=
  targets <- get_targets (targets params) ;;
  date_and_tod ;;;
  emit (EvCycleStart test_cycle) ;;;
  oc <- ping_and_open params test_cycle ;;
  after_open params test_cycle targets (fst oc) (snd oc).

(** [while not count == 0], with [fuel] passes allowed: the final value
    of [test_cycle] when the loop ends, [None] when the fuel runs out
    first (a negative [count] never ends). *)
Fixpoint main_loop (fuel : nat) (params : Params) (count test_cycle : Z)
  : M (option Z) :=
  if (count =? 0)%Z then ret (Some test_cycle)
  else
    match fuel with
    | O => ret None
    | S fuel' =>
        run_cycle params test_cycle ;;;
        let count := if (0 <? count)%Z then (count - 1)%Z else count in
        if (count =? 0)%Z then main_loop fuel' params count test_cycle
        else
          date_and_tod ;;;
          sleep_seconds (delay params) ;;;
          main_loop fuel' params count (test_cycle + 1)%Z
    end.

(** [main()] ends in [exit(0)]; it yields a value only when the fuel ran
    out before the loop ended. *)
Definition main (fuel : nat) (args : Args) : M unit :=
  params <- get_params args ;;
  set_sd_vpnclient ;;;
  r <- main_loop fuel params (cycles params) 1%Z ;;
  match r with
  | Some _ => date_and_tod ;;; exit 0%Z
  | None => ret tt
  end.

(** ** signal_handler *)

(** [sd.datalogfile.close()]: nothing to do on a closed handle; the
    string [''] has no [close]. *)
Definition sd_datalogfile_close : M unit :=
  fun w => match sd_datalogfile w with
           | Some (path, true) => file_close path w
           | Some (_, false) => (Ret tt, w)
           | None => (Raise AttributeError, w)
           end.

Definition signal_handler : M unit :=
  try_except
    (fun w => if sd_vpnclient w then (VPNClient.close ;;; ret tt) w
              else (Ret tt, w))
    any_exception (fun _ => ret tt) ;;;
  try_except
    (fun w => match sd_datalogfile w with
              | Some _ => sd_datalogfile_close w
              | None => (Ret tt, w)
              end)
    any_exception (fun _ => ret tt) ;;;
  exit 0%Z.

(** The status the interpreter ends the process with: the code of a
    [SystemExit], 1 for any other exception that nothing caught, 0 when
    the program runs off its end. *)
Definition exit_status {A} (r : Result A) : Z :=
  match r with
  | Ret _ => 0%Z
  | Raise (SystemExit code) => code
  | Raise _ => 1%Z
  end.

(** * Vocabulary of the properties *)

Open Scope list_scope.

(** ** pinger *)

(** The first response of the ping call numbered [t] succeeded. *)
Definition ping_succeeded (e : Env) (t : nat) : bool :=
  match env_ping e t with
  | Some (true :: _) => true
  | _ => false
  end.

(** The ping call numbered [t] returned at least one response. *)
Definition ping_answered (e : Env) (t : nat) : bool :=
  match env_ping e t with
  | Some (_ :: _) => true
  | _ => false
  end.

(** Among the [k] ping calls from [t] on: how many succeeded, and whether
    all of them answered. *)
Fixpoint successes (e : Env) (t k : nat) : nat :=
  match k with
  | O => O
  | S k' => (if ping_succeeded e t then 1 else 0) + successes e (S t) k'
  end.

Fixpoint all_answered (e : Env) (t k : nat) : bool :=
  match k with
  | O => true
  | S k' => ping_answered e t && all_answered e (S t) k'
  end.


(** ** Traces *)

(** [m] only appends events that [p] accepts, leaves the oracle and the
    shared client instance as it found them, and leaves a bound child
    bound. *)
Definition appends (p : Event -> bool) {A} (m : M A) : Prop :=
  forall w, exists evs,
    trace (snd (m w)) = trace w ++ evs
    /\ forallb p evs = true
    /\ env (snd (m w)) = env w
    /\ sd_vpnclient (snd (m w)) = sd_vpnclient w
    /\ (vpn_proc w <> None -> vpn_proc (snd (m w)) <> None).

(** The events of the outside calls and of the short waits: all but the
    cycle banner, the wait between two cycles and the entries of methods. *)
Definition is_plain (ev : Event) : bool :=
  match ev with
  | EvCycleStart _ => false
  | EvSleep (CYCLE_DELAY _) => false
  | EvEnter _ => false
  | _ => true
  end.

Definition any_event (ev : Event) : bool := true.

Definition Event_is_enter (f : string) (ev : Event) : bool :=
  match ev with
  | EvEnter g => String.eqb f g
  | _ => false
  end.

(** A world at the start of the process: nothing bound, nothing stored in
    the shared items, nothing written.  ([vpnmon_shared_data] is not among
    the sources; the comparisons of [signal_handler] with [''] show what
    its items hold before [main] stores into them.) *)
Definition initial_world (e : Env) : World :=
  {| env := e; clock := 0; vpn_proc := None; sd_vpnclient := false;
     sd_datalogfile := None; written := []; trace := [] |}.

(** ** get_targets *)

Fixpoint contains (c : ascii) (s : string) : bool :=
  match s with
  | EmptyString => false
  | String c' rest => Ascii.eqb c' c || contains c rest
  end.

(** Every line of the text holds a comma. *)
Definition every_line_has_comma (text : string) : bool :=
  forallb (contains comma) (readlines text).

(** A world in which the targets file exists and reads as [text]. *)
Definition targets_env (text : string) : Env :=
  {| env_call := fun _ => true;
     env_expect := fun _ => Silent;
     env_alive := fun _ => false;
     env_ping := fun _ => Some [true];
     env_exists := fun _ => true;
     env_read := fun _ => Some text;
     env_file := fun _ => FOk;
     env_now := fun _ => ("2021/04/18", "12:00:00");
     env_sleep := fun _ => Slept |}.

(** ** datalogger *)

(** The rows of [test_data] as they land in [datalog_file]. *)
Definition rows_of (datalog_file : string) (test_data : dict)
  : list (string * string) :=
  map (fun entry => (datalog_file, snd entry)) test_data.

(** The file answers [r] to the [n] operations from call [t] on. *)
Definition file_answers (e : Env) (r : FileReply) (t n : nat) : Prop :=
  forall i, i < n -> env_file e (t + i) = r.

(** An oracle whose datalog is held by another program for the first
    [busy] attempts; [broken] makes the next operation fail otherwise. *)
Definition datalog_env (busy : nat) (broken : bool) : Env :=
  {| env_call := fun _ => true;
     env_expect := fun _ => Silent;
     env_alive := fun _ => false;
     env_ping := fun _ => Some [true];
     env_exists := fun _ => false;
     env_read := fun _ => None;
     env_file := fun t => if Nat.ltb t busy then FPermission
                          else if broken && Nat.eqb t busy then FOther
                          else FOk;
     env_now := fun _ => ("2021/04/18", "12:00:00");
     env_sleep := fun _ => Slept |}.

Definition sample_rows : dict :=
  [("VPN ping", "1,2021/04/18,12:00:00,VPN ping,Good,10.0.0.1,gw");
   ("VPN open", "1,2021/04/18,12:00:00,VPN open,Good,10.0.0.1,gw")].

(** The world [main] leaves once it has stored the client instance. *)
Definition started_world (e : Env) : World :=
  {| env := e; clock := 0; vpn_proc := None; sd_vpnclient := true;
     sd_datalogfile := None; written := []; trace := [] |}.

(** An oracle whose first ping call succeeds and whose later ones fail. *)
Definition mixed_ping_env : Env :=
  {| env_call := fun _ => true;
     env_expect := fun _ => Silent;
     env_alive := fun _ => false;
     env_ping := fun t => Some [Nat.eqb t 0; Nat.eqb t 0];
     env_exists := fun _ => false;
     env_read := fun _ => None;
     env_file := fun _ => FOk;
     env_now := fun _ => ("2021/04/18", "12:00:00");
     env_sleep := fun _ => Slept |}.

(** ** VPNClient.open *)

(** The events of the three login steps when each expected pattern is the
    one that matches. *)
Definition connect_good (site : string) : list Event :=
  [EvSleep VPNCLI_CMD_DELAY;
   EvSendline ("connect " ++ site)%string true;
   EvExpect VPNClient.connect_patterns (Some 0)].

Definition credentials_good (user pass : string) : list Event :=
  [EvSleep VPNCLI_CMD_DELAY; EvSendline user true;
   EvExpect [Pat "Password:"] (Some 0);
   EvSleep VPNCLI_CMD_DELAY; EvSendline pass true;
   EvExpect VPNClient.password_patterns (Some 0)].

Definition banner_good (site : string) : list Event :=
  [EvSleep VPNCLI_CMD_DELAY; EvSendline "y" true;
   EvExpect VPNClient.banner_patterns (Some 0);
   EvExpect [Pat ("Connected to " ++ site)%string] (Some 0);
   EvExpect [Pat "VPN>"] (Some 0)].

Definition login_good (site user pass : string) : list Event :=
  connect_good site ++ credentials_good user pass ++ banner_good site.

(** The events of lines 94-156 when nothing goes wrong. *)
Definition prelude_good : list Event :=
  [EvRun VPNClient.taskkill_vpnui true;
   EvRun VPNClient.taskkill_vpncli true;
   EvSpawn true; EvExpect [Pat ">"] (Some 0);
   EvSleep VPNCLI_CMD_DELAY; EvSendline VPNClient.vpncli true;
   EvExpect [Pat "VPN>"] (Some 0);
   EvSleep VPNCLI_CMD_DELAY; EvSendline "disconnect" true;
   EvExpect [Pat "VPN>"] (Some 0)].

(** The conversation of an [open] that succeeds: every [expect] answers
    with index 0, the pattern the step waits for. *)
Definition open_good (site user pass : string) : list Event :=
  EvEnter "open" :: prelude_good ++ login_good site user pass.

(** The events end with the forced teardown: a [terminate] that raised,
    or a [terminate] followed by the taskkill of vpncli. *)
Definition ends_in_teardown (evs : list Event) : bool :=
  match rev evs with
  | EvTerminate false :: _ => true
  | EvRun cmd _ :: EvTerminate true :: _ =>
      String.eqb cmd VPNClient.taskkill_vpncli
  | _ => false
  end.

(** What a step of the login does from a world with the child bound:
    it falls through after exactly the events [good], or it returns
    "Fail" after events that end with the teardown. *)
Definition step_spec (good : list Event) (step : M (option string)) : Prop :=
  forall w pid,
    vpn_proc w = Some pid ->
    (exists w',
        step w = (Ret None, w')
        /\ trace w' = trace w ++ good /\ vpn_proc w' = Some pid)
    \/ (exists w' evs,
           step w = (Ret (Some "Fail"%string), w')
           /\ trace w' = trace w ++ evs
           /\ forall pre, ends_in_teardown (pre ++ evs) = true).

Definition login_spec (good : list Event) (m : M string) : Prop :=
  forall w pid,
    vpn_proc w = Some pid ->
    (exists w',
        m w = (Ret "Good"%string, w')
        /\ trace w' = trace w ++ good /\ vpn_proc w' = Some pid)
    \/ (exists w' evs,
           m w = (Ret "Fail"%string, w')
           /\ trace w' = trace w ++ evs
           /\ forall pre, ends_in_teardown (pre ++ evs) = true).

(** An oracle in which the shell starts but vpncli never shows its
    prompt. *)
Definition no_cli_env : Env :=
  {| env_call := fun _ => true;
     env_expect := fun t => if Nat.eqb t 3 then Shows ">" else Silent;
     env_alive := fun _ => true;
     env_ping := fun _ => Some [true; true];
     env_exists := fun _ => false;
     env_read := fun _ => None;
     env_file := fun _ => FOk;
     env_now := fun _ => ("2021/04/18", "12:00:00");
     env_sleep := fun _ => Slept |}.

(** ** The test cycle *)

Definition count_events (p : Event -> bool) (evs : list Event) : nat :=
  List.length (filter p evs).

(** The outcome field of a datalog row. *)
Definition row_result (row : string) : string :=
  nth 4 (split comma 6 row) ""%string.

Definition fail_rows (rows : list (string * string)) : nat :=
  List.length
    (filter (fun r => String.eqb (row_result (snd r)) "Fail") rows).

Definition sample_params : Params :=
  {| vpnname := "VPN Gateway"; vpnurlip := "10.0.0.1";
     username := "user"; password := "secret";
     targets := "vpnmon_targets.csv"; cycles := 1; delay := 0;
     datalog := "vpnmon_datalog.csv"; quiet := false |}.

(** An oracle in which no ping is answered with success and there is no
    targets file. *)
Definition gateway_down_env : Env :=
  {| env_call := fun _ => true;
     env_expect := fun _ => Silent;
     env_alive := fun _ => false;
     env_ping := fun _ => Some [false; false];
     env_exists := fun _ => false;
     env_read := fun _ => None;
     env_file := fun _ => FOk;
     env_now := fun _ => ("2021/04/18", "12:00:00");
     env_sleep := fun _ => Slept |}.

(** Neither the entry of [close] nor the entry of [datalogger]. *)
Definition not_close_nor_flush (ev : Event) : bool :=
  negb (Event_is_enter "close" ev) && negb (Event_is_enter "datalogger" ev).

(** Neither the banner of a cycle nor the wait between two cycles. *)
Definition is_marker (ev : Event) : bool :=
  match ev with
  | EvCycleStart _ => true
  | EvSleep (CYCLE_DELAY _) => true
  | _ => false
  end.

Definition not_marker (ev : Event) : bool := negb (is_marker ev).

(** An oracle for a whole cycle from call 0 on: the targets file exists
    and lists one target, the gateway answers its pings, the session
    opens (each [expect] of [open] sees the pattern it waits for), and the
    ping of the target raises. *)
Definition session_script : list ChildOutput :=
  [Shows ">"; Silent; Shows "VPN>"; Silent; Shows "VPN>"; Silent;
   Shows "Username:"; Silent; Shows "Password:"; Silent; Shows "accept?";
   Silent; Shows "state: Connected"; Shows "Connected to 10.0.0.1";
   Shows "VPN>"].

Definition target_raises_env : Env :=
  {| env_call := fun _ => true;
     env_expect := fun t => nth (t - 10) session_script Silent;
     env_alive := fun _ => true;
     env_ping := fun t => if Nat.ltb t 26 then Some [true; true] else None;
     env_exists := fun _ => true;
     env_read := fun _ =>
       Some ("10.0.0.2,host-a" ++ String newline "")%string;
     env_file := fun _ => FOk;
     env_now := fun _ => ("2021/04/18", "12:00:00");
     env_sleep := fun _ => Slept |}.

(** The same cycle with a target that answers. *)
Definition all_good_env : Env :=
  {| env_call := fun _ => true;
     env_expect := fun t =>
       if Nat.ltb t 25 then nth (t - 10) session_script Silent
       else Shows (if Nat.eqb t 31 then "VPN>" else ">");
     env_alive := fun _ => true;
     env_ping := fun _ => Some [true; true];
     env_exists := fun _ => true;
     env_read := fun _ =>
       Some ("10.0.0.2,host-a" ++ String newline "")%string;
     env_file := fun _ => FOk;
     env_now := fun _ => ("2021/04/18", "12:00:00");
     env_sleep := fun _ => Slept |}.

(** A world right after an [open] that returned "Good". *)
Definition opened_world : World :=
  {| env := all_good_env; clock := 25; vpn_proc := Some 9;
     sd_vpnclient := true; sd_datalogfile := None; written := [];
     trace := [] |}.

Definition sample_cycle : Cycle :=
  {| test_results := sample_rows; tgood := 0; twarn := 0; tfail := 0 |}.

(** ** The main loop *)

Definition is_cycle_start (ev : Event) : bool :=
  match ev with
  | EvCycleStart _ => true
  | _ => false
  end.

Definition is_cycle_sleep (ev : Event) : bool :=
  match ev with
  | EvSleep (CYCLE_DELAY _) => true
  | _ => false
  end.

(** The banners and waits of [k] cycles numbered from [test_cycle]: a
    wait between two cycles, none after the last. *)
Fixpoint cycle_markers (seconds : Z) (k : nat) (test_cycle : Z)
  : list Event :=
  match k with
  | O => []
  | S k' =>
      EvCycleStart test_cycle ::
      match k' with
      | O => []
      | S _ => EvSleep (CYCLE_DELAY seconds)
               :: cycle_markers seconds k' (test_cycle + 1)%Z
      end
  end.

(** [time.sleep] takes the length: it is not negative and not too large
    for the platform. *)
Definition sleep_accepts (e : Env) (seconds : Z) : bool :=
  (0 <=? seconds)%Z
  && match env_sleep e seconds with
     | Slept => true
     | _ => false
     end.

(** Two cycles with a negative wait between them. *)
Definition negative_delay_params : Params :=
  {| vpnname := "VPN Gateway"; vpnurlip := "10.0.0.1";
     username := "user"; password := "secret";
     targets := "vpnmon_targets.csv"; cycles := 2; delay := (-1);
     datalog := "vpnmon_datalog.csv"; quiet := false |}.

(** Two cycles with a wait of [10^10] seconds between them. *)
Definition long_delay_params : Params :=
  {| vpnname := "VPN Gateway"; vpnurlip := "10.0.0.1";
     username := "user"; password := "secret";
     targets := "vpnmon_targets.csv"; cycles := 2; delay := 10000000000;
     datalog := "vpnmon_datalog.csv"; quiet := false |}.

(** The oracle [gateway_down_env] on a platform whose [time.sleep] takes a
    length under 9223372036 seconds, raises [OSError] on that length and
    [OverflowError] on a longer one. *)
Definition bounded_sleep_env : Env :=
  {| env_call := env_call gateway_down_env;
     env_expect := env_expect gateway_down_env;
     env_alive := env_alive gateway_down_env;
     env_ping := env_ping gateway_down_env;
     env_exists := env_exists gateway_down_env;
     env_read := env_read gateway_down_env;
     env_file := env_file gateway_down_env;
     env_now := env_now gateway_down_env;
     env_sleep := fun seconds =>
                    if (seconds <? 9223372036)%Z then Slept
                    else if (seconds <? 9223372037)%Z then TooLongOS
                         else TooLongOverflow |}.

(** The world in which the next cycle starts: after lines 256-260. *)
Definition after_pause (params : Params) (w : World) : World :=
  snd ((date_and_tod ;;; sleep_seconds (delay params)) w).

(** Each of the [k] cycles from [w] on returns to the loop: none ends the
    process or raises. *)
Fixpoint cycles_complete (params : Params) (k : nat) (test_cycle : Z)
         (w : World) : bool :=
  match k with
  | O => true
  | S k' =>
      match run_cycle params test_cycle w with
      | (Ret _, w1) =>
          match k' with
          | O => true
          | S _ => cycles_complete params k' (test_cycle + 1)%Z
                                   (after_pause params w1)
          end
      | (Raise _, _) => false
      end
  end.

(** ** Exit codes *)

(** An exception that ends the process with status 1 when nothing catches
    it: anything but an [exit] with another code. *)
Definition is_fatal (e : Exn) : bool :=
  match e with
  | SystemExit code => Z.eqb code 1
  | _ => true
  end.

(** Whatever [m] raises ends the process with status 1. *)
Definition raises_fatal {A} (m : M A) : Prop :=
  forall w e, fst (m w) = Raise e -> is_fatal e = true.

(** A command line with nothing on it but the address of the VPN site. *)
Definition sample_args : Args :=
  {| arg_version := false; arg_vpnname := None;
     arg_vpnurlip := Some "10.0.0.1"%string;
     arg_username := None; arg_password := None; arg_targets := None;
     arg_cycles := Some 2%Z; arg_delay := Some 0%Z; arg_datalog := None;
     arg_quiet := false |}.

Definition version_args : Args :=
  {| arg_version := true; arg_vpnname := None; arg_vpnurlip := None;
     arg_username := None; arg_password := None; arg_targets := None;
     arg_cycles := None; arg_delay := None; arg_datalog := None;
     arg_quiet := false |}.

Definition no_address_args : Args :=
  {| arg_version := false; arg_vpnname := None; arg_vpnurlip := None;
     arg_username := None; arg_password := None; arg_targets := None;
     arg_cycles := None; arg_delay := None; arg_datalog := None;
     arg_quiet := false |}.

(** An oracle in which every file is there and none can be read. *)
Definition unreadable_env : Env :=
  {| env_call := fun _ => true;
     env_expect := fun _ => Silent;
     env_alive := fun _ => false;
     env_ping := fun _ => Some [false; false];
     env_exists := fun _ => true;
     env_read := fun _ => None;
     env_file := fun _ => FOk;
     env_now := fun _ => ("2021/04/18", "12:00:00");
     env_sleep := fun _ => Slept |}.

(** ** VPNClient.close and whole sessions *)

(** The events of a [close] on a live child when nothing goes wrong. *)
Definition close_good : list Event :=
  [EvEnter "close"; EvIsAlive true;
   EvSleep VPNCLI_CMD_DELAY; EvSendline "disconnect" true;
   EvExpect [Pat "VPN>"] (Some 0);
   EvSleep VPNCLI_CMD_DELAY; EvSendline "exit" true;
   EvExpect [Pat ">"] (Some 0);
   EvTerminate true; EvRun VPNClient.taskkill_vpncli true].

(** From call [t] on, the oracle plays a session that opens: the eighteen
    calls of [open] all go through, and each [expect] among them sees the
    text it waits for. *)
Definition session_answers (e : Env) (t : nat) (site : string) : Prop :=
  (forall i, i < 18 -> env_call e (t + i) = true)
  /\ env_expect e (t + 3) = Shows ">"
  /\ env_expect e (t + 5) = Shows "VPN>"
  /\ env_expect e (t + 7) = Shows "VPN>"
  /\ env_expect e (t + 9) = Shows "Username:"
  /\ env_expect e (t + 11) = Shows "Password:"
  /\ env_expect e (t + 13) = Shows "accept?"
  /\ env_expect e (t + 15) = Shows "state: Connected"
  /\ env_expect e (t + 16) = Shows ("Connected to " ++ site)%string
  /\ env_expect e (t + 17) = Shows "VPN>".

(** An oracle that plays such a session from call 0 on. *)
Definition session_env : Env :=
  {| env_call := fun _ => true;
     env_expect := fun t => nth (t - 3) session_script Silent;
     env_alive := fun _ => false;
     env_ping := fun _ => Some [true; true];
     env_exists := fun _ => false;
     env_read := fun _ => None;
     env_file := fun _ => FOk;
     env_now := fun _ => ("2021/04/18", "12:00:00");
     env_sleep := fun _ => Slept |}.

(** A world whose child is bound, and dead. *)
Definition dead_child_world : World :=
  {| env := session_env; clock := 18; vpn_proc := Some 2;
     sd_vpnclient := true; sd_datalogfile := None; written := [];
     trace := [] |}.

(** ** sounder and pinger *)

(** [k] sounds of the bell, each followed by its short wait. *)
Fixpoint bell_events (k : nat) : list Event :=
  match k with
  | O => []
  | S k' => EvBell :: EvSleep SOUND_DELAY :: bell_events k'
  end.

Definition is_bell (ev : Event) : bool :=
  match ev with
  | EvBell => true
  | _ => false
  end.

(** The events of the [k] calls of [ping] that [pinger] makes from call
    [t] on: each call asks for [p_count] echo requests. *)
Fixpoint ping_events (e : Env) (siteurlip : string) (p_count : Z)
         (t k : nat) : list Event :=
  match k with
  | O => []
  | S k' => EvPing siteurlip p_count (env_ping e t)
            :: ping_events e siteurlip p_count (S t) k'
  end.

(** ** Lines, fields and the targets mapping *)

(** The lines put back together. *)
Definition joined (lines : list string) : string :=
  fold_right String.append EmptyString lines.

(** The fields [get_targets] and [get_params] see of a line. *)
Definition line_fields (line : string) : list string :=
  split comma 2 (remove_newlines line).

(** The label the file gives for [ip]: that of the last line whose first
    field is [ip], [before] when there is none. *)
Fixpoint last_label (lines : list string) (ip : string)
         (before : option string) : option string :=
  match lines with
  | [] => before
  | line :: rest =>
      match line_fields line with
      | a :: b :: _ =>
          last_label rest ip (if String.eqb ip a then Some b else before)
      | _ => before
      end
  end.

Definition newline_free (s : string) : bool := negb (contains newline s).
Definition comma_free (s : string) : bool := negb (contains comma s).

(** An exception of the file operations on the datalog. *)
Definition is_file_exn (e : Exn) : bool :=
  match e with
  | PermissionError | OSError => true
  | _ => false
  end.
(** * Properties *)

(** ** pinger: the three-way classification *)

Lemma successes_le (e : Env) (k t : nat) : successes e t k <= k.
Proof.
  revert t; induction k as [|k IH]; intros t; simpl; [lia|].
  specialize (IH (S t)). destruct (ping_succeeded e t); lia.
Qed.

Lemma pinger_loop_counts (siteurlip : string) (p_count : Z) (n : nat) :
  forall (good : Z) (w : World),
    all_answered (env w) (clock w) n = true ->
    exists w',
      pinger_loop n siteurlip p_count good w
      = (Ret (good + Z.of_nat (successes (env w) (clock w) n))%Z, w')
      /\ env w' = env w /\ clock w' = clock w + n
      /\ vpn_proc w' = vpn_proc w /\ written w' = written w.
Proof.
  induction n as [|n IH]; intros good w Hans; simpl in *.
  - exists w. unfold ret. repeat split; try lia. f_equal. f_equal. lia.
  - apply andb_true_iff in Hans. destruct Hans as [Hhd Htl].
    unfold ping_answered in Hhd. unfold ping_succeeded.
    unfold bind at 1. unfold ping, bind, tick, ask, emit, ret. simpl.
    destruct (env_ping (env w) (clock w)) as [[|b l]|] eqn:E;
      try discriminate.
    simpl.
    match goal with
    | |- context [pinger_loop n _ _ ?g ?w1] =>
        destruct (IH g w1 Htl) as (w' & Hrun & He & Hc & Hp & Hw)
    end.
    simpl in *. exists w'. rewrite Hrun.
    repeat split; try assumption; try lia.
    f_equal. f_equal. destruct b; lia.
Qed.

(** C4. For a repetition count [k >= 1] whose [k] ping calls all answer,
    with [g] of them successful, [pinger] returns "Good" exactly when
    [g = k], "Fail" exactly when [g = 0] and "Warn" in every other case,
    and never anything but one of these three strings. *)
Theorem pinger_tri_state (siteurlip : string) (k : Z) (w : World) :
  (1 <= k)%Z ->
  all_answered (env w) (clock w) (Z.to_nat k) = true ->
  let g := Z.of_nat (successes (env w) (clock w) (Z.to_nat k)) in
  exists out,
    fst (pinger siteurlip k w) = Ret out
    /\ (out = "Good" <-> g = k)
    /\ (out = "Fail" <-> g = 0%Z)
    /\ (out = "Warn" <-> g <> k /\ g <> 0%Z)
    /\ (out = "Good" \/ out = "Warn" \/ out = "Fail").
Proof.
  intros Hk Hans g.
  destruct (pinger_loop_counts siteurlip k (Z.to_nat k) 0%Z w Hans)
    as (w' & Hrun & _).
  unfold pinger, bind. rewrite Hrun. fold g. simpl (0 + g)%Z.
  destruct (g =? k)%Z eqn:Egk.
  - apply Z.eqb_eq in Egk. exists "Good". simpl.
    repeat split; auto; try discriminate; try lia.
  - apply Z.eqb_neq in Egk. destruct (g =? 0)%Z eqn:Eg0.
    + apply Z.eqb_eq in Eg0. exists "Fail". simpl.
      repeat split; auto; try discriminate; try lia.
    + apply Z.eqb_neq in Eg0. exists "Warn". simpl.
      repeat split; auto; try discriminate; try lia.
Qed.

Lemma pinger_tri_state_witness :
  exists out,
    fst (pinger "10.0.0.1" 2 (initial_world mixed_ping_env)) = Ret out
    /\ (out = "Warn" <-> 1%Z <> 2%Z /\ 1%Z <> 0%Z).
Proof.
  destruct (pinger_tri_state "10.0.0.1" 2 (initial_world mixed_ping_env)
              ltac:(lia) eq_refl)
    as (out & Hrun & _ & _ & Hwarn & _).
  exists out. split; [exact Hrun | exact Hwarn].
Defined.

(** Two repetitions with one success give "Warn". *)
Example pinger_one_of_two :
  fst (pinger "10.0.0.1" 2 (initial_world mixed_ping_env)) = Ret "Warn".
Proof. reflexivity. Qed.

(** ** Traces only grow *)

Lemma appends_ret (p : Event -> bool) {A} (a : A) : appends p (ret a).
Proof. intros w. exists []. simpl. rewrite app_nil_r. auto. Qed.

Lemma appends_raise (p : Event -> bool) {A} (e : Exn) :
  appends p (@raise A e).
Proof. intros w. exists []. simpl. rewrite app_nil_r. auto. Qed.

Lemma appends_exit (p : Event -> bool) {A} (c : Z) : appends p (@exit A c).
Proof. apply appends_raise. Qed.

Lemma appends_emit (p : Event -> bool) (ev : Event) :
  p ev = true -> appends p (emit ev).
Proof. intros H w. exists [ev]. simpl. rewrite H. auto. Qed.

Lemma appends_tick (p : Event -> bool) : appends p tick.
Proof. intros w. exists []. simpl. rewrite app_nil_r. auto. Qed.

Lemma appends_ask (p : Event -> bool) {A} (f : Env -> A) : appends p (ask f).
Proof. intros w. exists []. simpl. rewrite app_nil_r. auto. Qed.

Lemma appends_bind (p : Event -> bool) {A B} (m : M A) (k : A -> M B) :
  appends p m -> (forall a, appends p (k a)) -> appends p (bind m k).
Proof.
  intros Hm Hk w. unfold bind.
  destruct (Hm w) as (evs & Ht & Hf & He & Hs & Hv).
  destruct (m w) as [[a|e] w1]; simpl in *.
  - destruct (Hk a w1) as (evs2 & Ht2 & Hf2 & He2 & Hs2 & Hv2).
    exists (evs ++ evs2). rewrite Ht2, Ht, app_assoc, forallb_app, Hf, Hf2.
    repeat split; try congruence; auto.
  - exists evs. auto.
Qed.

Lemma appends_try_except (p : Event -> bool) {A} (body : M A)
      (catches : Exn -> bool) (handler : Exn -> M A) :
  appends p body -> (forall e, appends p (handler e)) ->
  appends p (try_except body catches handler).
Proof.
  intros Hm Hk w. unfold try_except.
  destruct (Hm w) as (evs & Ht & Hf & He & Hs & Hv).
  destruct (body w) as [[a|e] w1]; simpl in *.
  - exists evs. auto.
  - destruct (catches e).
    + destruct (Hk e w1) as (evs2 & Ht2 & Hf2 & He2 & Hs2 & Hv2).
      exists (evs ++ evs2). rewrite Ht2, Ht, app_assoc, forallb_app, Hf, Hf2.
      repeat split; try congruence; auto.
    + exists evs. auto.
Qed.

Lemma appends_state (p : Event -> bool) {A} (m : M A) :
  (forall w, trace (snd (m w)) = trace w /\ env (snd (m w)) = env w
             /\ sd_vpnclient (snd (m w)) = sd_vpnclient w
             /\ vpn_proc (snd (m w)) = vpn_proc w) ->
  appends p m.
Proof.
  intros H w. destruct (H w) as (Ht & He & Hs & Hv). exists [].
  rewrite app_nil_r, Hv. auto.
Qed.

Lemma appends_weaken (p q : Event -> bool) {A} (m : M A) :
  (forall ev, p ev = true -> q ev = true) -> appends p m -> appends q m.
Proof.
  intros Hpq Hm w. destruct (Hm w) as (evs & Ht & Hf & He & Hs & Hv).
  exists evs. repeat split; auto.
  rewrite forallb_forall in *. auto.
Qed.

(** One step of a proof that a program only appends accepted events. *)
Ltac appends_step :=
  match goal with
  | |- appends _ (bind _ _) => apply appends_bind; [|intros]
  | |- appends _ (try_except _ _ _) => apply appends_try_except; [|intros]
  | |- appends _ (ret _) => apply appends_ret
  | |- appends _ (raise _) => apply appends_raise
  | |- appends _ (exit _) => apply appends_exit
  | |- appends _ (emit _) => apply appends_emit; auto
  | |- appends _ (sleep _) => apply appends_emit; auto
  | |- appends _ tick => apply appends_tick
  | |- appends _ (ask _) => apply appends_ask
  | |- appends _ (if ?b then _ else _) => destruct b
  | |- appends _ (match ?x with _ => _ end) => destruct x
  | |- appends _ (file_error ?r _) => destruct r; unfold file_error
  end.

Create HintDb appends.

Section Plain.

Variable p : Event -> bool.
Hypothesis plain_accepted : forall ev, is_plain ev = true -> p ev = true.

Local Hint Resolve plain_accepted : core.

Lemma appends_date_and_tod : appends p date_and_tod.
Proof. unfold date_and_tod. repeat appends_step. Qed.

Lemma appends_ping (s : string) (c : Z) : appends p (ping s c).
Proof. unfold ping. repeat appends_step. Qed.

Lemma appends_pinger_loop (n : nat) (s : string) (c : Z) :
  forall good, appends p (pinger_loop n s c good).
Proof.
  induction n as [|n IH]; intros good; simpl.
  - apply appends_ret.
  - apply appends_bind; [apply appends_ping|].
    intros [|b l]; [apply appends_raise | apply IH].
Qed.

Lemma appends_pinger (s : string) (c : Z) : appends p (pinger s c).
Proof.
  unfold pinger. apply appends_bind; [apply appends_pinger_loop|].
  intros good. repeat appends_step.
Qed.

Lemma appends_get_vpn_proc : appends p get_vpn_proc.
Proof.
  apply appends_state. intros w. unfold get_vpn_proc.
  destruct (vpn_proc w) eqn:E; simpl; auto.
Qed.

Lemma appends_set_vpn_proc (n : nat) : appends p (set_vpn_proc n).
Proof.
  intros w. exists []. simpl. rewrite app_nil_r.
  repeat split; auto. discriminate.
Qed.

Lemma appends_host_run (cmd : string) : appends p (host_run cmd).
Proof. unfold host_run. repeat appends_step. Qed.

Lemma appends_spawn : appends p spawn.
Proof.
  unfold spawn. repeat appends_step. apply appends_set_vpn_proc.
Qed.

Lemma appends_sendline (s : string) : appends p (sendline s).
Proof.
  unfold sendline. apply appends_bind; [apply appends_get_vpn_proc|].
  intros. repeat appends_step.
Qed.

Lemma appends_terminate : appends p terminate.
Proof.
  unfold terminate. apply appends_bind; [apply appends_get_vpn_proc|].
  intros. repeat appends_step.
Qed.

Lemma appends_isalive : appends p isalive.
Proof.
  unfold isalive. apply appends_bind; [apply appends_get_vpn_proc|].
  intros. repeat appends_step.
Qed.

Lemma appends_print_before : appends p print_before.
Proof.
  unfold print_before. apply appends_bind; [apply appends_get_vpn_proc|].
  intros. apply appends_ret.
Qed.

Lemma appends_expect (pats : list Pattern) : appends p (expect pats).
Proof.
  unfold expect. apply appends_bind; [apply appends_get_vpn_proc|].
  intros. repeat appends_step.
Qed.

Local Hint Resolve appends_date_and_tod appends_pinger appends_host_run
  appends_spawn appends_sendline appends_terminate appends_isalive
  appends_print_before appends_expect appends_ret appends_raise : appends.

Ltac appends_auto :=
  repeat (first [ solve [auto with appends] | appends_step ]).

Lemma appends_teardown : appends p VPNClient.teardown.
Proof. unfold VPNClient.teardown. appends_auto. Qed.

Local Hint Resolve appends_teardown : appends.

Lemma appends_fail_after_teardown : appends p VPNClient.fail_after_teardown.
Proof. unfold VPNClient.fail_after_teardown. appends_auto. Qed.

Local Hint Resolve appends_fail_after_teardown : appends.

Lemma appends_and_then (step : M (option string)) (rest : M string) :
  appends p step -> appends p rest -> appends p (VPNClient.and_then step rest).
Proof. intros Hs Hr. unfold VPNClient.and_then. appends_auto. Qed.

Lemma appends_open_prelude : appends p VPNClient.open_prelude.
Proof.
  unfold VPNClient.open_prelude, VPNClient.open_preempt,
    VPNClient.open_spawn, VPNClient.open_start_cli,
    VPNClient.open_disconnect.
  appends_auto.
Qed.

Lemma appends_open_login (site user pass : string) :
  appends p (VPNClient.open_login site user pass).
Proof.
  unfold VPNClient.open_login.
  repeat apply appends_and_then; try apply appends_ret.
  - unfold VPNClient.open_connect. appends_auto.
  - unfold VPNClient.open_credentials. appends_auto.
  - unfold VPNClient.open_banner. appends_auto.
Qed.

Lemma appends_close_body :
  appends p (alive <- isalive ;;
             if negb alive then ret "Good"
             else
               VPNClient.and_then (VPNClient.close_step "disconnect" "VPN>")
               (VPNClient.and_then (VPNClient.close_step "exit" ">")
               (VPNClient.and_then VPNClient.close_terminate
               (ret "Good")))).
Proof.
  apply appends_bind; [auto with appends|]. intros alive.
  destruct (negb alive); [apply appends_ret|].
  repeat apply appends_and_then; try apply appends_ret;
    unfold VPNClient.close_step, VPNClient.close_terminate; appends_auto.
Qed.

Lemma appends_sounder_loop (n : nat) : appends p (sounder_loop n).
Proof. induction n as [|n IH]; simpl; appends_auto. Qed.

Lemma appends_path_exists (path : string) : appends p (path_exists path).
Proof. unfold path_exists. appends_auto. Qed.

Lemma appends_read_lines (path : string) : appends p (read_lines path).
Proof. unfold read_lines. appends_auto. Qed.

Lemma appends_get_targets_loop (lines : list string) :
  forall d, appends p (get_targets_loop lines d).
Proof.
  induction lines as [|l lines IH]; intros d; simpl; [apply appends_ret|].
  destruct (split comma 2 (remove_newlines l)) as [|ip [|name rest]];
    auto with appends.
Qed.

Lemma appends_get_targets (path : string) : appends p (get_targets path).
Proof.
  unfold get_targets. apply appends_bind; [apply appends_path_exists|].
  intros [|]; [|apply appends_ret].
  apply appends_try_except; [|intros; apply appends_exit].
  apply appends_bind; [apply appends_read_lines|].
  intros. apply appends_get_targets_loop.
Qed.

Lemma appends_file_open (path : string) : appends p (file_open path).
Proof.
  unfold file_open. appends_auto; try (apply appends_state; intros; auto).
Qed.

Lemma appends_file_write (path row : string) : appends p (file_write path row).
Proof.
  unfold file_write. appends_auto; try (apply appends_state; intros; auto).
Qed.

Lemma appends_file_close (path : string) : appends p (file_close path).
Proof.
  unfold file_close. appends_auto; try (apply appends_state; intros; auto).
Qed.

Lemma appends_write_entries (path : string) (d : dict) :
  appends p (write_entries path d).
Proof.
  induction d as [|[k row] d IH]; simpl; [apply appends_ret|].
  apply appends_bind; [apply appends_file_write | intros; apply IH].
Qed.

End Plain.

(** ** VPNClient.close without a live child *)

(** With the child bound but not alive, [close] answers "Good" after the
    single [isalive] query: nothing is sent, nothing is terminated. *)
Lemma close_not_alive (w : World) (pid : nat) :
  vpn_proc w = Some pid ->
  env_alive (env w) (clock w) = false ->
  exists w',
    VPNClient.close w = (Ret "Good", w')
    /\ trace w' = trace w ++ [EvEnter "close"; EvIsAlive false]
    /\ written w' = written w
    /\ vpn_proc w' = vpn_proc w.
Proof.
  intros Hp Ha.
  unfold VPNClient.close, isalive, get_vpn_proc, bind, emit, tick, ask, ret.
  simpl. rewrite Hp. simpl. rewrite Ha. simpl.
  eexists. repeat split; simpl; auto.
  rewrite <- app_assoc. reflexivity.
Qed.

(** C3. Before any [open] has run the global [vpn_proc] is unbound, and
    [close] raises a [NameError] at its first line instead of returning
    "Good". *)
Theorem close_before_any_open (e : Env) :
  fst (VPNClient.close (initial_world e)) = Raise NameError
  /\ trace (snd (VPNClient.close (initial_world e))) = [EvEnter "close"].
Proof. split; reflexivity. Qed.

(** ** get_targets: every line needs a comma *)

Lemma contains_remove_newlines (s : string) :
  contains comma (remove_newlines s) = contains comma s.
Proof.
  induction s as [|c s IH]; simpl; [reflexivity|].
  destruct (Ascii.eqb c newline) eqn:E; simpl; rewrite IH; [|reflexivity].
  apply Ascii.eqb_eq in E. subst c. reflexivity.
Qed.

Lemma split_without_sep (c : ascii) (s : string) :
  forall m, contains c s = false -> split c m s = [s].
Proof.
  induction s as [|a s IH]; intros m H; simpl in *; [reflexivity|].
  apply orb_false_iff in H. destruct H as [Ha Hs].
  destruct m as [|m]; [reflexivity|].
  rewrite Ha. rewrite (IH (S m) Hs). reflexivity.
Qed.

Lemma split_with_sep (c : ascii) (s : string) :
  forall m, contains c s = true ->
            exists a b rest, split c (S m) s = a :: b :: rest.
Proof.
  induction s as [|a s IH]; intros m H; simpl in *; [discriminate|].
  destruct (Ascii.eqb a c) eqn:Ea.
  - destruct s as [|a' s'].
    + simpl. eauto.
    + destruct m as [|m].
      * simpl. eauto.
      * remember (String a' s') as s0.
        assert (Hne : exists x xs, split c (S m) s0 = x :: xs).
        { subst s0. simpl. destruct (Ascii.eqb a' c); [eauto|].
          destruct (split c (S m) s'); eauto. }
        destruct Hne as (x & xs & Hx). rewrite Hx. eauto.
  - simpl in H. destruct (IH m H) as (x & y & rest & Hx).
    rewrite Hx. eauto.
Qed.

Lemma get_targets_loop_commas (lines : list string) :
  forall (d : dict) (w : World),
    (forallb (contains comma) lines = true ->
     exists d', get_targets_loop lines d w = (Ret d', w))
    /\ (forallb (contains comma) lines = false ->
        get_targets_loop lines d w = (Raise IndexError, w)).
Proof.
  induction lines as [|l lines IH]; intros d w; simpl.
  - split; [eexists; reflexivity | discriminate].
  - destruct (contains comma l) eqn:El; simpl.
    + rewrite <- contains_remove_newlines in El.
      destruct (split_with_sep comma _ 1 El) as (a & b & rest & Hs).
      rewrite Hs. apply IH.
    + rewrite <- contains_remove_newlines in El.
      rewrite (split_without_sep comma _ 2 El).
      split; [discriminate | reflexivity].
Qed.

(** C10. For a targets file that exists and can be read, [get_targets]
    returns a mapping when every line holds a comma; a line without one,
    an empty line included, ends the process with exit code 1. *)
Theorem get_targets_needs_commas (targets_file text : string) (w : World) :
  env_exists (env w) (clock w) = true ->
  env_read (env w) (S (clock w)) = Some text ->
  (every_line_has_comma text = true ->
   exists d, fst (get_targets targets_file w) = Ret d)
  /\ (every_line_has_comma text = false ->
      fst (get_targets targets_file w) = Raise (SystemExit 1)).
Proof.
  intros He Hr. unfold every_line_has_comma.
  unfold get_targets, path_exists, read_lines, try_except, bind, tick, ask,
    emit, ret. simpl. rewrite He. simpl. rewrite Hr. simpl.
  match goal with
  | |- context [get_targets_loop ?ls ?d ?w1] =>
      destruct (get_targets_loop_commas ls d w1) as [Hyes Hno]
  end.
  split; intros H.
  - destruct (Hyes H) as (d' & Hd). rewrite Hd. simpl. eauto.
  - rewrite (Hno H). reflexivity.
Qed.

Lemma get_targets_needs_commas_witness :
  exists d,
    fst (get_targets "vpnmon_targets.csv"
           (initial_world
              (targets_env ("10.0.0.2,host-a" ++ String newline "")%string)))
    = Ret d.
Proof.
  apply (proj1 (get_targets_needs_commas "vpnmon_targets.csv"
                  ("10.0.0.2,host-a" ++ String newline "")%string
                  (initial_world
                     (targets_env
                        ("10.0.0.2,host-a" ++ String newline "")%string))
                  eq_refl eq_refl)).
  reflexivity.
Defined.

(** A file with an empty second line is a fatal error. *)
Example get_targets_empty_line :
  fst (get_targets "vpnmon_targets.csv"
         (initial_world
            (targets_env ("10.0.0.2,host-a" ++ String newline
                            (String newline ""))%string)))
  = Raise (SystemExit 1).
Proof. reflexivity. Qed.

(** A targets file that is there but cannot be read is a fatal error. *)
Lemma get_targets_unreadable (targets_file : string) (w : World) :
  env_exists (env w) (clock w) = true ->
  env_read (env w) (S (clock w)) = None ->
  fst (get_targets targets_file w) = Raise (SystemExit 1).
Proof.
  intros He Hr.
  unfold get_targets, path_exists, read_lines, try_except, bind, tick, ask,
    emit, ret. simpl. rewrite He. simpl. rewrite Hr. reflexivity.
Qed.

(** ** datalogger: bounded retries under contention *)

Ltac run_file_op H :=
  unfold file_open, file_write, file_close, bind, tick, ask, emit,
    file_error, set_datalogfile, append_row;
  simpl; rewrite H; simpl.

Lemma file_open_ok (path : string) (w : World) :
  env_file (env w) (clock w) = FOk ->
  exists w',
    file_open path w = (Ret tt, w')
    /\ env w' = env w /\ clock w' = S (clock w) /\ written w' = written w.
Proof. intros H. run_file_op H. eexists; split; [reflexivity|]; auto. Qed.

Lemma file_close_ok (path : string) (w : World) :
  env_file (env w) (clock w) = FOk ->
  exists w',
    file_close path w = (Ret tt, w')
    /\ env w' = env w /\ clock w' = S (clock w) /\ written w' = written w.
Proof. intros H. run_file_op H. eexists; split; [reflexivity|]; auto. Qed.

Lemma file_write_ok (path row : string) (w : World) :
  env_file (env w) (clock w) = FOk ->
  exists w',
    file_write path row w = (Ret tt, w')
    /\ env w' = env w /\ clock w' = S (clock w)
    /\ written w' = written w ++ [(path, row)].
Proof. intros H. run_file_op H. eexists; split; [reflexivity|]; auto. Qed.

Lemma file_answers_head (e : Env) (r : FileReply) (t n : nat) :
  file_answers e r t (S n) -> env_file e t = r.
Proof. intros H. rewrite <- (Nat.add_0_r t). apply H. lia. Qed.

Lemma file_answers_tail (e : Env) (r : FileReply) (t n : nat) :
  file_answers e r t (S n) -> file_answers e r (S t) n.
Proof.
  intros H i Hi. replace (S t + i) with (t + S i) by lia. apply H. lia.
Qed.

Lemma write_entries_ok (path : string) (rows : dict) :
  forall w,
    file_answers (env w) FOk (clock w) (List.length rows) ->
    exists w',
      write_entries path rows w = (Ret tt, w')
      /\ env w' = env w /\ clock w' = clock w + List.length rows
      /\ written w' = written w ++ rows_of path rows.
Proof.
  induction rows as [|[k row] rows IH]; intros w H; simpl in *.
  - exists w. unfold ret. rewrite app_nil_r. repeat split; auto.
  - destruct (file_write_ok path row w (file_answers_head _ _ _ _ H))
      as (w1 & Hrun & He & Hc & Hw).
    unfold bind at 1. rewrite Hrun.
    destruct (IH w1) as (w' & Hrun' & He' & Hc' & Hw').
    { rewrite He, Hc. apply file_answers_tail. exact H. }
    exists w'. rewrite Hrun'. repeat split; try congruence; try lia.
    rewrite Hw', Hw, <- app_assoc. reflexivity.
Qed.

Lemma datalogger_try_ok (path : string) (rows : dict) (w : World) :
  file_answers (env w) FOk (clock w) (S (S (List.length rows))) ->
  exists w',
    datalogger_try path rows w = (Ret true, w')
    /\ written w' = written w ++ rows_of path rows.
Proof.
  intros H. unfold datalogger_try.
  destruct (file_open_ok path w (file_answers_head _ _ _ _ H))
    as (w1 & Hrun1 & He1 & Hc1 & Hw1).
  apply file_answers_tail in H.
  destruct (write_entries_ok path rows w1) as (w2 & Hrun2 & He2 & Hc2 & Hw2).
  { rewrite He1, Hc1. intros i Hi. apply H. lia. }
  destruct (file_close_ok path w2) as (w3 & Hrun3 & He3 & Hc3 & Hw3).
  { rewrite He2, Hc2, He1, Hc1. apply H. lia. }
  exists w3. unfold bind. rewrite Hrun1, Hrun2, Hrun3. unfold ret.
  split; congruence.
Qed.

Lemma datalogger_attempt_ok (n : nat) (path : string) (rows : dict)
      (w : World) :
  file_answers (env w) FOk (clock w) (S (S (List.length rows))) ->
  exists w',
    datalogger_attempt n path rows w = (Ret true, w')
    /\ written w' = written w ++ rows_of path rows.
Proof.
  intros H. destruct (datalogger_try_ok path rows w H) as (w' & Hrun & Hw).
  exists w'. unfold datalogger_attempt, try_except. rewrite Hrun. auto.
Qed.

Lemma datalogger_attempt_conflict (n : nat) (path : string) (rows : dict)
      (w : World) :
  env_file (env w) (clock w) = FPermission ->
  exists w' evs,
    datalogger_attempt n path rows w = (Ret false, w')
    /\ env w' = env w /\ clock w' = S (clock w)
    /\ written w' = written w
    /\ sd_vpnclient w' = sd_vpnclient w
    /\ trace w' = trace w ++ evs /\ forallb is_plain evs = true.
Proof.
  intros H.
  unfold datalogger_attempt, datalogger_try, try_except.
  unfold bind at 1. run_file_op H.
  destruct (Nat.ltb 0 n); unfold sleep, emit, ret, bind; simpl;
    eexists; eexists; (split; [reflexivity|]); simpl;
    repeat split; try rewrite <- app_assoc; reflexivity.
Qed.

Lemma datalogger_loop_contention (path : string) (rows : dict) :
  forall (r n : nat) (w : World),
    file_answers (env w) FPermission (clock w) (Nat.min n r) ->
    (n < r ->
     file_answers (env w) FOk (clock w + n) (S (S (List.length rows)))) ->
    exists w',
      datalogger_loop r path rows w
      = (Ret (if Nat.ltb n r then "Good" else "Fail")%string, w')
      /\ written w'
         = written w ++ (if Nat.ltb n r then rows_of path rows else []).
Proof.
  induction r as [|r IH]; intros n w Hbusy Hfree.
  - exists w. simpl. rewrite app_nil_r. auto.
  - destruct n as [|n].
    + destruct (datalogger_attempt_ok r path rows w) as (w' & Hrun & Hw).
      { rewrite <- (Nat.add_0_r (clock w)). apply Hfree. lia. }
      exists w'. cbn [datalogger_loop]. unfold bind. rewrite Hrun. auto.
    + destruct (datalogger_attempt_conflict r path rows w)
        as (w1 & evs & Hrun & He & Hc & Hw & _).
      { rewrite <- (Nat.add_0_r (clock w)). apply Hbusy. simpl. lia. }
      destruct (IH n w1) as (w' & Hrun' & Hw').
      { rewrite He, Hc. intros i Hi.
        replace (S (clock w) + i) with (clock w + S i) by lia.
        apply Hbusy. simpl. lia. }
      { intros Hn. rewrite He, Hc.
        replace (S (clock w) + n) with (clock w + S n) by lia.
        apply Hfree. lia. }
      exists w'. cbn [datalogger_loop]. unfold bind. rewrite Hrun.
      rewrite Hrun'. change (Nat.ltb (S n) (S r)) with (Nat.ltb n r).
      rewrite Hw', Hw. auto.
Qed.

(** C6. When another program holds the datalog for [n] consecutive
    attempts: with [n] below the bound of 5 the call writes every row and
    returns "Good"; with [n] at or beyond the bound it returns "Fail", as
    a value, with nothing written. *)
Theorem datalogger_retries (datalog_file : string) (test_data : dict)
        (n : nat) (w : World) :
  file_answers (env w) FPermission (clock w)
               (Nat.min n VPNMON_DATALOG_WRITE_MAX_RETRIES) ->
  (n < VPNMON_DATALOG_WRITE_MAX_RETRIES ->
   file_answers (env w) FOk (clock w + n) (S (S (List.length test_data)))) ->
  exists w',
    datalogger datalog_file test_data w
    = (Ret (if Nat.ltb n VPNMON_DATALOG_WRITE_MAX_RETRIES
            then "Good" else "Fail")%string, w')
    /\ written w'
       = written w ++ (if Nat.ltb n VPNMON_DATALOG_WRITE_MAX_RETRIES
                       then rows_of datalog_file test_data else []).
Proof.
  intros Hbusy Hfree. unfold datalogger, bind, emit. cbv beta iota.
  match goal with
  | |- context [datalogger_loop _ _ _ ?w1] =>
      destruct (datalogger_loop_contention datalog_file test_data
                  VPNMON_DATALOG_WRITE_MAX_RETRIES n w1 Hbusy Hfree)
        as (w' & Hrun & Hw)
  end.
  exists w'. split; [exact Hrun | exact Hw].
Qed.

Lemma datalogger_retries_witness :
  exists w',
    datalogger "vpnmon_datalog.csv" sample_rows
               (started_world (datalog_env 2 false))
    = (Ret "Good", w')
    /\ written w' = rows_of "vpnmon_datalog.csv" sample_rows.
Proof.
  apply (datalogger_retries "vpnmon_datalog.csv" sample_rows 2
           (started_world (datalog_env 2 false))).
  - intros i Hi. simpl in Hi.
    destruct i as [|[|i]]; [reflexivity | reflexivity | lia].
  - intros _ i Hi. simpl in Hi.
    destruct i as [|[|[|[|i]]]]; try reflexivity; lia.
Defined.

(** Held for five attempts, the datalog is given up: "Fail" is returned to
    the caller. *)
Example datalogger_gives_up :
  fst (datalogger "vpnmon_datalog.csv" sample_rows
                  (started_world (datalog_env 5 false)))
  = Ret "Fail".
Proof. reflexivity. Qed.

(** ** datalogger: any other failure is fatal, after a close *)

Lemma appends_datalogger_try (path : string) (rows : dict) :
  appends is_plain (datalogger_try path rows).
Proof.
  unfold datalogger_try.
  apply appends_bind; [apply appends_file_open; auto|]. intros _.
  apply appends_bind; [apply appends_write_entries; auto|]. intros _.
  apply appends_bind; [apply appends_file_close; auto|]. intros _.
  apply appends_ret.
Qed.

Lemma file_write_other (path row : string) (w : World) :
  env_file (env w) (clock w) = FOther ->
  fst (file_write path row w) = Raise OSError.
Proof. intros H. run_file_op H. reflexivity. Qed.

Lemma write_entries_fails (path : string) (rows : dict) :
  forall (j : nat) (w : World),
    j < List.length rows ->
    file_answers (env w) FOk (clock w) j ->
    env_file (env w) (clock w + j) = FOther ->
    fst (write_entries path rows w) = Raise OSError.
Proof.
  induction rows as [|[k row] rows IH]; intros j w Hj Hok Hbad;
    simpl in *; [lia|].
  destruct j as [|j].
  - rewrite Nat.add_0_r in Hbad. unfold bind.
    pose proof (file_write_other path row w Hbad) as Hf.
    destruct (file_write path row w) as [r w1]. simpl in Hf. subst r.
    reflexivity.
  - destruct (file_write_ok path row w (file_answers_head _ _ _ _ Hok))
      as (w1 & Hrun & He & Hc & _).
    unfold bind at 1. rewrite Hrun.
    apply (IH j w1); [lia | |].
    + rewrite He, Hc. apply file_answers_tail. exact Hok.
    + rewrite He, Hc. replace (S (clock w) + j) with (clock w + S j) by lia.
      exact Hbad.
Qed.

Lemma datalogger_try_fails (path : string) (rows : dict) (j : nat)
      (w : World) :
  j <= S (List.length rows) ->
  file_answers (env w) FOk (clock w) j ->
  env_file (env w) (clock w + j) = FOther ->
  fst (datalogger_try path rows w) = Raise OSError.
Proof.
  intros Hj Hok Hbad. unfold datalogger_try.
  destruct j as [|j].
  - rewrite Nat.add_0_r in Hbad. unfold bind at 1. run_file_op Hbad.
    reflexivity.
  - destruct (file_open_ok path w (file_answers_head _ _ _ _ Hok))
      as (w1 & Hrun1 & He1 & Hc1 & _).
    unfold bind at 1. rewrite Hrun1.
    apply file_answers_tail in Hok.
    replace (clock w + S j) with (S (clock w) + j) in Hbad by lia.
    rewrite <- He1, <- Hc1 in Hok, Hbad.
    destruct (Nat.eq_dec j (List.length rows)) as [Heq|Hne].
    + subst j.
      destruct (write_entries_ok path rows w1 Hok)
        as (w2 & Hrun2 & He2 & Hc2 & _).
      unfold bind at 1. rewrite Hrun2.
      rewrite <- He2, <- Hc2 in Hbad.
      unfold bind at 1. run_file_op Hbad. reflexivity.
    + pose proof (write_entries_fails path rows j w1 ltac:(lia) Hok Hbad)
        as Hf.
      unfold bind at 1.
      destruct (write_entries path rows w1) as [r w2]. simpl in Hf.
      subst r. reflexivity.
Qed.

Lemma datalogger_attempt_fatal (n : nat) (path : string) (rows : dict)
      (w : World) :
  sd_vpnclient w = true ->
  fst (datalogger_try path rows w) = Raise OSError ->
  exists w' pre post,
    datalogger_attempt n path rows w = (Raise (SystemExit 1), w')
    /\ trace w' = trace w ++ pre ++ EvEnter "close" :: post
    /\ forallb is_plain pre = true /\ forallb is_plain post = true.
Proof.
  intros Hsd Hfail.
  destruct (appends_datalogger_try path rows w)
    as (pre & Ht1 & Hp1 & He1 & Hs1 & _).
  unfold datalogger_attempt, try_except.
  destruct (datalogger_try path rows w) as [r w1]. simpl in *. subst r.
  simpl. unfold bind at 1. unfold try_except.
  unfold bind at 1. unfold sd_vpnclient_close.
  rewrite Hs1, Hsd. unfold VPNClient.close. unfold bind at 1.
  unfold emit at 1. cbv beta iota.
  match goal with
  | |- context [bind isalive ?k ?w2] =>
      destruct (appends_close_body is_plain (fun _ H => H) w2)
        as (post & Ht2 & Hp2 & _);
      destruct (bind isalive k w2) as [r3 w3]
  end.
  simpl in Ht2.
  exists w3, pre, post.
  split.
  - destruct r3 as [a|e]; reflexivity.
  - rewrite Ht2, Ht1. rewrite <- !app_assoc. auto.
Qed.

Lemma datalogger_loop_fatal (path : string) (rows : dict) (j : nat) :
  forall (n r : nat) (w : World),
    sd_vpnclient w = true ->
    n < r ->
    file_answers (env w) FPermission (clock w) n ->
    j <= S (List.length rows) ->
    file_answers (env w) FOk (clock w + n) j ->
    env_file (env w) (clock w + n + j) = FOther ->
    exists w' pre post,
      datalogger_loop r path rows w = (Raise (SystemExit 1), w')
      /\ trace w' = trace w ++ pre ++ EvEnter "close" :: post
      /\ forallb is_plain pre = true /\ forallb is_plain post = true.
Proof.
  induction n as [|n IH]; intros r w Hsd Hr Hbusy Hj Hok Hbad;
    (destruct r as [|r]; [lia|]).
  - rewrite Nat.add_0_r in Hok, Hbad.
    destruct (datalogger_attempt_fatal r path rows w Hsd
                (datalogger_try_fails path rows j w Hj Hok Hbad))
      as (w' & pre & post & Hrun & Ht & Hp).
    exists w', pre, post. cbn [datalogger_loop]. unfold bind.
    rewrite Hrun. auto.
  - destruct (datalogger_attempt_conflict r path rows w
                (file_answers_head _ _ _ _ Hbusy))
      as (w1 & evs & Hrun & He & Hc & _ & Hs & Ht & Hp).
    destruct (IH r w1) as (w' & pre & post & Hrun' & Ht' & Hp1 & Hp2).
    + congruence.
    + lia.
    + rewrite He, Hc. apply file_answers_tail. exact Hbusy.
    + exact Hj.
    + rewrite He, Hc. replace (S (clock w) + n) with (clock w + S n) by lia.
      exact Hok.
    + rewrite He, Hc.
      replace (S (clock w) + n + j) with (clock w + S n + j) by lia.
      exact Hbad.
    + exists w', (evs ++ pre), post. cbn [datalogger_loop]. unfold bind.
      rewrite Hrun, Hrun'. rewrite Ht', Ht, forallb_app, Hp, Hp1.
      rewrite <- !app_assoc. auto.
Qed.

(** C7. When an operation on the datalog fails with anything but the
    permission conflict (after [n] retried conflicts and [j] operations
    that went through), [datalogger] calls [close] on the shared client,
    whatever that call does, and then ends the process with exit code 1. *)
Theorem datalogger_fatal_after_close (datalog_file : string)
        (test_data : dict) (n j : nat) (w : World) :
  sd_vpnclient w = true ->
  n < VPNMON_DATALOG_WRITE_MAX_RETRIES ->
  file_answers (env w) FPermission (clock w) n ->
  j <= S (List.length test_data) ->
  file_answers (env w) FOk (clock w + n) j ->
  env_file (env w) (clock w + n + j) = FOther ->
  exists w' pre post,
    datalogger datalog_file test_data w = (Raise (SystemExit 1), w')
    /\ exit_status (fst (datalogger datalog_file test_data w)) = 1%Z
    /\ trace w'
       = trace w ++ EvEnter "datalogger" :: pre ++ EvEnter "close" :: post
    /\ forallb is_plain pre = true /\ forallb is_plain post = true.
Proof.
  intros Hsd Hn Hbusy Hj Hok Hbad.
  unfold datalogger, bind, emit. cbv beta iota.
  match goal with
  | |- context [datalogger_loop _ _ _ ?w1] =>
      destruct (datalogger_loop_fatal datalog_file test_data j n
                  VPNMON_DATALOG_WRITE_MAX_RETRIES w1 Hsd Hn Hbusy Hj
                  Hok Hbad)
        as (w' & pre & post & Hrun & Ht & Hp1 & Hp2)
  end.
  exists w', pre, post. rewrite Hrun. simpl in Ht.
  repeat split; auto. rewrite Ht, <- !app_assoc. reflexivity.
Qed.

Lemma datalogger_fatal_after_close_witness :
  exists w' pre post,
    datalogger "vpnmon_datalog.csv" sample_rows
               (started_world (datalog_env 1 true))
    = (Raise (SystemExit 1), w')
    /\ exit_status (fst (datalogger "vpnmon_datalog.csv" sample_rows
                           (started_world (datalog_env 1 true)))) = 1%Z
    /\ trace w'
       = trace (started_world (datalog_env 1 true))
         ++ EvEnter "datalogger" :: pre ++ EvEnter "close" :: post
    /\ forallb is_plain pre = true /\ forallb is_plain post = true.
Proof.
  apply (datalogger_fatal_after_close "vpnmon_datalog.csv" sample_rows 1 0
           (started_world (datalog_env 1 true))).
  - reflexivity.
  - unfold VPNMON_DATALOG_WRITE_MAX_RETRIES. lia.
  - intros i Hi. destruct i as [|i]; [reflexivity | lia].
  - simpl. lia.
  - intros i Hi. lia.
  - reflexivity.
Defined.

(** ** VPNClient.open: the outcomes of the conversation *)

Ltac unfold_session :=
  unfold VPNClient.fail_after_teardown, VPNClient.teardown,
    sendline, expect, terminate, host_run, spawn, print_before,
    get_vpn_proc, set_vpn_proc, sleep, try_except, bind, tick, ask, emit,
    ret, raise, exit, expect_result;
  simpl.

(** Case analysis on the next answer of the oracle. *)
Ltac ask_oracle :=
  match goal with
  | |- context [env_call ?e ?t] => destruct (env_call e t) eqn:?
  | |- context [env_expect ?e ?t] => destruct (env_expect e t) eqn:?
  | |- context [String.eqb ?a ?b] => destruct (String.eqb a b) eqn:?
  end; simpl.

Ltac teardown_ended :=
  let pre := fresh "pre" in
  intros pre; unfold ends_in_teardown; rewrite rev_app_distr; reflexivity.

Ltac step_falls_through :=
  left; eexists; split; [reflexivity|]; simpl; split;
  [rewrite <- ?app_assoc; reflexivity | reflexivity].

Ltac step_returns_fail :=
  right; eexists; eexists; split; [reflexivity|]; simpl; split;
  [rewrite <- ?app_assoc; simpl; reflexivity | teardown_ended].

Ltac solve_step :=
  intros [e c vp sc sd wr tr] pid Hpid; simpl in Hpid; subst vp;
  unfold_session;
  repeat ask_oracle;
  first [step_falls_through | step_returns_fail].

Lemma open_connect_spec (site : string) :
  step_spec (connect_good site) (VPNClient.open_connect site).
Proof. unfold VPNClient.open_connect. solve_step. Qed.

Lemma open_credentials_spec (user pass : string) :
  step_spec (credentials_good user pass)
            (VPNClient.open_credentials user pass).
Proof. unfold VPNClient.open_credentials. solve_step. Qed.

Lemma open_banner_spec (site : string) :
  step_spec (banner_good site) (VPNClient.open_banner site).
Proof. unfold VPNClient.open_banner. solve_step. Qed.

Lemma and_then_spec (g1 g2 : list Event) (step : M (option string))
      (rest : M string) :
  step_spec g1 step -> login_spec g2 rest ->
  login_spec (g1 ++ g2) (VPNClient.and_then step rest).
Proof.
  intros Hstep Hrest w pid Hpid. unfold VPNClient.and_then, bind.
  destruct (Hstep w pid Hpid)
    as [(w1 & Hrun & Ht & Hp) | (w1 & evs & Hrun & Ht & Hend)];
    rewrite Hrun.
  - destruct (Hrest w1 pid Hp)
      as [(w2 & Hrun2 & Ht2 & Hp2) | (w2 & evs & Hrun2 & Ht2 & Hend)];
      rewrite Hrun2.
    + left. exists w2. split; [reflexivity|]. split; [|assumption].
      rewrite Ht2, Ht, app_assoc. reflexivity.
    + right. exists w2, (g1 ++ evs). split; [reflexivity|]. split.
      * rewrite Ht2, Ht, app_assoc. reflexivity.
      * intros pre. rewrite app_assoc. apply Hend.
  - right. exists w1, evs. auto.
Qed.

Lemma open_login_spec (site user pass : string) :
  login_spec (login_good site user pass)
             (VPNClient.open_login site user pass).
Proof.
  unfold VPNClient.open_login, login_good.
  apply and_then_spec; [apply open_connect_spec|].
  apply and_then_spec; [apply open_credentials_spec|].
  rewrite <- (app_nil_r (banner_good site)).
  apply and_then_spec; [apply open_banner_spec|].
  intros w pid Hp. left. exists w. rewrite app_nil_r. auto.
Qed.

(** Lines 94-156 either leave the child bound after the expected events,
    or end the process with status 1. *)
Lemma open_prelude_spec (w : World) :
  (exists w' pid,
      VPNClient.open_prelude w = (Ret tt, w')
      /\ trace w' = trace w ++ prelude_good /\ vpn_proc w' = Some pid)
  \/ (exists w' e,
         VPNClient.open_prelude w = (Raise e, w')
         /\ forall A, exit_status (@Raise A e) = 1%Z).
Proof.
  destruct w as [e c vp sc sd wr tr].
  unfold VPNClient.open_prelude, VPNClient.open_preempt,
    VPNClient.open_spawn, VPNClient.open_start_cli,
    VPNClient.open_disconnect.
  unfold_session.
  repeat ask_oracle;
    try (destruct vp; simpl);
    first [ left; eexists; eexists; split; [reflexivity|]; simpl; split;
            [rewrite <- ?app_assoc; reflexivity | reflexivity]
          | right; eexists; eexists; split;
            [reflexivity | intros A; reflexivity] ].
Qed.

Lemma open_after_entry (site user pass : string) (w : World) :
  VPNClient.open site user pass w
  = (VPNClient.open_prelude ;;; VPNClient.open_login site user pass)
      (snd (emit (EvEnter "open") w)).
Proof. reflexivity. Qed.

(** C2, as the code has it.  Every run of [open] ends in one of three
    ways: it returns "Good" after exactly the conversation in which every
    expected pattern matched in order; or it returns "Fail", the steps up
    to the initial disconnect having gone through and the events ending
    with the forced teardown of the child; or one of the steps of
    lines 94-156 (pre-emption, spawn, start of vpncli, initial disconnect)
    failed and the process ends with status 1. *)
Theorem open_outcomes (site user pass : string) (w : World) :
  let r := fst (VPNClient.open site user pass w) in
  let w' := snd (VPNClient.open site user pass w) in
  (r = Ret "Good"%string /\ trace w' = trace w ++ open_good site user pass)
  \/ (r = Ret "Fail"%string
      /\ exists evs,
          trace w' = trace w ++ EvEnter "open" :: prelude_good ++ evs
          /\ ends_in_teardown evs = true)
  \/ (exists e,
         r = Raise e /\ exit_status r = 1%Z
         /\ fst (VPNClient.open_prelude (snd (emit (EvEnter "open") w)))
            = Raise e).
Proof.
  cbv zeta. rewrite open_after_entry.
  assert (Ht0 : trace (snd (emit (EvEnter "open") w))
                = trace w ++ [EvEnter "open"]) by reflexivity.
  revert Ht0. generalize (snd (emit (EvEnter "open") w)). intros w0 Ht0.
  destruct (open_prelude_spec w0)
    as [(w1 & pid & Hrun & Ht & Hp) | (w1 & e & Hrun & Hst)].
  - unfold bind. rewrite Hrun.
    destruct (open_login_spec site user pass w1 pid Hp)
      as [(w2 & Hrun2 & Ht2 & Hp2) | (w2 & evs & Hrun2 & Ht2 & Hend)];
      rewrite Hrun2; cbn [fst snd].
    + left. split; [reflexivity|]. rewrite Ht2, Ht, Ht0.
      unfold open_good. rewrite <- !app_assoc. reflexivity.
    + right. left. split; [reflexivity|]. exists evs. split.
      * rewrite Ht2, Ht, Ht0.
        rewrite <- !app_assoc. reflexivity.
      * apply (Hend []).
  - right. right. exists e. unfold bind. rewrite Hrun. cbn [fst snd].
    repeat split. apply Hst.
Qed.

(** C2, as stated, fails: when vpncli never shows its prompt, [open] does
    not return "Fail" to its caller but ends the process. *)
Lemma open_hard_exit_counterexample :
  fst (VPNClient.open "vpn.example.org" "user" "secret"
         (initial_world no_cli_env))
  = Raise (SystemExit 1)
  /\ fst (VPNClient.open "vpn.example.org" "user" "secret"
            (initial_world no_cli_env))
     <> Ret "Fail"%string.
Proof. split; vm_compute; [reflexivity | discriminate]. Qed.

(** ** A cycle whose gateway ping fails *)

Ltac unfold_cycle :=
  unfold ping_and_open, date_and_tod, pinger, sounder; simpl;
  unfold ping, bind, tick, ask, emit, ret, raise, sleep; simpl.

(** C5, as the code has it.  When both pings of the gateway fail, the
    cycle makes no call of [open] and goes on to the datalogger with no
    target probed and no [close]; the alert is sounded twice, once for the
    ping and once for the open that was not attempted, and two "Fail"
    records are gathered: "VPN ping" and "VPN open". *)
Theorem gateway_fail_cycle (params : Params) (test_cycle : Z) (w : World)
        (l1 l2 : list bool) :
  env_ping (env w) (S (clock w)) = Some (false :: l1) ->
  env_ping (env w) (S (S (clock w))) = Some (false :: l2) ->
  let now := env_now (env w) (clock w) in
  exists w' evs,
    ping_and_open params test_cycle w
    = (Ret ("Fail"%string,
            {| test_results :=
                 [("VPN ping"%string,
                   record_row test_cycle (fst now) (snd now) "VPN ping"
                              "Fail" (vpnurlip params) (vpnname params));
                  ("VPN open"%string,
                   record_row test_cycle (fst now) (snd now) "VPN open"
                              "Fail" (vpnurlip params) (vpnname params))];
               tgood := 0; twarn := 0; tfail := 0 |}), w')
    /\ trace w' = trace w ++ evs
    /\ count_events (Event_is_enter "open") evs = 0
    /\ count_events (Event_is_enter "sounder") evs = 2
    /\ (forall tgts c w0,
           after_open params test_cycle tgts "Fail" c w0
           = (datalogger (datalog params) (test_results c) ;;;
              date_and_tod ;;; ret tt) w0).
Proof.
  intros H1 H2 now. subst now.
  destruct w as [e c vp sc sd wr tr]. simpl in *.
  unfold_cycle. rewrite H1. simpl. rewrite H2. simpl.
  destruct (quiet params); simpl;
    eexists; eexists; (split; [reflexivity|]); simpl;
    (split; [rewrite <- ?app_assoc; simpl; reflexivity|]);
    repeat split; reflexivity.
Qed.

Lemma gateway_fail_cycle_witness :
  exists w' evs c,
    ping_and_open sample_params 1 (started_world gateway_down_env)
    = (Ret ("Fail"%string, c), w')
    /\ trace w' = evs
    /\ count_events (Event_is_enter "open") evs = 0
    /\ count_events (Event_is_enter "sounder") evs = 2.
Proof.
  destruct (gateway_fail_cycle sample_params 1
              (started_world gateway_down_env) [false] [false]
              eq_refl eq_refl)
    as (w' & evs & Hrun & Ht & Hopen & Hsound & _).
  exists w', evs. eexists. split; [exact Hrun|].
  split; [exact Ht|]. split; [exact Hopen | exact Hsound].
Defined.

(** C5, as stated, fails: in a cycle whose gateway ping fails the alert
    is sounded twice, not once, and two "Fail" records are logged, not
    one. *)
Lemma gateway_fail_cycle_counterexample :
  let w' := snd (run_cycle sample_params 1
                           (started_world gateway_down_env)) in
  count_events (Event_is_enter "sounder") (trace w') = 2
  /\ fail_rows (written w') = 2
  /\ ~ (count_events (Event_is_enter "sounder") (trace w') = 1
        /\ fail_rows (written w') = 1).
Proof.
  vm_compute. repeat split; try reflexivity. intros [H _]. discriminate.
Qed.

(** ** The events of the methods a cycle calls *)

Section Sounder.

Variable p : Event -> bool.
Hypothesis plain_accepted : forall ev, is_plain ev = true -> p ev = true.
Hypothesis sounder_accepted : p (EvEnter "sounder") = true.

Lemma appends_sounder (n : Z) (q : bool) : appends p (sounder n q).
Proof.
  unfold sounder. apply appends_bind; [apply appends_emit; assumption|].
  intros _. destruct (negb q); [|apply appends_ret].
  apply appends_sounder_loop. assumption.
Qed.

Lemma appends_ping_targets (params : Params) (test_cycle : Z) (todo : dict) :
  forall c, appends p (ping_targets params test_cycle todo c).
Proof.
  induction todo as [|[target name] todo IH]; intros c;
    cbn [ping_targets]; [apply appends_ret|].
  apply appends_bind; [apply appends_date_and_tod; assumption|]. intros now.
  apply appends_bind; [apply appends_pinger; assumption|]. intros res.
  apply appends_bind; [|intros; apply IH].
  destruct (negb (String.eqb res "Good"));
    [apply appends_sounder | apply appends_ret].
Qed.

End Sounder.

Section Entries.

Variable p : Event -> bool.
Hypothesis plain_accepted : forall ev, is_plain ev = true -> p ev = true.
Hypothesis enter_accepted : forall f, p (EvEnter f) = true.

Lemma appends_close : appends p VPNClient.close.
Proof.
  unfold VPNClient.close.
  apply appends_bind; [apply appends_emit; apply enter_accepted|].
  intros _. apply appends_close_body. assumption.
Qed.

Lemma appends_open (site user pass : string) :
  appends p (VPNClient.open site user pass).
Proof.
  unfold VPNClient.open.
  apply appends_bind; [apply appends_emit; apply enter_accepted|]. intros _.
  apply appends_bind; [apply appends_open_prelude; assumption|]. intros _.
  apply appends_open_login. assumption.
Qed.

Lemma appends_sd_vpnclient_close : appends p sd_vpnclient_close.
Proof.
  intros w. unfold sd_vpnclient_close.
  destruct (sd_vpnclient w) eqn:E.
  - destruct (appends_close w) as (evs & Ht & Hf & He & Hs & Hv).
    rewrite E in Hs. exists evs. auto.
  - exists []. simpl. rewrite app_nil_r. auto.
Qed.

Lemma appends_datalogger_attempt (n : nat) (path : string) (rows : dict) :
  appends p (datalogger_attempt n path rows).
Proof.
  unfold datalogger_attempt.
  apply appends_try_except.
  - unfold datalogger_try.
    apply appends_bind; [apply appends_file_open; assumption|]. intros _.
    apply appends_bind; [apply appends_write_entries; assumption|]. intros _.
    apply appends_bind; [apply appends_file_close; assumption|]. intros _.
    apply appends_ret.
  - intros e. destruct (is_PermissionError e).
    + apply appends_bind; [|intros; apply appends_ret].
      destruct (Nat.ltb 0 n); [|apply appends_ret].
      apply appends_emit. apply plain_accepted. reflexivity.
    + apply appends_bind; [|intros; apply appends_exit].
      apply appends_try_except; [|intros; apply appends_ret].
      apply appends_bind; [apply appends_sd_vpnclient_close|].
      intros; apply appends_ret.
Qed.

Lemma appends_datalogger_loop (r : nat) (path : string) (rows : dict) :
  appends p (datalogger_loop r path rows).
Proof.
  induction r as [|r IH]; cbn [datalogger_loop]; [apply appends_ret|].
  apply appends_bind; [apply appends_datalogger_attempt|].
  intros [|]; [apply appends_ret | apply IH].
Qed.

Lemma appends_datalogger (path : string) (rows : dict) :
  appends p (datalogger path rows).
Proof.
  unfold datalogger.
  apply appends_bind; [apply appends_emit; apply enter_accepted|].
  intros _. apply appends_datalogger_loop.
Qed.

Lemma appends_close_vpn (params : Params) (test_cycle : Z) (c : Cycle) :
  appends p (close_vpn params test_cycle c).
Proof.
  unfold close_vpn.
  apply appends_bind; [apply appends_date_and_tod; assumption|]. intros now.
  apply appends_bind; [apply appends_close|]. intros res.
  apply appends_bind; [|intros; apply appends_ret].
  destruct (negb (String.eqb res "Good")); [|apply appends_ret].
  apply appends_sounder; auto.
Qed.

Lemma appends_after_open (params : Params) (test_cycle : Z) (tgts : dict)
      (res : string) (c : Cycle) :
  appends p (after_open params test_cycle tgts res c).
Proof.
  unfold after_open.
  apply appends_bind.
  { destruct (String.eqb res "Good"); [|apply appends_ret].
    apply appends_ping_targets; auto. }
  intros c1. apply appends_bind.
  { destruct (String.eqb res "Good"); [|apply appends_ret].
    apply appends_close_vpn. }
  intros c2.
  apply appends_bind; [apply appends_datalogger|]. intros _.
  apply appends_bind; [apply appends_date_and_tod; assumption|]. intros _.
  apply appends_ret.
Qed.

Lemma appends_ping_and_open (params : Params) (test_cycle : Z) :
  appends p (ping_and_open params test_cycle).
Proof.
  unfold ping_and_open.
  apply appends_bind; [apply appends_date_and_tod; assumption|]. intros now.
  apply appends_bind; [apply appends_pinger; assumption|]. intros res.
  apply appends_bind.
  { destruct (negb (String.eqb res "Good")); [|apply appends_ret].
    apply appends_sounder; auto. }
  intros _. apply appends_bind.
  { destruct (String.eqb res "Good"); [|apply appends_ret].
    apply appends_bind; [apply appends_date_and_tod; assumption|].
    intros now'.
    apply appends_bind; [apply appends_open|]. intros r.
    apply appends_ret. }
  intros opened. apply appends_bind; [|intros; apply appends_ret].
  destruct (negb (String.eqb (snd opened) "Good")); [|apply appends_ret].
  apply appends_sounder; auto.
Qed.

End Entries.

(** ** One close before the flush *)

Lemma run_ret {A} (m : M A) (w : World) (a : A) :
  fst (m w) = Ret a -> m w = (Ret a, snd (m w)).
Proof. destruct (m w) as [r w1]. simpl. intros ->. reflexivity. Qed.

Lemma all_answered_always (e : Env) (k : nat) :
  forall t, (forall u, ping_answered e u = true) -> all_answered e t k = true.
Proof.
  induction k as [|k IH]; intros t H; simpl; [reflexivity|].
  rewrite H, IH; auto.
Qed.

Lemma pinger_returns (s : string) (k : Z) (w : World) :
  (forall t, ping_answered (env w) t = true) ->
  exists out, fst (pinger s k w) = Ret out.
Proof.
  intros H.
  destruct (pinger_loop_counts s k (Z.to_nat k) 0%Z w
              (all_answered_always _ _ _ H)) as (w' & Hrun & _).
  unfold pinger, bind. rewrite Hrun.
  destruct (Z.eqb _ k); [eexists; reflexivity|].
  destruct (Z.eqb _ 0); eexists; reflexivity.
Qed.

Lemma sounder_loop_returns (n : nat) :
  forall w, fst (sounder_loop n w) = Ret tt.
Proof.
  induction n as [|n IH]; intros w; simpl; [reflexivity|].
  unfold bind, emit, sleep, emit. simpl. apply IH.
Qed.

Lemma sounder_returns (n : Z) (q : bool) (w : World) :
  fst (sounder n q w) = Ret tt.
Proof.
  unfold sounder, bind, emit. simpl.
  destruct q; simpl; [reflexivity | apply sounder_loop_returns].
Qed.

Lemma plain_not_close_nor_flush (ev : Event) :
  is_plain ev = true -> not_close_nor_flush ev = true.
Proof. destruct ev; simpl; try reflexivity; discriminate. Qed.

Lemma date_and_tod_run (w : World) :
  date_and_tod w = (Ret (env_now (env w) (clock w)), snd (tick w)).
Proof. reflexivity. Qed.

(** The alert after a result that is not "Good": it returns, and adds
    only events that [p] accepts. *)
Lemma alert_returns (p : Event -> bool) (b : bool) (n : Z) (q : bool)
      (w : World) :
  (forall ev, is_plain ev = true -> p ev = true) ->
  p (EvEnter "sounder") = true ->
  exists evs,
    (if b then sounder n q else ret tt) w
    = (Ret tt, snd ((if b then sounder n q else ret tt) w))
    /\ trace (snd ((if b then sounder n q else ret tt) w)) = trace w ++ evs
    /\ forallb p evs = true
    /\ env (snd ((if b then sounder n q else ret tt) w)) = env w.
Proof.
  intros Hplain Hsnd. destruct b.
  - destruct (appends_sounder p Hplain Hsnd n q w)
      as (evs & Ht & Hf & He & _).
    exists evs. split; [|auto]. apply run_ret. apply sounder_returns.
  - exists []. simpl. rewrite app_nil_r. auto.
Qed.

Lemma ping_targets_returns (params : Params) (test_cycle : Z) (todo : dict) :
  forall (c : Cycle) (w : World),
    (forall t, ping_answered (env w) t = true) ->
    exists c', fst (ping_targets params test_cycle todo c w) = Ret c'.
Proof.
  induction todo as [|[target name] todo IH]; intros c w H;
    cbn [ping_targets]; [eexists; reflexivity|].
  unfold bind at 1. rewrite date_and_tod_run.
  assert (H1 : forall t, ping_answered (env (snd (tick w))) t = true)
    by exact H.
  revert H1. generalize (snd (tick w)). intros w1 H1.
  destruct (pinger_returns target 2%Z w1 H1) as (out & Hout).
  destruct (appends_pinger any_event (fun _ _ => eq_refl) target 2%Z w1)
    as (_ & _ & _ & He & _).
  unfold bind at 1. rewrite (run_ret _ _ _ Hout).
  revert He. generalize (snd (pinger target 2%Z w1)). intros w2 He.
  destruct (alert_returns any_event (negb (String.eqb out "Good")) 1%Z
              (quiet params) w2 (fun _ _ => eq_refl) eq_refl)
    as (_ & Hrun & _ & _ & He3).
  unfold bind at 1. rewrite Hrun.
  apply IH. intros t. rewrite He3, He. apply H1.
Qed.

Lemma close_returns (w : World) :
  vpn_proc w <> None ->
  exists res, fst (VPNClient.close w) = Ret res.
Proof.
  destruct w as [e c [pid|] sc sd wr tr]; [intros _|intros H; contradiction].
  unfold VPNClient.close, VPNClient.close_step, VPNClient.close_terminate,
    VPNClient.and_then, isalive.
  unfold_session.
  destruct (env_alive e c); simpl; [|eexists; reflexivity].
  repeat ask_oracle; eexists; reflexivity.
Qed.

(** From a world with the child bound, [close_vpn] enters [close] once,
    and returns. *)
Lemma close_vpn_spec (params : Params) (test_cycle : Z) (c : Cycle)
      (w : World) :
  vpn_proc w <> None ->
  exists c' w' mid,
    close_vpn params test_cycle c w = (Ret c', w')
    /\ trace w' = trace w ++ EvEnter "close" :: mid
    /\ forallb not_close_nor_flush mid = true.
Proof.
  intros Hp. unfold close_vpn.
  unfold bind at 1. rewrite date_and_tod_run.
  assert (Hp1 : vpn_proc (snd (tick w)) <> None) by exact Hp.
  assert (Ht1 : trace (snd (tick w)) = trace w) by reflexivity.
  revert Hp1 Ht1. generalize (snd (tick w)). intros w1 Hp1 Ht1.
  destruct (close_returns w1 Hp1) as (res & Hres).
  assert (Htc : exists mid1,
             trace (snd (VPNClient.close w1))
             = trace w1 ++ EvEnter "close" :: mid1
             /\ forallb not_close_nor_flush mid1 = true).
  { unfold VPNClient.close. unfold bind at 1. unfold emit at 1.
    cbv beta iota.
    match goal with
    | |- context [bind isalive ?k ?w2] =>
        destruct (appends_close_body not_close_nor_flush
                    plain_not_close_nor_flush w2)
          as (mid1 & Ht2 & Hf2 & _)
    end.
    exists mid1. rewrite Ht2. simpl. rewrite <- app_assoc. auto. }
  destruct Htc as (mid1 & Htc & Hf1).
  unfold bind at 1. rewrite (run_ret _ _ _ Hres).
  revert Htc. generalize (snd (VPNClient.close w1)). intros w2 Htc.
  destruct (alert_returns not_close_nor_flush
              (negb (String.eqb res "Good")) 3%Z (quiet params) w2
              plain_not_close_nor_flush eq_refl)
    as (mid2 & Hrun & Hts & Hf2 & _).
  unfold bind at 1. rewrite Hrun. revert Hts.
  generalize (snd ((if negb (String.eqb res "Good")
                    then sounder 3%Z (quiet params) else ret tt) w2)).
  intros w3 Hts. unfold ret.
  eexists. exists w3, (mid1 ++ mid2). split; [reflexivity|]. split.
  - rewrite Hts, Htc, Ht1. rewrite <- app_assoc. reflexivity.
  - rewrite forallb_app, Hf1, Hf2. reflexivity.
Qed.

(** The flush and the end of the cycle: the datalogger is entered. *)
Lemma flush_spec (path : string) (rows : dict) (w : World) :
  exists post,
    trace (snd ((datalogger path rows ;;; date_and_tod ;;; ret tt) w))
    = trace w ++ EvEnter "datalogger" :: post.
Proof.
  assert (Hd : exists post1,
             trace (snd (datalogger path rows w))
             = trace w ++ EvEnter "datalogger" :: post1).
  { unfold datalogger. unfold bind at 1. unfold emit at 1. cbv beta iota.
    match goal with
    | |- context [datalogger_loop ?r path rows ?w1] =>
        destruct (appends_datalogger_loop any_event (fun _ _ => eq_refl)
                    (fun _ => eq_refl) r path rows w1)
          as (post1 & Ht & _)
    end.
    exists post1. rewrite Ht. simpl. rewrite <- app_assoc. reflexivity. }
  destruct Hd as (post1 & Hd).
  unfold bind at 1.
  destruct (datalogger path rows w) as [[res|e] w1]; simpl in Hd.
  - assert (Hrest : appends any_event (date_and_tod ;;; ret tt)).
    { apply appends_bind; [|intros; apply appends_ret].
      apply appends_date_and_tod; intros; reflexivity. }
    destruct (Hrest w1) as (post2 & Ht & _).
    exists (post1 ++ post2). rewrite Ht, Hd. rewrite <- app_assoc.
    reflexivity.
  - exists post1. exact Hd.
Qed.




(** ** The main loop: c cycles, c - 1 waits *)

Lemma plain_not_marker (ev : Event) :
  is_plain ev = true -> not_marker ev = true.
Proof.
  destruct ev; simpl; try reflexivity; try discriminate.
  destruct d; simpl; try reflexivity; discriminate.
Qed.

Lemma enter_not_marker (f : string) : not_marker (EvEnter f) = true.
Proof. reflexivity. Qed.

Lemma filter_not_marker (evs : list Event) :
  forallb not_marker evs = true -> filter is_marker evs = [].
Proof.
  induction evs as [|ev evs IH]; simpl; [reflexivity|].
  intros H. apply andb_true_iff in H. destruct H as [Hev Hevs].
  unfold not_marker in Hev. apply negb_true_iff in Hev. rewrite Hev.
  apply IH. exact Hevs.
Qed.

(** A cycle that returns has printed its banner once and has not waited
    for a next cycle. *)
Lemma run_cycle_markers (params : Params) (test_cycle : Z) (w w1 : World) :
  run_cycle params test_cycle w = (Ret tt, w1) ->
  exists evs,
    trace w1 = trace w ++ evs
    /\ filter is_marker evs = [EvCycleStart test_cycle]
    /\ env w1 = env w.
Proof.
  intros H. unfold run_cycle in H.
  unfold bind at 1 in H.
  destruct (appends_get_targets not_marker plain_not_marker
              (targets params) w) as (evs1 & Ht1 & Hf1 & He1 & _).
  destruct (get_targets (targets params) w) as [[tg|e] wa];
    [|discriminate H]. simpl in Ht1, He1.
  unfold bind at 1 in H. rewrite date_and_tod_run in H.
  assert (Ht2 : trace (snd (tick wa)) = trace wa) by reflexivity.
  assert (He2 : env (snd (tick wa)) = env wa) by reflexivity.
  revert H Ht2 He2. generalize (snd (tick wa)). intros wb H Ht2 He2.
  unfold bind at 1 in H. unfold emit at 1 in H. cbv beta iota in H.
  match type of H with
  | context [bind (ping_and_open _ _) _ ?wc0] =>
      assert (Ht3 : trace wc0 = trace wb ++ [EvCycleStart test_cycle])
        by reflexivity;
      assert (He3 : env wc0 = env wb) by reflexivity;
      revert H Ht3 He3; generalize wc0; intros wc H Ht3 He3
  end.
  unfold bind at 1 in H.
  destruct (appends_ping_and_open not_marker plain_not_marker
              enter_not_marker params test_cycle wc)
    as (evs4 & Ht4 & Hf4 & He4 & _).
  destruct (ping_and_open params test_cycle wc) as [[oc|e] wd];
    [|discriminate H]. simpl in Ht4, He4.
  destruct (appends_after_open not_marker plain_not_marker
              enter_not_marker params test_cycle tg (fst oc) (snd oc) wd)
    as (evs5 & Ht5 & Hf5 & He5 & _).
  rewrite H in Ht5, He5. simpl in Ht5, He5.
  exists (evs1 ++ [EvCycleStart test_cycle] ++ evs4 ++ evs5). split.
  - rewrite Ht5, Ht4, Ht3, Ht2, Ht1. rewrite <- !app_assoc. reflexivity.
  - split.
    + rewrite !filter_app.
      rewrite (filter_not_marker _ Hf1), (filter_not_marker _ Hf4),
        (filter_not_marker _ Hf5).
      reflexivity.
    + congruence.
Qed.

(** The wait between two cycles, for a length that [time.sleep] takes. *)
Lemma pause_run (params : Params) (w : World) :
  sleep_accepts (env w) (delay params) = true ->
  (date_and_tod ;;; sleep_seconds (delay params)) w
  = (Ret tt, after_pause params w)
  /\ trace (after_pause params w)
     = trace w ++ [EvSleep (CYCLE_DELAY (delay params))]
  /\ env (after_pause params w) = env w.
Proof.
  intros Hacc. unfold sleep_accepts in Hacc.
  apply andb_true_iff in Hacc. destruct Hacc as [Hpos Hslept].
  apply Z.leb_le in Hpos.
  assert (Hrun : (date_and_tod ;;; sleep_seconds (delay params)) w
                 = (Ret tt,
                    snd (sleep (CYCLE_DELAY (delay params))
                               (snd (tick w))))).
  { unfold bind at 1. rewrite date_and_tod_run. unfold sleep_seconds.
    destruct (Z.ltb_spec (delay params) 0); [lia|].
    unfold bind, ask. change (env (snd (tick w))) with (env w).
    destruct (env_sleep (env w) (delay params)); try discriminate Hslept.
    reflexivity. }
  unfold after_pause. rewrite Hrun. split; [reflexivity|].
  split; reflexivity.
Qed.

Lemma main_loop_done (fuel : nat) (params : Params) (test_cycle : Z)
      (w : World) :
  main_loop fuel params 0 test_cycle w = (Ret (Some test_cycle), w).
Proof. destruct fuel; reflexivity. Qed.

Lemma main_loop_cycles (params : Params) :
  forall (k fuel : nat) (test_cycle : Z) (w : World),
    k <= fuel ->
    (k <> 0 -> sleep_accepts (env w) (delay params) = true) ->
    cycles_complete params (S k) test_cycle w = true ->
    exists w' evs,
      main_loop (S fuel) params (Z.of_nat (S k)) test_cycle w
      = (Ret (Some (test_cycle + Z.of_nat k)%Z), w')
      /\ trace w' = trace w ++ evs
      /\ filter is_marker evs
         = cycle_markers (delay params) (S k) test_cycle.
Proof.
  induction k as [|k IH]; intros fuel n w Hfuel Hacc Hall.
  - cbn [cycles_complete] in Hall.
    destruct (run_cycle params n w) as [[[]|e] w1] eqn:Hrun;
      [|discriminate Hall].
    destruct (run_cycle_markers params n w w1 Hrun) as (evs & Ht & Hm & _).
    exists w1, evs.
    cbn [main_loop]. change (Z.of_nat 1 =? 0)%Z with false. cbv iota.
    unfold bind at 1. rewrite Hrun.
    change (0 <? Z.of_nat 1)%Z with true. cbv iota.
    change (Z.of_nat 1 - 1 =? 0)%Z with true. cbv iota.
    rewrite main_loop_done. rewrite Z.add_0_r. auto.
  - destruct fuel as [|fuel]; [lia|].
    cbn [cycles_complete] in Hall.
    destruct (run_cycle params n w) as [[[]|e] w1] eqn:Hrun;
      [|discriminate Hall].
    destruct (run_cycle_markers params n w w1 Hrun)
      as (evs & Ht & Hm & He).
    assert (Hacc1 : sleep_accepts (env w1) (delay params) = true).
    { rewrite He. apply Hacc. discriminate. }
    destruct (pause_run params w1 Hacc1) as (Hpause & Htp & Hep).
    assert (Hacc2 : k <> 0 ->
                    sleep_accepts (env (after_pause params w1))
                                  (delay params) = true).
    { intros _. rewrite Hep. exact Hacc1. }
    destruct (IH fuel (n + 1)%Z (after_pause params w1) ltac:(lia)
                Hacc2 Hall)
      as (w' & evs' & Hloop & Ht' & Hm').
    exists w', (evs ++ [EvSleep (CYCLE_DELAY (delay params))] ++ evs').
    remember (S k) as k1 eqn:Hk1.
    remember (S fuel) as fuel1 eqn:Hfuel1.
    cbn [main_loop].
    destruct (Z.eqb_spec (Z.of_nat (S k1)) 0); [lia|].
    unfold bind at 1. rewrite Hrun.
    destruct (Z.ltb_spec 0 (Z.of_nat (S k1))); [|lia].
    replace (Z.of_nat (S k1) - 1)%Z with (Z.of_nat k1) by lia.
    destruct (Z.eqb_spec (Z.of_nat k1) 0); [lia|].
    unfold bind at 1.
    unfold bind at 1 in Hpause.
    destruct (date_and_tod w1) as [[now|e] w2]; [|discriminate Hpause].
    unfold bind at 1. rewrite Hpause. cbv beta iota. rewrite Hloop.
    split; [f_equal; f_equal; f_equal; lia|]. split.
    + rewrite Ht', Htp, Ht. rewrite <- !app_assoc. reflexivity.
    + rewrite !filter_app. rewrite Hm, Hm'. subst k1. reflexivity.
Qed.

(** C8. For a cycle count [c > 0], when none of the cycles ends the
    process and, for [c > 1], the configured delay is a length that
    [time.sleep] takes (not negative and not too large for the platform),
    the loop runs exactly [c] cycles and then stops: the banners and
    waits it leaves are those of [c] cycles with a wait between two of
    them and none after the last, so [c - 1] waits in all. *)
Theorem main_loop_runs_c_cycles (params : Params) (c : Z) (fuel : nat)
        (w : World) :
  (0 < c)%Z ->
  Z.to_nat c <= fuel ->
  ((1 < c)%Z -> sleep_accepts (env w) (delay params) = true) ->
  cycles_complete params (Z.to_nat c) 1 w = true ->
  exists w' evs,
    main_loop fuel params c 1 w = (Ret (Some c), w')
    /\ trace w' = trace w ++ evs
    /\ filter is_marker evs = cycle_markers (delay params) (Z.to_nat c) 1
    /\ count_events is_cycle_start evs = Z.to_nat c
    /\ count_events is_cycle_sleep evs = Z.to_nat c - 1.
Proof.
  intros Hc Hfuel Hdelay Hall.
  destruct (Z.to_nat c) as [|k] eqn:Ek; [lia|].
  destruct fuel as [|fuel]; [lia|].
  assert (Hacc : k <> 0 -> sleep_accepts (env w) (delay params) = true).
  { intros Hk. apply Hdelay. lia. }
  destruct (main_loop_cycles params k fuel 1%Z w ltac:(lia) Hacc Hall)
    as (w' & evs & Hloop & Ht & Hm).
  exists w', evs.
  replace c with (Z.of_nat (S k)) by lia.
  rewrite Hloop. split; [f_equal; f_equal; f_equal; lia|].
  split; [exact Ht|]. split; [exact Hm|].
  assert (Hcount : forall q,
             (forall ev, q ev = true -> is_marker ev = true) ->
             count_events q evs
             = count_events q (cycle_markers (delay params) (S k) 1)).
  { intros q Hq. unfold count_events. rewrite <- Hm. f_equal.
    clear -Hq. induction evs as [|ev evs IH]; simpl; [reflexivity|].
    destruct (is_marker ev) eqn:E; simpl.
    - destruct (q ev); [f_equal|]; exact IH.
    - destruct (q ev) eqn:Eq; [|exact IH].
      apply Hq in Eq. congruence. }
  assert (Hstarts : forall n j,
             count_events is_cycle_start
               (cycle_markers (delay params) j n) = j
             /\ count_events is_cycle_sleep
                  (cycle_markers (delay params) j n) = j - 1).
  { intros n j. revert n. induction j as [|j IH]; intros n;
      [split; reflexivity|].
    destruct j as [|j]; [split; reflexivity|].
    destruct (IH (n + 1)%Z) as [IH1 IH2].
    unfold count_events in *. cbn [cycle_markers] in *.
    cbn [filter is_cycle_start is_cycle_sleep List.length] in *.
    rewrite IH1, IH2. split; lia. }
  split.
  - rewrite Hcount; [apply Hstarts|]. intros [] H; try discriminate H.
    reflexivity.
  - rewrite Hcount; [apply Hstarts|]. intros [] H; try discriminate H.
    exact H.
Qed.

Lemma main_loop_runs_c_cycles_witness :
  exists w' evs,
    main_loop 2 sample_params 2 1 (started_world gateway_down_env)
    = (Ret (Some 2%Z), w')
    /\ trace w' = evs
    /\ filter is_marker evs
       = [EvCycleStart 1; EvSleep (CYCLE_DELAY 0); EvCycleStart 2]
    /\ count_events is_cycle_start evs = 2
    /\ count_events is_cycle_sleep evs = 1.
Proof.
  destruct (main_loop_runs_c_cycles sample_params 2 2
              (started_world gateway_down_env))
    as (w' & evs & Hrun & Ht & Hm & Hstart & Hsleep).
  - lia.
  - simpl. lia.
  - intros _. vm_compute. reflexivity.
  - vm_compute. reflexivity.
  - exists w', evs. repeat split; assumption.
Defined.

(** The loop of C8 stops short of its [c] cycles when the wait between
    two cycles or a cycle itself raises.  With two cycles asked for:
    a negative delay lets the first cycle return and then ends the
    process with a [ValueError] raised by [time.sleep]; so does, with an
    [OverflowError], a delay too large for the platform; and a targets
    file that cannot be read ends the process in the first cycle, before
    its banner.  Each run has status 1, and none waits between cycles. *)
Lemma main_loop_stops_short_counterexample :
  (let r := main_loop 2 negative_delay_params 2 1
                      (started_world gateway_down_env) in
   fst (run_cycle negative_delay_params 1
                  (started_world gateway_down_env)) = Ret tt
   /\ fst r = Raise ValueError
   /\ exit_status (fst r) = 1%Z
   /\ count_events is_cycle_start (trace (snd r)) = 1
   /\ count_events is_cycle_sleep (trace (snd r)) = 0)
  /\ (let r := main_loop 2 long_delay_params 2 1
                         (started_world bounded_sleep_env) in
      fst (run_cycle long_delay_params 1
                     (started_world bounded_sleep_env)) = Ret tt
      /\ fst r = Raise OverflowError
      /\ exit_status (fst r) = 1%Z
      /\ count_events is_cycle_start (trace (snd r)) = 1
      /\ count_events is_cycle_sleep (trace (snd r)) = 0)
  /\ (let r := main_loop 2 sample_params 2 1
                         (started_world unreadable_env) in
      sleep_accepts unreadable_env (delay sample_params) = true
      /\ fst r = Raise (SystemExit 1)
      /\ exit_status (fst r) = 1%Z
      /\ count_events is_cycle_start (trace (snd r)) = 0
      /\ count_events is_cycle_sleep (trace (snd r)) = 0).
Proof.
  cbv zeta. split; [|split].
  - split; [vm_compute; reflexivity|].
    split; [vm_compute; reflexivity|].
    split; [vm_compute; reflexivity|].
    split; vm_compute; reflexivity.
  - split; [vm_compute; reflexivity|].
    split; [vm_compute; reflexivity|].
    split; [vm_compute; reflexivity|].
    split; vm_compute; reflexivity.
  - split; [vm_compute; reflexivity|].
    split; [vm_compute; reflexivity|].
    split; [vm_compute; reflexivity|].
    split; vm_compute; reflexivity.
Qed.

(** ** Exit codes *)

Lemma fatal_ret {A} (a : A) : raises_fatal (ret a).
Proof. intros w e H. discriminate H. Qed.

Lemma fatal_raise {A} (e : Exn) :
  is_fatal e = true -> raises_fatal (@raise A e).
Proof. intros He w e' H. simpl in H. congruence. Qed.

Lemma fatal_total {A} (m : M A) :
  (forall w, exists a, fst (m w) = Ret a) -> raises_fatal m.
Proof. intros H w e He. destruct (H w) as (a & Ha). congruence. Qed.

Lemma fatal_bind {A B} (m : M A) (k : A -> M B) :
  raises_fatal m -> (forall a, raises_fatal (k a)) ->
  raises_fatal (bind m k).
Proof.
  intros Hm Hk w e. unfold bind.
  specialize (Hm w). destruct (m w) as [[a|e'] w1]; simpl in *.
  - apply Hk.
  - intros H. apply Hm. congruence.
Qed.

Lemma fatal_try_except {A} (body : M A) (catches : Exn -> bool)
      (handler : Exn -> M A) :
  raises_fatal body -> (forall e, raises_fatal (handler e)) ->
  raises_fatal (try_except body catches handler).
Proof.
  intros Hm Hk w e. unfold try_except.
  specialize (Hm w). destruct (body w) as [[a|e'] w1]; simpl in *.
  - intros H. discriminate H.
  - destruct (catches e'); [apply Hk | intros H; apply Hm; exact H].
Qed.

(** A [try] whose handler catches everything and returns. *)
Lemma fatal_swallowed {A} (body : M A) (a : A) :
  raises_fatal (try_except body any_exception (fun _ => ret a)).
Proof.
  intros w e. unfold try_except, any_exception.
  destruct (body w) as [[x|e'] w1]; simpl; intros H; discriminate H.
Qed.

Ltac fatal_total_now :=
  apply fatal_total; intros; eexists; reflexivity.

Ltac fatal_step :=
  match goal with
  | |- raises_fatal (bind _ _) => apply fatal_bind; [|intros]
  | |- raises_fatal (try_except _ any_exception (fun _ => ret _)) =>
      apply fatal_swallowed
  | |- raises_fatal (try_except _ _ _) => apply fatal_try_except; [|intros]
  | |- raises_fatal (ret _) => apply fatal_ret
  | |- raises_fatal (raise _) => apply fatal_raise; reflexivity
  | |- raises_fatal (exit _) => apply fatal_raise; reflexivity
  | |- raises_fatal (emit _) => fatal_total_now
  | |- raises_fatal (sleep _) => fatal_total_now
  | |- raises_fatal tick => fatal_total_now
  | |- raises_fatal (ask _) => fatal_total_now
  | |- raises_fatal (set_vpn_proc _) => fatal_total_now
  | |- raises_fatal (set_datalogfile _) => fatal_total_now
  | |- raises_fatal (append_row _ _) => fatal_total_now
  | |- raises_fatal (if ?b then _ else _) => destruct b
  | |- raises_fatal (match ?x with _ => _ end) => destruct x
  | |- raises_fatal (file_error ?r _) => destruct r; unfold file_error
  end.

Create HintDb fatal.

Lemma fatal_get_vpn_proc : raises_fatal get_vpn_proc.
Proof.
  intros w e. unfold get_vpn_proc. destruct (vpn_proc w); simpl;
    intros H; inversion H. reflexivity.
Qed.

Lemma fatal_date_and_tod : raises_fatal date_and_tod.
Proof. fatal_total_now. Qed.

Lemma fatal_ping (s : string) (c : Z) : raises_fatal (ping s c).
Proof. unfold ping. repeat fatal_step. Qed.

Lemma fatal_pinger_loop (n : nat) (s : string) (c : Z) :
  forall good, raises_fatal (pinger_loop n s c good).
Proof.
  induction n as [|n IH]; intros good; simpl; [apply fatal_ret|].
  apply fatal_bind; [apply fatal_ping|].
  intros [|b l]; [apply fatal_raise; reflexivity | apply IH].
Qed.

Lemma fatal_pinger (s : string) (c : Z) : raises_fatal (pinger s c).
Proof.
  unfold pinger. apply fatal_bind; [apply fatal_pinger_loop|].
  intros good. repeat fatal_step.
Qed.

Lemma fatal_host_run (cmd : string) : raises_fatal (host_run cmd).
Proof. unfold host_run. repeat fatal_step. Qed.

Lemma fatal_spawn : raises_fatal spawn.
Proof. unfold spawn. repeat fatal_step. Qed.

Lemma fatal_sendline (s : string) : raises_fatal (sendline s).
Proof.
  unfold sendline. apply fatal_bind; [apply fatal_get_vpn_proc|].
  intros. repeat fatal_step.
Qed.

Lemma fatal_terminate : raises_fatal terminate.
Proof.
  unfold terminate. apply fatal_bind; [apply fatal_get_vpn_proc|].
  intros. repeat fatal_step.
Qed.

Lemma fatal_isalive : raises_fatal isalive.
Proof.
  unfold isalive. apply fatal_bind; [apply fatal_get_vpn_proc|].
  intros. repeat fatal_step.
Qed.

Lemma fatal_print_before : raises_fatal print_before.
Proof.
  unfold print_before. apply fatal_bind; [apply fatal_get_vpn_proc|].
  intros. apply fatal_ret.
Qed.

Lemma expect_result_fatal (pats : list Pattern) (out : ChildOutput)
      (e : Exn) :
  expect_result pats out = Raise e -> is_fatal e = true.
Proof.
  unfold expect_result.
  destruct out as [s| |]; try destruct (index_of (Pat s) pats);
    destruct (index_of TIMEOUT pats); intros H; inversion H; reflexivity.
Qed.

Lemma fatal_expect (pats : list Pattern) : raises_fatal (expect pats).
Proof.
  unfold expect. apply fatal_bind; [apply fatal_get_vpn_proc|]. intros _.
  apply fatal_bind; [fatal_total_now|]. intros t.
  apply fatal_bind; [fatal_total_now|]. intros out.
  destruct (expect_result pats out) as [i|e] eqn:E.
  - repeat fatal_step.
  - apply fatal_bind; [fatal_total_now|]. intros _.
    apply fatal_raise. exact (expect_result_fatal _ _ _ E).
Qed.

#[local] Hint Resolve fatal_date_and_tod fatal_pinger fatal_host_run
  fatal_spawn fatal_sendline fatal_terminate fatal_isalive
  fatal_print_before fatal_expect fatal_ret : fatal.

Ltac fatal_auto :=
  repeat (first [ solve [auto with fatal] | fatal_step ]).

Lemma fatal_teardown : raises_fatal VPNClient.teardown.
Proof. unfold VPNClient.teardown. fatal_auto. Qed.

#[local] Hint Resolve fatal_teardown : fatal.

Lemma fatal_fail_after_teardown : raises_fatal VPNClient.fail_after_teardown.
Proof. unfold VPNClient.fail_after_teardown. fatal_auto. Qed.

#[local] Hint Resolve fatal_fail_after_teardown : fatal.

Lemma fatal_and_then (step : M (option string)) (rest : M string) :
  raises_fatal step -> raises_fatal rest ->
  raises_fatal (VPNClient.and_then step rest).
Proof. intros Hs Hr. unfold VPNClient.and_then. fatal_auto. Qed.

Lemma fatal_open (site user pass : string) :
  raises_fatal (VPNClient.open site user pass).
Proof.
  unfold VPNClient.open, VPNClient.open_prelude, VPNClient.open_login.
  apply fatal_bind; [fatal_total_now|]. intros _.
  apply fatal_bind.
  { unfold VPNClient.open_preempt, VPNClient.open_spawn,
      VPNClient.open_start_cli, VPNClient.open_disconnect.
    fatal_auto. }
  intros _.
  repeat apply fatal_and_then; try apply fatal_ret.
  - unfold VPNClient.open_connect. fatal_auto.
  - unfold VPNClient.open_credentials. fatal_auto.
  - unfold VPNClient.open_banner. fatal_auto.
Qed.

Lemma fatal_close : raises_fatal VPNClient.close.
Proof.
  unfold VPNClient.close.
  apply fatal_bind; [fatal_total_now|]. intros _.
  apply fatal_bind; [apply fatal_isalive|]. intros alive.
  destruct (negb alive); [apply fatal_ret|].
  repeat apply fatal_and_then; try apply fatal_ret;
    unfold VPNClient.close_step, VPNClient.close_terminate; fatal_auto.
Qed.

Lemma fatal_sounder (n : Z) (q : bool) : raises_fatal (sounder n q).
Proof.
  apply fatal_total. intros w. exists tt. apply sounder_returns.
Qed.

Lemma fatal_get_targets_loop (lines : list string) :
  forall d, raises_fatal (get_targets_loop lines d).
Proof.
  induction lines as [|l lines IH]; intros d; simpl; [apply fatal_ret|].
  destruct (split comma 2 (remove_newlines l)) as [|ip [|name rest]];
    try (apply fatal_raise; reflexivity).
  apply IH.
Qed.

Lemma fatal_path_exists (path : string) : raises_fatal (path_exists path).
Proof. fatal_total_now. Qed.

Lemma fatal_read_lines (path : string) : raises_fatal (read_lines path).
Proof. unfold read_lines. fatal_auto. Qed.

Lemma fatal_get_targets (path : string) : raises_fatal (get_targets path).
Proof.
  unfold get_targets. apply fatal_bind; [apply fatal_path_exists|].
  intros [|]; [|apply fatal_ret].
  apply fatal_try_except; [|intros; apply fatal_raise; reflexivity].
  apply fatal_bind; [apply fatal_read_lines|].
  intros. apply fatal_get_targets_loop.
Qed.

Lemma fatal_file_open (path : string) : raises_fatal (file_open path).
Proof. unfold file_open. fatal_auto. Qed.

Lemma fatal_file_write (path row : string) :
  raises_fatal (file_write path row).
Proof. unfold file_write. fatal_auto. Qed.

Lemma fatal_file_close (path : string) : raises_fatal (file_close path).
Proof. unfold file_close. fatal_auto. Qed.

Lemma fatal_write_entries (path : string) (d : dict) :
  raises_fatal (write_entries path d).
Proof.
  induction d as [|[k row] d IH]; simpl; [apply fatal_ret|].
  apply fatal_bind; [apply fatal_file_write | intros; apply IH].
Qed.

Lemma fatal_datalogger (path : string) (rows : dict) :
  raises_fatal (datalogger path rows).
Proof.
  unfold datalogger. apply fatal_bind; [fatal_total_now|]. intros _.
  generalize VPNMON_DATALOG_WRITE_MAX_RETRIES.
  intros r. induction r as [|r IH]; cbn [datalogger_loop];
    [apply fatal_ret|].
  apply fatal_bind; [|intros [|]; [apply fatal_ret | apply IH]].
  unfold datalogger_attempt. apply fatal_try_except.
  - unfold datalogger_try.
    apply fatal_bind; [apply fatal_file_open|]. intros _.
    apply fatal_bind; [apply fatal_write_entries|]. intros _.
    apply fatal_bind; [apply fatal_file_close|]. intros _.
    apply fatal_ret.
  - intros e. destruct (is_PermissionError e).
    + apply fatal_bind; [|intros; apply fatal_ret].
      destruct (Nat.ltb 0 r); [fatal_total_now | apply fatal_ret].
    + apply fatal_bind; [apply fatal_swallowed|].
      intros. apply fatal_raise. reflexivity.
Qed.

Lemma fatal_ping_targets (params : Params) (test_cycle : Z) (todo : dict) :
  forall c, raises_fatal (ping_targets params test_cycle todo c).
Proof.
  induction todo as [|[target name] todo IH]; intros c;
    cbn [ping_targets]; [apply fatal_ret|].
  apply fatal_bind; [apply fatal_date_and_tod|]. intros now.
  apply fatal_bind; [apply fatal_pinger|]. intros res.
  apply fatal_bind; [|intros; apply IH].
  destruct (negb (String.eqb res "Good"));
    [apply fatal_sounder | apply fatal_ret].
Qed.

Lemma fatal_run_cycle (params : Params) (test_cycle : Z) :
  raises_fatal (run_cycle params test_cycle).
Proof.
  unfold run_cycle.
  apply fatal_bind; [apply fatal_get_targets|]. intros tgts.
  apply fatal_bind; [apply fatal_date_and_tod|]. intros _.
  apply fatal_bind; [fatal_total_now|]. intros _.
  apply fatal_bind.
  { unfold ping_and_open.
    apply fatal_bind; [apply fatal_date_and_tod|]. intros now.
    apply fatal_bind; [apply fatal_pinger|]. intros res.
    apply fatal_bind.
    { destruct (negb (String.eqb res "Good"));
        [apply fatal_sounder | apply fatal_ret]. }
    intros _. apply fatal_bind.
    { destruct (String.eqb res "Good"); [|apply fatal_ret].
      apply fatal_bind; [apply fatal_date_and_tod|]. intros now'.
      apply fatal_bind; [apply fatal_open|]. intros r. apply fatal_ret. }
    intros opened. apply fatal_bind; [|intros; apply fatal_ret].
    destruct (negb (String.eqb (snd opened) "Good"));
      [apply fatal_sounder | apply fatal_ret]. }
  intros oc. unfold after_open.
  apply fatal_bind.
  { destruct (String.eqb (fst oc) "Good"); [|apply fatal_ret].
    apply fatal_ping_targets. }
  intros c1. apply fatal_bind.
  { destruct (String.eqb (fst oc) "Good"); [|apply fatal_ret].
    unfold close_vpn.
    apply fatal_bind; [apply fatal_date_and_tod|]. intros now.
    apply fatal_bind; [apply fatal_close|]. intros res.
    apply fatal_bind; [|intros; apply fatal_ret].
    destruct (negb (String.eqb res "Good"));
      [apply fatal_sounder | apply fatal_ret]. }
  intros c2.
  apply fatal_bind; [apply fatal_datalogger|]. intros _.
  apply fatal_bind; [apply fatal_date_and_tod|]. intros _.
  apply fatal_ret.
Qed.

Lemma fatal_main_loop (params : Params) (fuel : nat) :
  forall count test_cycle,
    raises_fatal (main_loop fuel params count test_cycle).
Proof.
  induction fuel as [|fuel IH]; intros count n; cbn [main_loop].
  - destruct (Z.eqb count 0); apply fatal_ret.
  - destruct (Z.eqb count 0); [apply fatal_ret|].
    apply fatal_bind; [apply fatal_run_cycle|]. intros _.
    destruct (Z.eqb _ 0); [apply IH|].
    apply fatal_bind; [apply fatal_date_and_tod|]. intros _.
    apply fatal_bind; [|intros; apply IH].
    unfold sleep_seconds. destruct (Z.ltb (delay params) 0);
      [apply fatal_raise; reflexivity|].
    apply fatal_bind; [fatal_total_now|]. intros [].
    + fatal_total_now.
    + apply fatal_raise; reflexivity.
    + apply fatal_raise; reflexivity.
Qed.

Lemma swallowed_returns {A} (body : M A) (a : A) (w : World) :
  exists x, fst (try_except body any_exception (fun _ => ret a) w) = Ret x.
Proof.
  unfold try_except, any_exception.
  destruct (body w) as [[x|e] w1]; simpl; eexists; reflexivity.
Qed.

(** Whatever the cleanup does, the handler of Control-C ends the process
    with exit code 0. *)
Lemma signal_handler_exits_0 (w : World) :
  fst (signal_handler w) = Raise (SystemExit 0).
Proof.
  unfold signal_handler. unfold bind at 1.
  match goal with
  | |- context [try_except ?b any_exception ?h w] =>
      destruct (swallowed_returns b tt w) as (x & Hx);
      destruct (try_except b any_exception h w) as [r w1]
  end.
  simpl in Hx. subst r. unfold bind at 1.
  match goal with
  | |- context [try_except ?b any_exception ?h w1] =>
      destruct (swallowed_returns b tt w1) as (y & Hy);
      destruct (try_except b any_exception h w1) as [r w2]
  end.
  simpl in Hy. subst r. reflexivity.
Qed.

(** A [try] whose handler is [exit(1)], around a body that has no other
    exit, ends in [exit(1)] whenever it does not return. *)
Lemma try_exit_1 {A} (body : M A) (w : World) (e : Exn) :
  raises_fatal body ->
  fst (try_except body is_Exception (fun _ => exit 1%Z) w) = Raise e ->
  e = SystemExit 1.
Proof.
  intros Hb. unfold try_except. specialize (Hb w).
  destruct (body w) as [[a|e'] w1]; simpl in *; [discriminate|].
  destruct (is_Exception e') eqn:E; simpl; intros H.
  - inversion H. reflexivity.
  - inversion H. subst e'. specialize (Hb e eq_refl).
    destruct e; try discriminate E. simpl in Hb.
    apply Z.eqb_eq in Hb. subst. reflexivity.
Qed.

Lemma fatal_get_params_loop (lines : list string) :
  forall d, raises_fatal (get_params_loop lines d).
Proof.
  induction lines as [|l lines IH]; intros d; simpl; [apply fatal_ret|].
  destruct (split comma 2 (remove_newlines l)) as [|name fields];
    [apply fatal_raise; reflexivity|].
  destruct (pdict_mem (lower name) d); [|apply IH].
  destruct fields; [apply fatal_raise; reflexivity | apply IH].
Qed.

Lemma fatal_int (v : PyVal) : raises_fatal (int v).
Proof.
  unfold int. destruct v as [s|z|b]; try apply fatal_ret.
  destruct (int_of_string s); [apply fatal_ret|].
  apply fatal_raise. reflexivity.
Qed.

(** The parameters file, when it does not give a dictionary, ends the
    process with exit code 1. *)
Lemma read_params_file_exit (w : World) (e : Exn) :
  fst (read_params_file w) = Raise e -> e = SystemExit 1.
Proof.
  unfold read_params_file. unfold bind at 1.
  destruct (path_exists VPNMON_PARAMS_FILE w) as [[[|]|e'] w1] eqn:E;
    simpl; try discriminate.
  apply try_exit_1.
  apply fatal_bind; [apply fatal_read_lines|]. intros lines.
  apply fatal_bind; [apply fatal_get_params_loop|]. intros d.
  apply fatal_bind; [apply fatal_int|]. intros c.
  apply fatal_bind; [apply fatal_int|]. intros dl. apply fatal_ret.
Qed.

Lemma read_params_file_unreadable (w : World) :
  env_exists (env w) (clock w) = true ->
  env_read (env w) (S (clock w)) = None ->
  fst (read_params_file w) = Raise (SystemExit 1).
Proof.
  intros He Hr.
  unfold read_params_file, path_exists, read_lines, try_except, bind, tick,
    ask, emit, ret. simpl. rewrite He. simpl. rewrite Hr. reflexivity.
Qed.

Lemma datalogger_other_exits (path : string) (rows : dict) (w : World) :
  env_file (env w) (clock w) = FOther ->
  fst (datalogger path rows w) = Raise (SystemExit 1).
Proof.
  intros H. unfold datalogger. unfold bind at 1. unfold emit at 1.
  cbv beta iota. unfold VPNMON_DATALOG_WRITE_MAX_RETRIES.
  cbn [datalogger_loop]. unfold bind at 1.
  unfold datalogger_attempt, datalogger_try, try_except.
  unfold bind at 1. run_file_op H.
  match goal with
  | |- context [sd_vpnclient_close ?w1] =>
      destruct (sd_vpnclient_close w1) as [[r|e] w2]
  end; reflexivity.
Qed.

Lemma main_after_params (fuel : nat) (args : Args) (w : World)
      (params : Params) (w1 : World) :
  get_params args w = (Ret params, w1) ->
  main fuel args w
  = (r <- main_loop fuel params (cycles params) 1%Z ;;
     match r with
     | Some _ => date_and_tod ;;; exit 0%Z
     | None => ret tt
     end) (snd (set_sd_vpnclient w1)).
Proof. intros H. unfold main. unfold bind at 1. rewrite H. reflexivity. Qed.

Lemma main_params_raise (fuel : nat) (args : Args) (w : World) (e : Exn) :
  fst (get_params args w) = Raise e ->
  fst (main fuel args w) = Raise e.
Proof.
  intros H. unfold main. unfold bind at 1.
  destruct (get_params args w) as [[p|e'] w1]; simpl in *;
    [discriminate | congruence].
Qed.



(** * Further properties of the code *)

(** ** VPNClient.close *)

(** X1. With the child bound but not alive, [close] is a no-op that
    answers "Good". *)
Theorem close_dead_child (w : World) (pid : nat) :
  vpn_proc w = Some pid ->
  env_alive (env w) (clock w) = false ->
  exists w',
    VPNClient.close w = (Ret "Good"%string, w')
    /\ trace w' = trace w ++ [EvEnter "close"; EvIsAlive false]
    /\ written w' = written w
    /\ vpn_proc w' = vpn_proc w.
Proof. apply close_not_alive. Qed.

Lemma close_dead_child_witness :
  exists w',
    VPNClient.close dead_child_world = (Ret "Good"%string, w')
    /\ trace w' = [EvEnter "close"; EvIsAlive false]
    /\ written w' = []
    /\ vpn_proc w' = Some 2.
Proof.
  apply (close_dead_child dead_child_world 2); reflexivity.
Defined.

(** On a live child [close] never raises: it returns "Good" after exactly
    the expected conversation followed by the teardown, or "Fail" after
    events that end with the attempted teardown. *)
Lemma close_alive_cases (w : World) (pid : nat) :
  vpn_proc w = Some pid ->
  env_alive (env w) (clock w) = true ->
  (fst (VPNClient.close w) = Ret "Good"%string
   /\ trace (snd (VPNClient.close w)) = trace w ++ close_good)
  \/ (fst (VPNClient.close w) = Ret "Fail"%string
      /\ exists evs,
          trace (snd (VPNClient.close w)) = trace w ++ evs
          /\ ends_in_teardown evs = true).
Proof.
  destruct w as [e c vp sc sd wr tr]. simpl. intros -> Halive.
  unfold VPNClient.close, VPNClient.close_step, VPNClient.close_terminate,
    VPNClient.and_then, isalive.
  unfold_session. rewrite Halive. simpl.
  repeat ask_oracle;
    first [ left; split;
            [reflexivity | rewrite <- ?app_assoc; reflexivity]
          | right; split; [reflexivity|]; eexists; split;
            [rewrite <- ?app_assoc; simpl; reflexivity | reflexivity] ].
Qed.

(** X2. On a live child [close] never raises: it returns "Good" after
    exactly the expected conversation followed by the teardown, or "Fail"
    after events that end with the attempted teardown. *)
Theorem close_alive_outcomes (w : World) (pid : nat) :
  vpn_proc w = Some pid ->
  env_alive (env w) (clock w) = true ->
  (fst (VPNClient.close w) = Ret "Good"%string
   /\ trace (snd (VPNClient.close w)) = trace w ++ close_good)
  \/ (fst (VPNClient.close w) = Ret "Fail"%string
      /\ exists evs,
          trace (snd (VPNClient.close w)) = trace w ++ evs
          /\ ends_in_teardown evs = true).
Proof. apply close_alive_cases. Qed.

Lemma close_alive_outcomes_witness :
  (fst (VPNClient.close opened_world) = Ret "Good"%string
   /\ trace (snd (VPNClient.close opened_world)) = close_good)
  \/ (fst (VPNClient.close opened_world) = Ret "Fail"%string
      /\ exists evs,
          trace (snd (VPNClient.close opened_world)) = evs
          /\ ends_in_teardown evs = true).
Proof.
  apply (close_alive_outcomes opened_world 9); reflexivity.
Defined.

(** ** A session from open to close *)

Lemma open_good_bound (site user pass : string) (w : World) :
  fst (VPNClient.open site user pass w) = Ret "Good"%string ->
  vpn_proc (snd (VPNClient.open site user pass w)) <> None.
Proof.
  rewrite open_after_entry.
  generalize (snd (emit (EvEnter "open") w)). intros w0.
  destruct (open_prelude_spec w0)
    as [(w1 & pid & Hrun & Ht & Hp) | (w1 & e & Hrun & Hst)];
    unfold bind; rewrite Hrun.
  - destruct (open_login_spec site user pass w1 pid Hp)
      as [(w2 & Hrun2 & Ht2 & Hp2) | (w2 & evs & Hrun2 & Ht2 & Hend)];
      rewrite Hrun2; simpl; intros H.
    + congruence.
    + discriminate H.
  - simpl. intros H. discriminate H.
Qed.

(** X3. After an [open] that returned "Good", [close] returns "Good" or
    "Fail": it does not raise. *)
Theorem close_after_open_returns (site user pass : string) (w : World) :
  fst (VPNClient.open site user pass w) = Ret "Good"%string ->
  fst (VPNClient.close (snd (VPNClient.open site user pass w)))
  = Ret "Good"%string
  \/ fst (VPNClient.close (snd (VPNClient.open site user pass w)))
     = Ret "Fail"%string.
Proof.
  intros H. pose proof (open_good_bound site user pass w H) as Hb.
  generalize dependent (snd (VPNClient.open site user pass w)).
  intros w1 Hb.
  destruct (vpn_proc w1) as [pid|] eqn:Hp; [|contradiction].
  destruct (env_alive (env w1) (clock w1)) eqn:Ha.
  - destruct (close_alive_cases w1 pid Hp Ha) as [[Hg _] | [Hf _]]; auto.
  - destruct (close_not_alive w1 pid Hp Ha) as (w2 & Hrun & _).
    rewrite Hrun. auto.
Qed.

Lemma close_after_open_returns_witness :
  fst (VPNClient.close
         (snd (VPNClient.open "10.0.0.1" "user" "secret"
                 (initial_world session_env))))
  = Ret "Good"%string
  \/ fst (VPNClient.close
            (snd (VPNClient.open "10.0.0.1" "user" "secret"
                    (initial_world session_env))))
     = Ret "Fail"%string.
Proof.
  apply (close_after_open_returns "10.0.0.1" "user" "secret"
           (initial_world session_env)).
  vm_compute. reflexivity.
Defined.

Ltac good_step_done :=
  eexists; split; [reflexivity|]; simpl;
  repeat split; try reflexivity; try lia;
  rewrite <- ?app_assoc; reflexivity.

Lemma open_prelude_good_run (w : World) :
  env_call (env w) (clock w) = true ->
  env_call (env w) (S (clock w)) = true ->
  env_call (env w) (2 + clock w) = true ->
  env_expect (env w) (3 + clock w) = Shows ">" ->
  env_call (env w) (4 + clock w) = true ->
  env_expect (env w) (5 + clock w) = Shows "VPN>" ->
  env_call (env w) (6 + clock w) = true ->
  env_expect (env w) (7 + clock w) = Shows "VPN>" ->
  exists w',
    VPNClient.open_prelude w = (Ret tt, w')
    /\ trace w' = trace w ++ prelude_good
    /\ env w' = env w /\ clock w' = 8 + clock w
    /\ vpn_proc w' = Some (2 + clock w).
Proof.
  destruct w as [e c vp sc sd wr tr]. simpl.
  intros C0 C1 C2 H3 C4 H5 C6 H7.
  unfold VPNClient.open_prelude, VPNClient.open_preempt,
    VPNClient.open_spawn, VPNClient.open_start_cli,
    VPNClient.open_disconnect.
  unfold_session.
  rewrite C0; simpl. rewrite C1; simpl. rewrite C2; simpl.
  rewrite H3; simpl. rewrite C4; simpl. rewrite H5; simpl.
  rewrite C6; simpl. rewrite H7; simpl.
  good_step_done.
Qed.

Lemma open_connect_good_run (site : string) (w : World) (pid : nat) :
  vpn_proc w = Some pid ->
  env_call (env w) (clock w) = true ->
  env_expect (env w) (S (clock w)) = Shows "Username:" ->
  exists w',
    VPNClient.open_connect site w = (Ret None, w')
    /\ trace w' = trace w ++ connect_good site
    /\ env w' = env w /\ clock w' = 2 + clock w
    /\ vpn_proc w' = Some pid.
Proof.
  destruct w as [e c vp sc sd wr tr]. simpl. intros -> C0 H1.
  unfold VPNClient.open_connect. unfold_session.
  rewrite C0; simpl. rewrite H1; simpl.
  good_step_done.
Qed.

Lemma open_credentials_good_run (user pass : string) (w : World)
      (pid : nat) :
  vpn_proc w = Some pid ->
  env_call (env w) (clock w) = true ->
  env_expect (env w) (S (clock w)) = Shows "Password:" ->
  env_call (env w) (2 + clock w) = true ->
  env_expect (env w) (3 + clock w) = Shows "accept?" ->
  exists w',
    VPNClient.open_credentials user pass w = (Ret None, w')
    /\ trace w' = trace w ++ credentials_good user pass
    /\ env w' = env w /\ clock w' = 4 + clock w
    /\ vpn_proc w' = Some pid.
Proof.
  destruct w as [e c vp sc sd wr tr]. simpl. intros -> C0 H1 C2 H3.
  unfold VPNClient.open_credentials. unfold_session.
  rewrite C0; simpl. rewrite H1; simpl. rewrite C2; simpl.
  rewrite H3; simpl.
  good_step_done.
Qed.

Lemma open_banner_good_run (site : string) (w : World) (pid : nat) :
  vpn_proc w = Some pid ->
  env_call (env w) (clock w) = true ->
  env_expect (env w) (S (clock w)) = Shows "state: Connected" ->
  env_expect (env w) (2 + clock w)
  = Shows ("Connected to " ++ site)%string ->
  env_expect (env w) (3 + clock w) = Shows "VPN>" ->
  exists w',
    VPNClient.open_banner site w = (Ret None, w')
    /\ trace w' = trace w ++ banner_good site.
Proof.
  destruct w as [e c vp sc sd wr tr]. simpl. intros -> C0 H1 H2 H3.
  unfold VPNClient.open_banner. unfold_session.
  rewrite C0; simpl. rewrite H1; simpl. rewrite H2; simpl.
  rewrite String.eqb_refl; simpl. rewrite H3; simpl.
  eexists; split; [reflexivity|]; simpl.
  rewrite <- ?app_assoc; reflexivity.
Qed.

Lemma open_good_run (site user pass : string) (w : World) :
  session_answers (env w) (clock w) site ->
  exists w',
    VPNClient.open site user pass w = (Ret "Good"%string, w')
    /\ trace w' = trace w ++ open_good site user pass.
Proof.
  unfold session_answers.
  intros (Hcall & H3 & H5 & H7 & H9 & H11 & H13 & H15 & H16 & H17).
  assert (Hc : forall i, i < 18 -> env_call (env w) (i + clock w) = true)
    by (intros i Hi; rewrite Nat.add_comm; apply Hcall; exact Hi).
  rewrite (Nat.add_comm (clock w)) in H3, H5, H7, H9, H11, H13, H15,
    H16, H17.
  rewrite open_after_entry.
  assert (Ht0 : trace (snd (emit (EvEnter "open") w))
                = trace w ++ [EvEnter "open"]) by reflexivity.
  assert (He0 : env (snd (emit (EvEnter "open") w)) = env w)
    by reflexivity.
  assert (Hc0 : clock (snd (emit (EvEnter "open") w)) = clock w)
    by reflexivity.
  revert Ht0 He0 Hc0. generalize (snd (emit (EvEnter "open") w)).
  intros w0 Ht0 He0 Hc0.
  destruct (open_prelude_good_run w0)
    as (w1 & Hrun1 & Ht1 & He1 & Hc1 & Hp1);
    rewrite ?He0, ?Hc0;
    try (apply (Hc 0); lia); try (apply (Hc 1); lia);
    try (apply (Hc 2); lia); try (apply (Hc 4); lia);
    try (apply (Hc 6); lia); try assumption.
  unfold bind at 1. rewrite Hrun1. unfold VPNClient.open_login.
  destruct (open_connect_good_run site w1 _ Hp1)
    as (w2 & Hrun2 & Ht2 & He2 & Hc2 & Hp2);
    rewrite ?He1, ?Hc1, ?He0, ?Hc0;
    [apply (Hc 8); lia | exact H9 |].
  unfold VPNClient.and_then at 1. unfold bind at 1. rewrite Hrun2.
  destruct (open_credentials_good_run user pass w2 _ Hp2)
    as (w3 & Hrun3 & Ht3 & He3 & Hc3 & Hp3);
    rewrite ?He2, ?Hc2, ?He1, ?Hc1, ?He0, ?Hc0;
    [apply (Hc 10); lia | exact H11 | apply (Hc 12); lia | exact H13 |].
  unfold VPNClient.and_then at 1. unfold bind at 1. rewrite Hrun3.
  destruct (open_banner_good_run site w3 _ Hp3)
    as (w4 & Hrun4 & Ht4);
    rewrite ?He3, ?Hc3, ?He2, ?Hc2, ?He1, ?Hc1, ?He0, ?Hc0;
    [apply (Hc 14); lia | exact H15 | exact H16 | exact H17 |].
  unfold VPNClient.and_then at 1. unfold bind at 1. rewrite Hrun4.
  unfold ret. exists w4. split; [reflexivity|].
  rewrite Ht4, Ht3, Ht2, Ht1, Ht0.
  unfold open_good, login_good. rewrite <- !app_assoc. reflexivity.
Qed.

(** X4. When every call goes through and every [expect] sees the text it
    waits for, [open] returns "Good" after the full conversation. *)
Theorem open_good_session (site user pass : string) (w : World) :
  session_answers (env w) (clock w) site ->
  fst (VPNClient.open site user pass w) = Ret "Good"%string
  /\ trace (snd (VPNClient.open site user pass w))
     = trace w ++ open_good site user pass.
Proof.
  intros H. destruct (open_good_run site user pass w H) as (w' & Hrun & Ht).
  rewrite Hrun. auto.
Qed.

Lemma open_good_session_witness :
  fst (VPNClient.open "10.0.0.1" "user" "secret"
         (initial_world session_env))
  = Ret "Good"%string
  /\ trace (snd (VPNClient.open "10.0.0.1" "user" "secret"
                   (initial_world session_env)))
     = open_good "10.0.0.1" "user" "secret".
Proof.
  apply (open_good_session "10.0.0.1" "user" "secret"
           (initial_world session_env)).
  unfold session_answers. simpl.
  split; [intros i _; reflexivity|].
  repeat (split; [reflexivity|]). reflexivity.
Defined.

(** ** sounder *)

Lemma sounder_loop_bells (n : nat) :
  forall w,
    sounder_loop n w
    = (Ret tt, snd (sounder_loop n w))
    /\ trace (snd (sounder_loop n w)) = trace w ++ bell_events n.
Proof.
  induction n as [|n IH]; intros w; simpl.
  - unfold ret. simpl. rewrite app_nil_r. auto.
  - unfold bind, emit, sleep, emit. simpl.
    match goal with
    | |- context [sounder_loop n ?w1] => destruct (IH w1) as [Hrun Ht]
    end.
    split; [exact Hrun|]. rewrite Ht. simpl.
    rewrite <- !app_assoc. reflexivity.
Qed.

(** X6. [sounder] sounds the bell [s_count] times, each followed by its
    wait, and not at all when quiet or when [s_count] is not positive. *)
Theorem sounder_bells (s_count : Z) (s_quiet : bool) (w : World) :
  fst (sounder s_count s_quiet w) = Ret tt
  /\ trace (snd (sounder s_count s_quiet w))
     = trace w ++ EvEnter "sounder"
               :: bell_events (if s_quiet then 0 else Z.to_nat s_count)
  /\ count_events is_bell
       (bell_events (if s_quiet then 0 else Z.to_nat s_count))
     = (if s_quiet then 0 else Z.to_nat s_count).
Proof.
  split; [apply sounder_returns|]. split.
  - unfold sounder, bind, emit. simpl. destruct s_quiet; simpl.
    + reflexivity.
    + match goal with
      | |- context [sounder_loop ?n ?w1] =>
          destruct (sounder_loop_bells n w1) as [_ Ht]
      end.
      rewrite Ht. simpl. rewrite <- app_assoc. reflexivity.
  - generalize (if s_quiet then 0 else Z.to_nat s_count). intros k.
    induction k as [|k IH]; [reflexivity|].
    unfold count_events in *. simpl. rewrite IH. reflexivity.
Qed.

(** ** pinger: what it asks of ping *)

(** X7. Asked for no repetition, [pinger] pings nothing: it answers "Good"
    for a count of 0 and "Fail" for a negative count. *)
Theorem pinger_without_repetition (siteurlip : string) (k : Z) (w : World) :
  (k <= 0)%Z ->
  pinger siteurlip k w
  = (Ret (if (k =? 0)%Z then "Good" else "Fail")%string, w).
Proof.
  intros Hk. unfold pinger.
  replace (Z.to_nat k) with 0 by lia. simpl. unfold bind, ret.
  rewrite (Z.eqb_sym 0 k). destruct (Z.eqb_spec k 0); reflexivity.
Qed.

Lemma pinger_without_repetition_witness :
  pinger "10.0.0.1" 0 (initial_world gateway_down_env)
  = (Ret "Good"%string, initial_world gateway_down_env)
  /\ pinger "10.0.0.1" (-1) (initial_world gateway_down_env)
     = (Ret "Fail"%string, initial_world gateway_down_env).
Proof.
  split.
  - apply (pinger_without_repetition "10.0.0.1" 0
             (initial_world gateway_down_env)). lia.
  - apply (pinger_without_repetition "10.0.0.1" (-1)
             (initial_world gateway_down_env)). lia.
Defined.

Lemma pinger_loop_events (siteurlip : string) (p_count : Z) (n : nat) :
  forall (good : Z) (w : World),
    all_answered (env w) (clock w) n = true ->
    trace (snd (pinger_loop n siteurlip p_count good w))
    = trace w ++ ping_events (env w) siteurlip p_count (clock w) n.
Proof.
  induction n as [|n IH]; intros good w Hans; simpl in *.
  - rewrite app_nil_r. reflexivity.
  - apply andb_true_iff in Hans. destruct Hans as [Hhd Htl].
    unfold ping_answered in Hhd.
    unfold bind at 1. unfold ping, bind, tick, ask, emit, ret. simpl.
    destruct (env_ping (env w) (clock w)) as [[|b l]|] eqn:E;
      try discriminate.
    simpl.
    match goal with
    | |- context [pinger_loop n _ _ ?g ?w1] =>
        rewrite (IH g w1 Htl)
    end.
    simpl. rewrite <- app_assoc. reflexivity.
Qed.

Lemma ping_events_length (e : Env) (s : string) (c : Z) (n : nat) :
  forall t, List.length (ping_events e s c t n) = n.
Proof.
  induction n as [|n IH]; intros t; simpl; [reflexivity|].
  rewrite IH. reflexivity.
Qed.

(** X8. For [k] repetitions [pinger] calls [ping] exactly [k] times, each
    time asking for [k] echo requests, and nothing else. *)
Theorem pinger_calls (siteurlip : string) (k : Z) (w : World) :
  all_answered (env w) (clock w) (Z.to_nat k) = true ->
  trace (snd (pinger siteurlip k w))
  = trace w ++ ping_events (env w) siteurlip k (clock w) (Z.to_nat k)
  /\ List.length (ping_events (env w) siteurlip k (clock w) (Z.to_nat k))
     = Z.to_nat k.
Proof.
  intros Hans. split.
  - pose proof (pinger_loop_events siteurlip k (Z.to_nat k) 0%Z w Hans)
      as Ht.
    destruct (pinger_loop_counts siteurlip k (Z.to_nat k) 0%Z w Hans)
      as (w' & Hrun & _).
    unfold pinger, bind. rewrite Hrun in *. simpl in Ht.
    destruct (Z.eqb _ k); [exact Ht|]. destruct (Z.eqb _ 0); exact Ht.
  - apply ping_events_length.
Qed.

Lemma pinger_calls_witness :
  trace (snd (pinger "10.0.0.1" 2 (initial_world mixed_ping_env)))
  = [EvPing "10.0.0.1" 2 (Some [true; true]);
     EvPing "10.0.0.1" 2 (Some [false; false])].
Proof.
  apply (proj1 (pinger_calls "10.0.0.1" 2 (initial_world mixed_ping_env)
                  eq_refl)).
Defined.

(** ** The main loop with a negative count *)

(** X9. With a negative count the loop never ends by itself: whatever the
    fuel, it does not leave the loop with a final cycle number (it is
    still running when the fuel is spent, or a cycle or the wait has
    raised). *)
Theorem main_loop_unbounded (params : Params) (fuel : nat) :
  forall (count test_cycle : Z) (w : World) (last : Z),
    (count < 0)%Z ->
    fst (main_loop fuel params count test_cycle w) <> Ret (Some last).
Proof.
  induction fuel as [|fuel IH]; intros count n w last Hneg;
    cbn [main_loop]; destruct (Z.eqb_spec count 0); try lia.
  - discriminate.
  - unfold bind at 1.
    destruct (run_cycle params n w) as [[[]|e] w1]; [|discriminate].
    destruct (Z.ltb_spec 0 count); [lia|].
    destruct (Z.eqb_spec count 0); [lia|].
    unfold bind at 1.
    destruct (date_and_tod w1) as [[now|e] w2]; [|discriminate].
    unfold bind at 1.
    destruct (sleep_seconds (delay params) w2) as [[[]|e] w3];
      [|discriminate].
    apply IH. exact Hneg.
Qed.

Lemma main_loop_unbounded_witness :
  fst (main_loop 3 sample_params (-1) 1 (started_world gateway_down_env))
  <> Ret (Some 3%Z).
Proof.
  apply (main_loop_unbounded sample_params 3 (-1) 1
           (started_world gateway_down_env) 3).
  lia.
Defined.

(** ** Lines and fields *)

(** Iterating over a text loses nothing: the lines put back together
    are the text, and no line is empty. *)
Theorem readlines_joined (text : string) :
  joined (readlines text) = text
  /\ forallb (fun line => negb (String.eqb line "")) (readlines text) = true.
Proof.
  induction text as [|c rest [IHj IHn]]; simpl; [auto|].
  destruct (Ascii.eqb c newline).
  - simpl. rewrite IHj, IHn. auto.
  - destruct (readlines rest) as [|l ls]; simpl in *.
    + subst rest. auto.
    + rewrite <- IHj. apply andb_true_iff in IHn. destruct IHn as [_ IHn].
      split; [reflexivity | exact IHn].
Qed.

Lemma split_nonempty (sep : ascii) (s : string) :
  forall m, split sep m s <> [].
Proof.
  induction s as [|c rest IH]; intros m; simpl; [discriminate|].
  destruct m as [|m]; [discriminate|].
  destruct (Ascii.eqb c sep); [discriminate|].
  destruct (split sep (S m) rest); discriminate.
Qed.

(** [split] loses nothing and makes at most [maxsplit] cuts: the
    fields joined by the separator are the string, and there are between
    1 and [maxsplit + 1] of them. *)
Theorem split_joined (sep : ascii) (s : string) :
  forall maxsplit,
    String.concat (String sep EmptyString) (split sep maxsplit s) = s
    /\ 1 <= List.length (split sep maxsplit s) <= S maxsplit.
Proof.
  induction s as [|c rest IH]; intros m; simpl; [split; [reflexivity|lia]|].
  destruct m as [|m]; [simpl; split; [reflexivity|lia]|].
  destruct (Ascii.eqb c sep) eqn:E.
  - apply Ascii.eqb_eq in E. subst c.
    destruct (IH m) as [IHj IHl].
    pose proof (split_nonempty sep rest m) as Hne.
    destruct (split sep m rest) as [|x xs]; [contradiction|].
    simpl in *. rewrite IHj. split; [reflexivity|lia].
  - destruct (IH (S m)) as [IHj IHl].
    pose proof (split_nonempty sep rest (S m)) as Hne.
    destruct (split sep (S m) rest) as [|x xs]; [contradiction|].
    destruct xs as [|y ys]; simpl in *.
    + subst x. split; [reflexivity|lia].
    + rewrite <- IHj. split; [reflexivity|lia].
Qed.

Lemma split_first_field (sep : ascii) (a rest : string) :
  forall m,
    contains sep a = false ->
    split sep (S m) (a ++ String sep rest) = a :: split sep m rest.
Proof.
  induction a as [|c a IH]; intros m H; simpl in *.
  - rewrite Ascii.eqb_refl. reflexivity.
  - apply orb_false_iff in H. destruct H as [Hc Ha].
    rewrite Hc. rewrite (IH m Ha). reflexivity.
Qed.

Lemma remove_newlines_free (s : string) :
  contains newline s = false -> remove_newlines s = s.
Proof.
  induction s as [|c s IH]; simpl; [reflexivity|].
  intros H. apply orb_false_iff in H. destruct H as [Hc Hs].
  rewrite Hc, (IH Hs). reflexivity.
Qed.

Lemma remove_newlines_app (a b : string) :
  remove_newlines (a ++ b) = (remove_newlines a ++ remove_newlines b)%string.
Proof.
  induction a as [|c a IH]; simpl; [reflexivity|].
  destruct (Ascii.eqb c newline); simpl; rewrite IH; reflexivity.
Qed.

(** ** get_targets: the mapping it builds *)

(** X10. Only the first two fields of a line count: what follows a second
    comma is ignored, and so is the end of the line. *)
Theorem get_targets_two_fields (ip name extra : string) (lines : list string)
        (d : dict) (w : World) :
  comma_free ip = true -> newline_free ip = true ->
  comma_free name = true -> newline_free name = true ->
  get_targets_loop
    ((ip ++ String comma
         (name ++ String comma (extra ++ String newline EmptyString)))%string
       :: lines) d w
  = get_targets_loop lines (dict_set ip name d) w.
Proof.
  unfold comma_free, newline_free. intros Hic Hin Hnc Hnn.
  apply negb_true_iff in Hic, Hin, Hnc, Hnn.
  cbn [get_targets_loop].
  rewrite remove_newlines_app. rewrite (remove_newlines_free ip Hin).
  cbn [remove_newlines].
  change (Ascii.eqb comma newline) with false. cbv iota.
  rewrite remove_newlines_app. rewrite (remove_newlines_free name Hnn).
  cbn [remove_newlines].
  change (Ascii.eqb comma newline) with false. cbv iota.
  rewrite (split_first_field comma ip _ 1 Hic).
  rewrite (split_first_field comma name _ 0 Hnc).
  reflexivity.
Qed.

Lemma get_targets_two_fields_witness :
  get_targets_loop
    [("10.0.0.2" ++ String comma
        ("host-a" ++ String comma
           ("rack 4, row 2" ++ String newline EmptyString)))%string]
    [] (initial_world gateway_down_env)
  = get_targets_loop [] (dict_set "10.0.0.2" "host-a" [])
                     (initial_world gateway_down_env).
Proof.
  apply (get_targets_two_fields "10.0.0.2" "host-a" "rack 4, row 2" [] []
           (initial_world gateway_down_env)); reflexivity.
Defined.

Lemma dict_get_set (k v k' : string) (d : dict) :
  dict_get k' (dict_set k v d)
  = if String.eqb k' k then Some v else dict_get k' d.
Proof.
  induction d as [|[a b] d IH]; simpl.
  - reflexivity.
  - destruct (String.eqb k a) eqn:Eka; simpl.
    + apply String.eqb_eq in Eka. subst a.
      destruct (String.eqb k' k); reflexivity.
    + rewrite IH. destruct (String.eqb k' a) eqn:Ea; [|reflexivity].
      apply String.eqb_eq in Ea. subst a.
      destruct (String.eqb k' k) eqn:Ek; [|reflexivity].
      apply String.eqb_eq in Ek. subst k'.
      rewrite String.eqb_refl in Eka. discriminate.
Qed.

Lemma dict_set_known_key (k v : string) (d : dict) :
  In k (map fst d) -> map fst (dict_set k v d) = map fst d.
Proof.
  induction d as [|[a b] d IH]; simpl; [intros []|].
  intros Hin. destruct (String.eqb k a) eqn:E; simpl.
  - apply String.eqb_eq in E. subst a. reflexivity.
  - f_equal. apply IH. destruct Hin as [Hin|Hin]; [|exact Hin].
    subst a. rewrite String.eqb_refl in E. discriminate.
Qed.

Lemma dict_set_new_key (k v : string) (d : dict) :
  ~ In k (map fst d) -> map fst (dict_set k v d) = map fst d ++ [k].
Proof.
  induction d as [|[a b] d IH]; simpl; [reflexivity|].
  intros Hin. destruct (String.eqb k a) eqn:E; simpl.
  - apply String.eqb_eq in E. subst a. exfalso. apply Hin. left. reflexivity.
  - f_equal. apply IH. intros H. apply Hin. right. exact H.
Qed.

Lemma NoDup_snoc {A} (l : list A) (x : A) :
  NoDup l -> ~ In x l -> NoDup (l ++ [x]).
Proof.
  induction l as [|a l IH]; simpl; intros Hnd Hin.
  - constructor; [intros []|constructor].
  - inversion Hnd; subst. constructor.
    + intros H. apply in_app_or in H. destruct H as [H|[H|[]]].
      * contradiction.
      * subst. apply Hin. left. reflexivity.
    + apply IH; [assumption|]. intros H. apply Hin. right. exact H.
Qed.

Lemma dict_set_keys (k v : string) (d : dict) :
  NoDup (map fst d) -> NoDup (map fst (dict_set k v d)).
Proof.
  intros H. destruct (in_dec string_dec k (map fst d)) as [Hin|Hout].
  - rewrite (dict_set_known_key k v d Hin). exact H.
  - rewrite (dict_set_new_key k v d Hout). apply NoDup_snoc; assumption.
Qed.

Lemma get_targets_loop_mapping (lines : list string) :
  forall (d d' : dict) (w w' : World),
    get_targets_loop lines d w = (Ret d', w') ->
    (forall ip, dict_get ip d' = last_label lines ip (dict_get ip d))
    /\ (NoDup (map fst d) -> NoDup (map fst d')).
Proof.
  induction lines as [|l lines IH]; intros d d' w w' H;
    cbn [get_targets_loop last_label] in *.
  - inversion H. subst. auto.
  - unfold line_fields.
    destruct (split comma 2 (remove_newlines l)) as [|a [|b rest]];
      try discriminate H.
    destruct (IH _ _ _ _ H) as [Hget Hnd]. split.
    + intros ip. rewrite Hget. rewrite dict_get_set. reflexivity.
    + intros Hd. apply Hnd. apply dict_set_keys. exact Hd.
Qed.

(** X11. The mapping [get_targets] returns holds each address once, with
    the label of the last line that gives it. *)
Theorem get_targets_mapping (targets_file text : string) (d : dict)
        (w : World) :
  env_exists (env w) (clock w) = true ->
  env_read (env w) (S (clock w)) = Some text ->
  fst (get_targets targets_file w) = Ret d ->
  (forall ip, dict_get ip d = last_label (readlines text) ip None)
  /\ NoDup (map fst d).
Proof.
  intros He Hr.
  unfold get_targets, path_exists, read_lines, try_except, bind, tick, ask,
    emit, ret. simpl. rewrite He. simpl. rewrite Hr. simpl.
  match goal with
  | |- context [get_targets_loop ?ls ?d0 ?w1] =>
      destruct (get_targets_loop ls d0 w1) as [[d1|e] w2] eqn:E
  end.
  - simpl. intros H. inversion H. subst d1.
    destruct (get_targets_loop_mapping _ _ _ _ _ E) as [Hget Hnd].
    split; [exact Hget|]. apply Hnd. constructor.
  - destruct (is_Exception e); simpl; discriminate.
Qed.

Lemma get_targets_mapping_witness :
  (forall ip,
      dict_get ip [("10.0.0.2", "host-b")]%string
      = last_label
          (readlines ("10.0.0.2,host-a" ++ String newline
                        ("10.0.0.2,host-b" ++ String newline ""))%string)
          ip None)
  /\ NoDup (map fst [("10.0.0.2", "host-b")]%string).
Proof.
  apply (get_targets_mapping "vpnmon_targets.csv"
           ("10.0.0.2,host-a" ++ String newline
              ("10.0.0.2,host-b" ++ String newline ""))%string
           [("10.0.0.2", "host-b")]%string
           (initial_world
              (targets_env
                 ("10.0.0.2,host-a" ++ String newline
                    ("10.0.0.2,host-b" ++ String newline ""))%string)));
    reflexivity.
Defined.

(** X12. Without a targets file, or with an empty one, there are no
    targets, and the process goes on. *)
Theorem get_targets_none (targets_file : string) (w : World) :
  env_exists (env w) (clock w) = false
  \/ (env_exists (env w) (clock w) = true
      /\ env_read (env w) (S (clock w)) = Some ""%string) ->
  fst (get_targets targets_file w) = Ret [].
Proof.
  unfold get_targets, path_exists, read_lines, try_except, bind, tick, ask,
    emit, ret. simpl.
  intros [He | [He Hr]]; rewrite He; simpl; [reflexivity|].
  rewrite Hr. reflexivity.
Qed.

Lemma get_targets_none_witness :
  fst (get_targets "vpnmon_targets.csv" (initial_world gateway_down_env))
  = Ret [].
Proof.
  apply (get_targets_none "vpnmon_targets.csv"
           (initial_world gateway_down_env)).
  left. reflexivity.
Defined.

(** ** get_params: the command line wins *)

Lemma pdict_get_set (k k' : string) (v : PyVal) (d : pdict) :
  pdict_get k' (pdict_set k v d)
  = if String.eqb k' k then v else pdict_get k' d.
Proof.
  induction d as [|[a b] d IH]; simpl.
  - destruct (String.eqb k' k); reflexivity.
  - destruct (String.eqb k a) eqn:Eka; simpl.
    + apply String.eqb_eq in Eka. subst a.
      destruct (String.eqb k' k); reflexivity.
    + rewrite IH. destruct (String.eqb k' a) eqn:Ea; [|reflexivity].
      apply String.eqb_eq in Ea. subst a.
      destruct (String.eqb k' k) eqn:Ek; [|reflexivity].
      apply String.eqb_eq in Ek. subst k'.
      rewrite String.eqb_refl in Eka. discriminate.
Qed.

Lemma pdict_get_override (k k' : string) (a : option string) (d : pdict) :
  pdict_get k' (override k a d)
  = match a with
    | Some s => if String.eqb k' k then VStr s else pdict_get k' d
    | None => pdict_get k' d
    end.
Proof. destruct a; simpl; [apply pdict_get_set | reflexivity]. Qed.

Lemma pdict_get_override_int (k k' : string) (a : option Z) (d : pdict) :
  pdict_get k' (override_int k a d)
  = match a with
    | Some z => if String.eqb k' k then VInt z else pdict_get k' d
    | None => pdict_get k' d
    end.
Proof. destruct a; simpl; [apply pdict_get_set | reflexivity]. Qed.

(** X13. Whatever the parameters file holds, a value given on the command
    line is the one [get_params] returns, and the quiet setting is always
    that of the command line. *)
Theorem get_params_command_line_wins (args : Args) (w : World)
        (params : Params) :
  fst (get_params args w) = Ret params ->
  (forall v, arg_vpnname args = Some v -> vpnname params = v)
  /\ (forall v, arg_vpnurlip args = Some v -> vpnurlip params = v)
  /\ (forall v, arg_username args = Some v -> username params = v)
  /\ (forall v, arg_password args = Some v -> password params = v)
  /\ (forall v, arg_targets args = Some v -> targets params = v)
  /\ (forall z, arg_cycles args = Some z -> cycles params = z)
  /\ (forall z, arg_delay args = Some z -> delay params = z)
  /\ (forall v, arg_datalog args = Some v -> datalog params = v)
  /\ quiet params = arg_quiet args.
Proof.
  unfold get_params, bind.
  destruct (read_params_file w) as [[d|e] w1]; [|discriminate].
  destruct (arg_version args); [discriminate|].
  destruct (PyVal_is_empty_str _); [discriminate|].
  simpl. intros H. inversion H. subst params. clear H. simpl.
  repeat split; intros v Hv;
    repeat first [ rewrite pdict_get_set
                 | rewrite pdict_get_override
                 | rewrite pdict_get_override_int ];
    simpl; rewrite Hv; simpl;
    repeat match goal with
           | |- context [match arg_vpnurlip args with _ => _ end] =>
               destruct (arg_vpnurlip args)
           | |- context [match arg_username args with _ => _ end] =>
               destruct (arg_username args)
           | |- context [match arg_password args with _ => _ end] =>
               destruct (arg_password args)
           | |- context [match arg_targets args with _ => _ end] =>
               destruct (arg_targets args)
           | |- context [match arg_cycles args with _ => _ end] =>
               destruct (arg_cycles args)
           | |- context [match arg_delay args with _ => _ end] =>
               destruct (arg_delay args)
           | |- context [match arg_datalog args with _ => _ end] =>
               destruct (arg_datalog args)
           end;
    reflexivity.
Qed.

Lemma get_params_command_line_wins_witness :
  exists params,
    fst (get_params sample_args (initial_world gateway_down_env))
    = Ret params
    /\ vpnurlip params = "10.0.0.1"%string
    /\ cycles params = 2%Z /\ delay params = 0%Z.
Proof.
  destruct (get_params sample_args (initial_world gateway_down_env))
    as [[params|e] w1] eqn:E; [|vm_compute in E; discriminate E].
  destruct (get_params_command_line_wins sample_args
              (initial_world gateway_down_env) params)
    as (_ & Hurl & _ & _ & _ & Hcycles & Hdelay & _).
  { rewrite E. reflexivity. }
  exists params. split; [reflexivity|].
  split; [apply Hurl; reflexivity|].
  split; [apply Hcycles; reflexivity | apply Hdelay; reflexivity].
Defined.

(** ** The records of a cycle *)

Lemma dict_set_known_length (k v : string) (d : dict) :
  dict_get k d <> None ->
  List.length (dict_set k v d) = List.length d.
Proof.
  induction d as [|[a b] d IH]; simpl; [intros H; contradiction|].
  destruct (String.eqb k a); simpl; intros H; [reflexivity|].
  rewrite IH; auto.
Qed.

(** X14. The records of a cycle are kept by key: a target whose address is
    already a key of the results (as "VPN ping" is) takes the place of the
    record that was there, and the number of records does not grow. *)
Theorem target_record_overwrites (params : Params) (test_cycle : Z)
        (target name : string) (c : Cycle) (w : World) :
  (forall t, ping_answered (env w) t = true) ->
  dict_get target (test_results c) <> None ->
  exists c' res,
    fst (ping_targets params test_cycle [(target, name)] c w) = Ret c'
    /\ test_results c'
       = dict_set target
           (record_row test_cycle (fst (env_now (env w) (clock w)))
                       (snd (env_now (env w) (clock w))) "Target ping"
                       res target name)
           (test_results c)
    /\ List.length (test_results c') = List.length (test_results c).
Proof.
  intros Hans Hkey. cbn [ping_targets].
  unfold bind at 1. rewrite date_and_tod_run.
  assert (H1 : forall t, ping_answered (env (snd (tick w))) t = true)
    by exact Hans.
  revert H1. generalize (snd (tick w)). intros w1 H1.
  destruct (pinger_returns target 2%Z w1 H1) as (out & Hout).
  unfold bind at 1. rewrite (run_ret _ _ _ Hout).
  generalize (snd (pinger target 2%Z w1)). intros w2.
  destruct (alert_returns any_event (negb (String.eqb out "Good")) 1%Z
              (quiet params) w2 (fun _ _ => eq_refl) eq_refl)
    as (_ & Hrun & _).
  unfold bind at 1. rewrite Hrun. unfold ret. cbn [fst].
  eexists. exists out. split; [reflexivity|]. cbn [test_results].
  split; [reflexivity|]. apply dict_set_known_length. exact Hkey.
Qed.

Lemma target_record_overwrites_witness :
  exists c' res,
    fst (ping_targets sample_params 1 [("VPN ping", "host-a")]%string
                      sample_cycle opened_world) = Ret c'
    /\ test_results c'
       = dict_set "VPN ping"
           (record_row 1 "2021/04/18" "12:00:00" "Target ping" res
                       "VPN ping" "host-a")
           sample_rows
    /\ List.length (test_results c') = 2.
Proof.
  apply (target_record_overwrites sample_params 1 "VPN ping" "host-a"
           sample_cycle opened_world).
  - intros t. reflexivity.
  - discriminate.
Defined.

Lemma string_of_uint_comma_free (u : Decimal.uint) :
  contains comma (NilEmpty.string_of_uint u) = false.
Proof. induction u; simpl; auto. Qed.

Lemma str_comma_free (n : Z) : contains comma (str n) = false.
Proof.
  destruct n; simpl; try reflexivity; apply string_of_uint_comma_free.
Qed.

(** X15. The outcome is the fifth field of a record: it is read back from
    the row whatever the address and the label hold, as long as date,
    time, kind and outcome hold no comma. *)
Theorem record_row_outcome (test_cycle : Z)
        (date tod kind result address name : string) :
  comma_free date = true -> comma_free tod = true ->
  comma_free kind = true -> comma_free result = true ->
  row_result (record_row test_cycle date tod kind result address name)
  = result.
Proof.
  unfold comma_free. intros Hd Ht Hk Hr.
  apply negb_true_iff in Hd, Ht, Hk, Hr.
  unfold row_result, record_row. cbn [String.append].
  rewrite (split_first_field comma _ _ 5 (str_comma_free test_cycle)).
  rewrite (split_first_field comma _ _ 4 Hd).
  rewrite (split_first_field comma _ _ 3 Ht).
  rewrite (split_first_field comma _ _ 2 Hk).
  rewrite (split_first_field comma _ _ 1 Hr).
  reflexivity.
Qed.

Lemma record_row_outcome_witness :
  row_result (record_row 1 "2021/04/18" "12:00:00" "Target ping" "Warn"
                         "10.0.0.2" "rack 4, row 2")
  = "Warn"%string.
Proof.
  apply (record_row_outcome 1 "2021/04/18" "12:00:00" "Target ping" "Warn"
           "10.0.0.2" "rack 4, row 2"); reflexivity.
Defined.

(** ** The handler of Control-C *)

Lemma close_enters (w : World) :
  exists mid,
    trace (snd (VPNClient.close w)) = trace w ++ EvEnter "close" :: mid.
Proof.
  unfold VPNClient.close. unfold bind at 1. unfold emit at 1.
  cbv beta iota.
  match goal with
  | |- context [bind isalive ?k ?w2] =>
      destruct (appends_close_body any_event (fun _ _ => eq_refl) w2)
        as (mid & Ht & _)
  end.
  exists mid. rewrite Ht. simpl. rewrite <- app_assoc. reflexivity.
Qed.

Lemma appends_handler_tail :
  appends any_event
    (try_except
       (fun w => match sd_datalogfile w with
                 | Some _ => sd_datalogfile_close w
                 | None => (Ret tt, w)
                 end)
       any_exception (fun _ => ret tt) ;;;
     @exit unit 0%Z).
Proof.
  apply appends_bind; [|intros; apply appends_exit].
  apply appends_try_except; [|intros; apply appends_ret].
  intros w. unfold sd_datalogfile_close.
  destruct (sd_datalogfile w) as [[path [|]]|] eqn:E.
  - destruct (appends_file_close any_event (fun _ _ => eq_refl) path w)
      as (evs & H). exists evs. exact H.
  - exists []. simpl. rewrite app_nil_r. auto.
  - exists []. simpl. rewrite app_nil_r. auto.
Qed.

Lemma signal_handler_head (w : World) :
  sd_vpnclient w = true ->
  try_except
    (fun w => if sd_vpnclient w then (VPNClient.close ;;; ret tt) w
              else (Ret tt, w))
    any_exception (fun _ => ret tt) w
  = (Ret tt, snd (VPNClient.close w)).
Proof.
  intros Hsd. unfold try_except, bind. rewrite Hsd.
  destruct (VPNClient.close w) as [[r|e] w1]; reflexivity.
Qed.

Lemma signal_handler_trace (w : World) :
  sd_vpnclient w = true ->
  exists evs,
    trace (snd (signal_handler w)) = trace w ++ EvEnter "close" :: evs.
Proof.
  intros Hsd. unfold signal_handler. unfold bind at 1.
  rewrite (signal_handler_head w Hsd). cbv beta iota.
  destruct (close_enters w) as (mid & Ht).
  destruct (appends_handler_tail (snd (VPNClient.close w)))
    as (evs2 & Ht2 & _).
  exists (mid ++ evs2). rewrite Ht2, Ht. rewrite <- app_assoc.
  reflexivity.
Qed.

(** X16. Once [main] has stored the client instance, the handler of
    Control-C enters [close] before anything else, and ends the process
    with exit code 0 whatever [close] does. *)
Theorem signal_handler_closes_session (w : World) :
  sd_vpnclient w = true ->
  fst (signal_handler w) = Raise (SystemExit 0)
  /\ exists evs,
      trace (snd (signal_handler w)) = trace w ++ EvEnter "close" :: evs.
Proof.
  intros Hsd. split; [apply signal_handler_exits_0|].
  apply signal_handler_trace. exact Hsd.
Qed.

Lemma signal_handler_closes_session_witness :
  fst (signal_handler opened_world) = Raise (SystemExit 0)
  /\ exists evs,
      trace (snd (signal_handler opened_world)) = EvEnter "close" :: evs.
Proof.
  apply (signal_handler_closes_session opened_world). reflexivity.
Defined.

(** ** VPNClient.open: the hard exits after the spawn *)

(** X5. Once the shell is spawned and has shown its prompt, a hard exit of
    [open] (vpncli does not start, or the initial disconnect fails) comes
    only after the attempted teardown of the child, with exit code 1. *)
Theorem open_hard_exit_tears_down (w : World) :
  env_call (env w) (clock w) = true ->
  env_call (env w) (S (clock w)) = true ->
  env_call (env w) (2 + clock w) = true ->
  env_expect (env w) (3 + clock w) = Shows ">" ->
  forall e w',
    VPNClient.open_prelude w = (Raise e, w') ->
    e = SystemExit 1
    /\ exists evs,
        trace w' = trace w ++ evs /\ ends_in_teardown evs = true.
Proof.
  destruct w as [e0 c vp sc sd wr tr]. simpl. intros C0 C1 C2 H3.
  unfold VPNClient.open_prelude, VPNClient.open_preempt,
    VPNClient.open_spawn, VPNClient.open_start_cli,
    VPNClient.open_disconnect.
  unfold_session.
  rewrite C0; simpl. rewrite C1; simpl. rewrite C2; simpl.
  rewrite H3; simpl.
  repeat ask_oracle; intros e w' H; inversion H; subst;
    (split; [reflexivity|]); eexists;
    (split; [simpl; rewrite <- ?app_assoc; simpl; reflexivity
            | reflexivity]).
Qed.

Lemma open_hard_exit_tears_down_witness :
  exists w',
    VPNClient.open_prelude (initial_world no_cli_env)
    = (Raise (SystemExit 1), w')
    /\ ends_in_teardown (trace w') = true.
Proof.
  destruct (VPNClient.open_prelude (initial_world no_cli_env))
    as [[[]|e] w'] eqn:E; [vm_compute in E; discriminate E|].
  destruct (open_hard_exit_tears_down (initial_world no_cli_env)
              eq_refl eq_refl eq_refl eq_refl e w' E)
    as (He & evs & Ht & Hend).
  exists w'. subst e. split; [reflexivity|].
  simpl in Ht. rewrite Ht. exact Hend.
Defined.

(** ** A cycle whose gateway ping is mixed *)

(** X17. A gateway that answers only one of its two pings is not connected
    to: the ping is recorded as "Warn", [open] is not called and is
    recorded as "Fail", and the alert is sounded for both. *)
Theorem gateway_warn_cycle (params : Params) (test_cycle : Z) (w : World)
        (b : bool) (l1 l2 : list bool) :
  env_ping (env w) (S (clock w)) = Some (b :: l1) ->
  env_ping (env w) (S (S (clock w))) = Some (negb b :: l2) ->
  let now := env_now (env w) (clock w) in
  exists w' evs,
    ping_and_open params test_cycle w
    = (Ret ("Fail"%string,
            {| test_results :=
                 [("VPN ping"%string,
                   record_row test_cycle (fst now) (snd now) "VPN ping"
                              "Warn" (vpnurlip params) (vpnname params));
                  ("VPN open"%string,
                   record_row test_cycle (fst now) (snd now) "VPN open"
                              "Fail" (vpnurlip params) (vpnname params))];
               tgood := 0; twarn := 0; tfail := 0 |}), w')
    /\ trace w' = trace w ++ evs
    /\ count_events (Event_is_enter "open") evs = 0
    /\ count_events (Event_is_enter "sounder") evs = 2.
Proof.
  intros H1 H2 now. subst now.
  destruct w as [e c vp sc sd wr tr]. simpl in *.
  unfold_cycle. rewrite H1. simpl. rewrite H2. simpl.
  destruct b; simpl; destruct (quiet params); simpl;
    eexists; eexists; (split; [reflexivity|]); simpl;
    (split; [rewrite <- ?app_assoc; simpl; reflexivity|]);
    split; reflexivity.
Qed.

Lemma gateway_warn_cycle_witness :
  exists w' evs c,
    ping_and_open sample_params 1 (started_world
                                     {| env_call := fun _ => true;
                                        env_expect := fun _ => Silent;
                                        env_alive := fun _ => false;
                                        env_ping :=
                                          fun t => Some [Nat.eqb t 1];
                                        env_exists := fun _ => false;
                                        env_read := fun _ => None;
                                        env_file := fun _ => FOk;
                                        env_now :=
                                          fun _ => ("2021/04/18",
                                                    "12:00:00")%string;
                                        env_sleep := fun _ => Slept |})
    = (Ret ("Fail"%string, c), w')
    /\ trace w' = evs
    /\ count_events (Event_is_enter "open") evs = 0
    /\ count_events (Event_is_enter "sounder") evs = 2.
Proof.
  match goal with
  | |- context [started_world ?e] =>
      destruct (gateway_warn_cycle sample_params 1 (started_world e)
                  true [] [] eq_refl eq_refl)
        as (w' & evs & Hrun & Ht & Hopen & Hsound)
  end.
  exists w', evs. eexists. split; [exact Hrun|].
  split; [exact Ht|]. split; [exact Hopen | exact Hsound].
Defined.

(** ** datalogger: what reaches the caller *)

Lemma file_error_exn {A} (r : FileReply) (ok : M A) (w : World) (e : Exn) :
  (forall e', fst (ok w) <> Raise e') ->
  fst (file_error r ok w) = Raise e -> is_file_exn e = true.
Proof.
  intros Hok. destruct r; simpl; intros H.
  - exfalso. exact (Hok e H).
  - inversion H. reflexivity.
  - inversion H. reflexivity.
Qed.

Lemma file_write_exn (path row : string) (w : World) (e : Exn) :
  fst (file_write path row w) = Raise e -> is_file_exn e = true.
Proof.
  unfold file_write, bind, tick, ask, emit. simpl.
  apply file_error_exn. intros e'. discriminate.
Qed.

Lemma write_entries_exn (path : string) (rows : dict) :
  forall w e,
    fst (write_entries path rows w) = Raise e -> is_file_exn e = true.
Proof.
  induction rows as [|[k row] rows IH]; intros w e; simpl;
    [discriminate|].
  unfold bind at 1.
  pose proof (file_write_exn path row w) as Hw.
  destruct (file_write path row w) as [[[]|e'] w1]; simpl in *.
  - apply IH.
  - intros H. inversion H. subst. apply Hw. reflexivity.
Qed.

Lemma datalogger_try_exn (path : string) (rows : dict) (w : World)
      (e : Exn) :
  fst (datalogger_try path rows w) = Raise e -> is_file_exn e = true.
Proof.
  unfold datalogger_try. unfold bind at 1.
  assert (Ho : forall e', fst (file_open path w) = Raise e' ->
                          is_file_exn e' = true).
  { intros e'. unfold file_open, bind, tick, ask, emit. simpl.
    apply file_error_exn. intros e''. discriminate. }
  destruct (file_open path w) as [[[]|e'] w1]; simpl in *;
    [|intros H; inversion H; subst; apply Ho; reflexivity].
  unfold bind at 1.
  pose proof (write_entries_exn path rows w1) as Hw.
  destruct (write_entries path rows w1) as [[[]|e'] w2]; simpl in *;
    [|intros H; inversion H; subst; apply Hw; reflexivity].
  unfold bind at 1.
  assert (Hc : forall e', fst (file_close path w2) = Raise e' ->
                          is_file_exn e' = true).
  { intros e'. unfold file_close, bind, tick, ask, emit. simpl.
    apply file_error_exn. intros e''. discriminate. }
  destruct (file_close path w2) as [[[]|e'] w3]; simpl in *;
    [discriminate|].
  intros H; inversion H; subst; apply Hc; reflexivity.
Qed.

Lemma try_except_run {A} (body : M A) (catches : Exn -> bool)
      (handler : Exn -> M A) (w : World) :
  try_except body catches handler w
  = match body w with
    | (Raise e, w') => if catches e then handler e w' else (Raise e, w')
    | r => r
    end.
Proof. reflexivity. Qed.

Lemma bind_run {A B} (m : M A) (k : A -> M B) (w : World) :
  bind m k w
  = match m w with
    | (Ret a, w') => k a w'
    | (Raise e, w') => (Raise e, w')
    end.
Proof. reflexivity. Qed.

Lemma datalogger_attempt_results (n : nat) (path : string) (rows : dict)
      (w : World) :
  exists w',
    datalogger_attempt n path rows w = (Ret true, w')
    \/ datalogger_attempt n path rows w = (Ret false, w')
    \/ datalogger_attempt n path rows w = (Raise (SystemExit 1), w').
Proof.
  unfold datalogger_attempt.
  rewrite (try_except_run (datalogger_try path rows)).
  pose proof (datalogger_try_exn path rows w) as Hexn.
  destruct (datalogger_try path rows w) as [[b|e] w1]; simpl in Hexn.
  - exists w1. destruct b; auto.
  - specialize (Hexn e eq_refl).
    destruct e; try discriminate Hexn; cbn [is_Exception is_PermissionError].
    + unfold bind.
      destruct (Nat.ltb 0 n); simpl; eexists; right; left; reflexivity.
    + match goal with
      | |- context [bind (try_except ?b any_exception ?h) ?k w1] =>
          rewrite (bind_run (try_except b any_exception h) k w1);
          destruct (swallowed_returns b tt w1) as (x & Hx);
          destruct (try_except b any_exception h w1) as [r w2]
      end.
      simpl in Hx. subst r. exists w2. right. right. reflexivity.
Qed.

(** X18. Whatever the file system does, [datalogger] gives its caller
    "Good" or "Fail", or ends the process with exit code 1; no error of
    the file reaches [main]. *)
Theorem datalogger_results (datalog_file : string) (test_data : dict)
        (w : World) :
  fst (datalogger datalog_file test_data w) = Ret "Good"%string
  \/ fst (datalogger datalog_file test_data w) = Ret "Fail"%string
  \/ fst (datalogger datalog_file test_data w) = Raise (SystemExit 1).
Proof.
  assert (Hloop : forall r w1,
             fst (datalogger_loop r datalog_file test_data w1)
             = Ret "Good"%string
             \/ fst (datalogger_loop r datalog_file test_data w1)
                = Ret "Fail"%string
             \/ fst (datalogger_loop r datalog_file test_data w1)
                = Raise (SystemExit 1)).
  { induction r as [|r IH]; intros w1; cbn [datalogger_loop].
    - right. left. reflexivity.
    - unfold bind.
      destruct (datalogger_attempt_results r datalog_file test_data w1)
        as (w2 & [H | [H | H]]); rewrite H.
      + left. reflexivity.
      + apply IH.
      + right. right. reflexivity. }
  apply (Hloop VPNMON_DATALOG_WRITE_MAX_RETRIES
               (snd (emit (EvEnter "datalogger") w))).
Qed.
